(** * Skill_Issue: chess mistake extraction and habit analysis

    A shallow embedding of [backend/matches.py] (the move feature
    extractor) and [backend/analysis.py] (the clustering / trigger /
    feedback pipeline), with the properties of the specification stated
    and settled against it.

    Layout:
    - [Py]       : Python exceptions as results;
    - [Chess]    : the part of the python-chess board API the extractor calls;
    - [Matches]  : [backend/matches.py];
    - [MatchesValues] : value sets of the records;
    - [Gower]    : the dissimilarity matrix of [_run_hdbscan_clustering];
    - [Analysis] : [backend/analysis.py];
    - [AnalysisValues] : event counts and feature names;
    - [Ingest]   : [process_user_games] of [backend/matches.py] and
                   [batch_insert_mistakes] of [backend/db_helpers.py]. *)

From Stdlib Require Import ZArith QArith Reals Lra Lia List Bool String Ascii DecimalString.
From Stdlib Require DecimalZ DecimalPos.
From stdpp Require Import base gmap strings list.

Local Open Scope Z_scope.

(* ===================================================================== *)
(** * Python results                                                     *)
(* ===================================================================== *)

Module Py.

(** An exception that escapes a function is a result of it. *)
Inductive exn :=
| KeyError (key : string)
| AttributeError
| ValueError
| EngineError.

Inductive res (A : Type) :=
| Ok (a : A)
| Raise (e : exn).
Arguments Ok {A} a.
Arguments Raise {A} e.

#[global] Instance res_ret : MRet res := fun A a => Ok a.
#[global] Instance res_bind : MBind res := fun A B k r =>
  match r with
  | Ok a => k a
  | Raise e => Raise e
  end.

End Py.

(* ===================================================================== *)
(** * The python-chess board, as far as the extractor uses it           *)
(* ===================================================================== *)

Module Chess.

(** Squares are numbered as in python-chess: A1 = 0, B1 = 1, ..., H8 = 63. *)
Definition Square := nat.

(** [chess.WHITE = True], [chess.BLACK = False]; [not color] is [negb]. *)
Definition Color := bool.
Definition WHITE : Color := true.
Definition BLACK : Color := false.

Inductive PieceType := PAWN | KNIGHT | BISHOP | ROOK | QUEEN | KING.

Record Piece := mkPiece { piece_type : PieceType; color : Color }.

Record Move := mkMove {
  from_square : nat;
  to_square : nat;
  promotion : option PieceType
}.

#[global] Instance PieceType_eq_dec : EqDecision PieceType.
Proof. solve_decision. Defined.
#[global] Instance Piece_eq_dec : EqDecision Piece.
Proof. solve_decision. Defined.
#[global] Instance Move_eq_dec : EqDecision Move.
Proof. solve_decision. Defined.

(** The state of a [chess.Board] object: the piece placement
    ([BaseBoard]'s bitboards, here a finite map from squares), the mask of
    promoted pieces, the side to move, castling rights, en-passant square,
    the two move counters and the move stack. *)
Record Board := mkBoard {
  placement : gmap nat Piece;
  promoted : gset nat;
  turn : Color;
  castling_rights : gset nat;
  ep_square : option nat;
  halfmove_clock : nat;
  fullmove_number : Z;
  move_stack : list Move
}.

Definition SQUARES : list nat := seq 0 64.

Definition square_file (s : nat) : Z := Z.of_nat (s mod 8).
Definition square_rank (s : nat) : Z := Z.of_nat (s / 8).
Definition square (f r : Z) : nat := Z.to_nat (r * 8 + f).

(** [board.piece_at(square)] *)
Definition piece_at (b : Board) (s : nat) : option Piece := placement b !! s.

Definition occupied (b : Board) (s : nat) : bool :=
  bool_decide (is_Some (piece_at b s)).

(** ** Attack geometry

    python-chess answers attack queries from precomputed bitboard tables
    ([BB_KING_ATTACKS], [BB_KNIGHT_ATTACKS], [BB_PAWN_ATTACKS], and the
    rank/file/diagonal tables indexed by the occupancy of the line).  The
    tables encode the usual rules, written out here: a slider attacks
    along its lines up to and including the first occupied square. *)

Definition path_clear (b : Board) (s t : nat) : bool :=
  let df := Z.sgn (square_file t - square_file s) in
  let dr := Z.sgn (square_rank t - square_rank s) in
  let n := Z.max (Z.abs (square_file t - square_file s))
                 (Z.abs (square_rank t - square_rank s)) in
  forallb (fun k => negb (occupied b (square (square_file s + k * df)
                                             (square_rank s + k * dr))))
          (seqZ 1 (n - 1)).

Definition on_line (s t : nat) : bool :=
  negb (Nat.eqb s t) &&
  (Z.eqb (square_file s) (square_file t) || Z.eqb (square_rank s) (square_rank t)).

Definition on_diagonal (s t : nat) : bool :=
  negb (Nat.eqb s t) &&
  Z.eqb (Z.abs (square_file t - square_file s)) (Z.abs (square_rank t - square_rank s)).

(** Does piece [p], standing on [s], attack square [t]? *)
Definition piece_attacks (b : Board) (s : nat) (p : Piece) (t : nat) : bool :=
  let df := Z.abs (square_file t - square_file s) in
  let dr := Z.abs (square_rank t - square_rank s) in
  match piece_type p with
  | PAWN =>
      Z.eqb df 1 &&
      Z.eqb (square_rank t - square_rank s) (if color p then 1 else -1)
  | KNIGHT => (Z.eqb df 1 && Z.eqb dr 2) || (Z.eqb df 2 && Z.eqb dr 1)
  | KING => Z.eqb (Z.max df dr) 1
  | BISHOP => on_diagonal s t && path_clear b s t
  | ROOK => on_line s t && path_clear b s t
  | QUEEN => (on_diagonal s t || on_line s t) && path_clear b s t
  end.

Definition has_piece_of (b : Board) (c : Color) (s : nat) : bool :=
  match piece_at b s with
  | Some p => Bool.eqb (color p) c
  | None => false
  end.

(** [board.attackers(color, square)]: the squares holding a piece of
    [color] that attacks [square], in ascending order (the iteration
    order of a [SquareSet]). *)
Definition attackers (b : Board) (c : Color) (t : nat) : list nat :=
  List.filter (fun s => match piece_at b s with
                   | Some p => Bool.eqb (color p) c && piece_attacks b s p t
                   | None => false
                   end) SQUARES.

(** [board.is_attacked_by(color, square)] *)
Definition is_attacked_by (b : Board) (c : Color) (t : nat) : bool :=
  negb (Nat.eqb (length (attackers b c t)) 0).

(** [board.attacks(square)]: the squares attacked by the piece standing
    on [square]; empty when the square is empty. *)
Definition attacks (b : Board) (s : nat) : list nat :=
  match piece_at b s with
  | Some p => List.filter (piece_attacks b s p) SQUARES
  | None => []
  end.

(** [board.pieces(piece_type, color)] *)
Definition pieces (b : Board) (pt : PieceType) (c : Color) : list nat :=
  List.filter (fun s => bool_decide (piece_at b s = Some (mkPiece pt c))) SQUARES.

(** [board.piece_map()], as the list of its items. *)
Definition piece_map (b : Board) : list (nat * Piece) :=
  omap (fun s => match piece_at b s with
                 | Some p => Some (s, p)
                 | None => None
                 end) SQUARES.

(** [board.king(color)]: the most significant bit of the mask of
    [color]'s kings that are not promoted pieces, or [None]. *)
Definition king (b : Board) (c : Color) : option nat :=
  last (List.filter (fun s => bool_decide (piece_at b s = Some (mkPiece KING c))
                         && negb (bool_decide (s ∈ promoted b))) SQUARES).

(** [board.is_check()]: "tests if the current side to move is in check". *)
Definition is_check (b : Board) : bool :=
  match king b (turn b) with
  | Some k => is_attacked_by b (negb (turn b)) k
  | None => false
  end.

(** The queries range over the 64 squares: keep [simpl] from unfolding them. *)
#[global] Arguments attackers : simpl never.
#[global] Arguments is_attacked_by : simpl never.
#[global] Arguments attacks : simpl never.
#[global] Arguments pieces : simpl never.
#[global] Arguments piece_map : simpl never.
#[global] Arguments king : simpl never.
#[global] Arguments is_check : simpl never.

(** ** Editing the position

    [Board.remove_piece_at] and [Board.set_piece_at] change the placement
    as [BaseBoard] does and then call [clear_stack()]: "Board also clears
    the move stack".  Removing a piece also clears its promoted mark, and
    [set_piece_at(square, piece)] has [promoted=False]. *)

Definition clear_stack (b : Board) : Board :=
  mkBoard (placement b) (promoted b) (turn b) (castling_rights b)
          (ep_square b) (halfmove_clock b) (fullmove_number b) [].

Definition base_remove_piece_at (b : Board) (s : nat) : Board :=
  match piece_at b s with
  | Some _ =>
      mkBoard (delete s (placement b)) (promoted b ∖ {[ s ]}) (turn b)
              (castling_rights b) (ep_square b) (halfmove_clock b)
              (fullmove_number b) (move_stack b)
  | None => b
  end.

Definition remove_piece_at (b : Board) (s : nat) : option Piece * Board :=
  (piece_at b s, clear_stack (base_remove_piece_at b s)).

Definition set_piece_at (b : Board) (s : nat) (p : Piece) : Board :=
  let b1 := base_remove_piece_at b s in
  clear_stack
    (mkBoard (<[ s := p ]> (placement b1)) (promoted b1) (turn b1)
             (castling_rights b1) (ep_square b1) (halfmove_clock b1)
             (fullmove_number b1) (move_stack b1)).

(** ** Engine results ([chess.engine]) *)

(** [Cp(x)], [Mate(n)], [MateGiven]. *)
Inductive Score := Cp (cp : Z) | Mate (moves : Z) | MateGiven.

(** [Score.score(mate_score=m)] *)
Definition score (m : Z) (s : Score) : Z :=
  match s with
  | Cp x => x
  | Mate n => if 0 <? n then m - n else - m - n
  | MateGiven => m
  end.

Definition is_mate (s : Score) : bool :=
  match s with Cp _ => false | _ => true end.

Record PovScore := mkPovScore { relative : Score; pov_turn : Color }.

(** An [InfoDict]: every key is optional. *)
Record InfoDict := mkInfo {
  info_pv : option (list Move);
  info_score : option PovScore
}.

End Chess.

(* ===================================================================== *)
(** * backend/matches.py                                                 *)
(* ===================================================================== *)

Module Matches.
Import Py Chess.

Local Open Scope string_scope.
Local Open Scope Z_scope.

(** ** Constants *)

Definition CPL_BLUNDER : Z := 300.
Definition CPL_MISTAKE : Z := 100.
Definition CPL_INACCURACY : Z := 50.

Definition TACTIC_DIFFERENCE_THRESHOLD : Z := 150.

Definition PIECE_VALUES (pt : PieceType) : Z :=
  match pt with
  | PAWN => 1
  | KNIGHT => 3
  | BISHOP => 3
  | ROOK => 5
  | QUEEN => 9
  | KING => 100
  end.

(** The keys of the [PIECE_VALUES] dict, in insertion order. *)
Definition PIECE_VALUES_keys : list PieceType :=
  [PAWN; KNIGHT; BISHOP; ROOK; QUEEN; KING].

(** [chess.PIECE_NAMES[piece_type].upper()] *)
Definition PIECE_NAMES_upper (pt : PieceType) : string :=
  match pt with
  | PAWN => "PAWN"
  | KNIGHT => "KNIGHT"
  | BISHOP => "BISHOP"
  | ROOK => "ROOK"
  | QUEEN => "QUEEN"
  | KING => "KING"
  end.

(** [chess.COLOR_NAMES[color]] *)
Definition COLOR_NAMES (c : Color) : string :=
  if c then "white" else "black".

(** [x['score'].relative.score(mate_score=10000)] *)
Definition relative_score (p : PovScore) : Z := score 10000 (relative p).

(** [info['score']]: a missing key raises. *)
Definition get_score (i : InfoDict) : res PovScore :=
  match info_score i with
  | Some s => Ok s
  | None => Raise (KeyError "score")
  end.

(** ** Analysis helper functions *)

Definition get_mistake_type (cpl : Z) : string :=
  if cpl >=? CPL_BLUNDER then "Blunder"
  else if cpl >=? CPL_MISTAKE then "Mistake"
  else if cpl >=? CPL_INACCURACY then "Inaccuracy"
  else "Good".

(** The [for attacker_square in opponent_attackers] loop of
    [is_move_a_hang], started at 100. *)
Definition lowest_attacker_value (b : Board) (opponent_attackers : list nat) : Z :=
  fold_left (fun lowest attacker_square =>
               match piece_at b attacker_square with
               | Some attacker_piece =>
                   Z.min lowest (PIECE_VALUES (piece_type attacker_piece))
               | None => lowest
               end)
            opponent_attackers 100.

Definition is_move_a_hang (b : Board) (move : Move) : bool :=
  match piece_at b (from_square move) with
  | None => false
  | Some moved_piece =>
      let moved_piece_value := PIECE_VALUES (piece_type moved_piece) in
      let user_color := turn b in
      let opponent_color := negb user_color in
      let opponent_attackers := attackers b opponent_color (to_square move) in
      match opponent_attackers with
      | [] => false
      | _ :: _ =>
          let our_defenders := attackers b user_color (to_square move) in
          match our_defenders with
          | [] => true
          | _ :: _ =>
              if moved_piece_value >? lowest_attacker_value b opponent_attackers
              then true
              else false
          end
      end
  end.

Definition get_mistake_category (b : Board) (move : Move)
           (analysis : list InfoDict) : res string :=
  let rest :=
    if is_move_a_hang b move then "Hanging_Piece" else "Positional_Error" in
  match analysis with
  | i0 :: i1 :: _ =>
      best ← get_score i0;
      second_best ← get_score i1;
      if relative_score best - relative_score second_best
           >? TACTIC_DIFFERENCE_THRESHOLD
      then Ok "Missed_Tactic"
      else Ok rest
  | _ => Ok rest
  end.

Definition get_game_phase (b : Board) : string :=
  let pieces := Z.of_nat (length (piece_map b)) in
  if (fullmove_number b <? 12) && (pieces >? 28) then "Opening"
  else if pieces <? 14 then "Endgame"
  else "Middlegame".

(** [diff] is an integer: [diff > 1.5] is [2 * diff > 3]. *)
Definition get_material_balance (b : Board) (user_color : Color) : string :=
  let side c :=
    fold_left (fun acc pt =>
                 match pt with
                 | KING => acc
                 | _ => acc + Z.of_nat (length (pieces b pt c)) * PIECE_VALUES pt
                 end) PIECE_VALUES_keys 0 in
  let diff := side user_color - side (negb user_color) in
  if 2 * diff >? 3 then "Winning"
  else if 2 * diff <? -3 then "Losing"
  else "Equal".

Definition get_king_safety (b : Board) (c : Color) : string :=
  if is_check b then "In_Check"
  else
    match king b c with
    | None => "Safe"
    | Some king_square =>
        let nearby_squares := attacks b king_square in
        let attackers :=
          fold_left (fun n sq => if is_attacked_by b (negb c) sq then n + 1 else n)
                    nearby_squares 0 in
        if attackers >? 3 then "Exposed" else "Safe"
    end.

Definition get_board_complexity (b : Board) : string :=
  let piece_count := Z.of_nat (length (piece_map b)) in
  if piece_count >? 26 then "High"
  else if piece_count <? 10 then "Low"
  else "Medium".

(** The piece on [sq] is taken off the board, the other pieces of its
    type are examined, and the piece is set back; the board that the
    caller keeps is the second component. *)
Definition is_piece_defending (b : Board) (sq : nat) (c : Color) : bool * Board :=
  match piece_at b sq with
  | None => (false, b)
  | Some piece =>
      let b1 := snd (remove_piece_at b sq) in
      let defended_any :=
        existsb (fun s => is_attacked_by b1 (negb c) s)
                (pieces b1 (piece_type piece) c) in
      let b2 := set_piece_at b1 sq piece in
      (defended_any, b2)
  end.

(** ** The rest of python-chess and the engine

    Making a move, the game-over test, capture / check / pin tests, the
    castling rights test and the FEN and UCI printers are python-chess
    code the properties below do not depend on; the evaluation engine is
    an external process.  They are parameters.  The engine is an oracle
    with a state of its own: its answer may differ from call to call,
    and a call may raise. *)
Class BoardOps := {
  fen : Board -> string;
  uci : Move -> string;
  push : Board -> Move -> Board;
  is_game_over : Board -> bool;
  is_capture : Board -> Move -> bool;
  gives_check : Board -> Move -> bool;
  is_pinned : Board -> Color -> nat -> bool;
  has_castling_rights : Board -> Color -> bool
}.

Class Engine := {
  EngineState : Type;
  (** [engine.analyse(board, limit, multipv=k)] *)
  analyse_multipv : EngineState -> Board -> Z -> res (list InfoDict) * EngineState;
  (** [engine.analyse(board, limit)] *)
  analyse : EngineState -> Board -> res InfoDict * EngineState
}.

(** [str.lower()]: Python's lower-casing of a Unicode string, a function
    of the library. *)
Class Text := {
  lower : string -> string
}.

Section Extractor.

Context {ops : BoardOps} {eng : Engine} {txt : Text}.

(** [chess.G1], [chess.C1], [chess.G8], [chess.C8] *)
Definition G1 : nat := 6%nat.
Definition C1 : nat := 2%nat.
Definition G8 : nat := 62%nat.
Definition C8 : nat := 58%nat.

Definition get_castling_status (b : Board) (c : Color) : string :=
  let king_square := king b c in
  let castled_squares := if c then [G1; C1] else [G8; C8] in
  let on_castled :=
    match king_square with
    | Some k => bool_decide (k ∈ castled_squares)
    | None => false
    end in
  if on_castled && negb (has_castling_rights b c) then "Has_Castled"
  else if has_castling_rights b c then "Can_Castle"
  else "Cannot_Castle".

Definition get_move_type (b : Board) (move : Move) : string :=
  if is_capture b move then "Capture"
  else if gives_check b move then "Check"
  else "Quiet".

(** The [mistake_data] dict. *)
Record mistake_data := mkMistake {
  move_number : Z;
  player_color : string;
  prior_fen : string;
  move_made : string;
  best_move : string;
  cpl : Z;
  mistake_type : string;
  mistake_category : string;
  game_phase : string;
  material_balance : string;
  board_complexity : string;
  king_self_safety : string;
  king_opponent_status : string;
  castling_status_self : string;
  piece_moved : string;
  move_type : string;
  piece_was_attacked : bool;
  piece_was_defended : bool;
  piece_was_defending : bool;
  piece_was_pinned : bool
}.

(** Does this variation start with [move]?
    [('pv' in move_info and move_info['pv'] and move_info['pv'][0] == move)] *)
Definition pv_starts_with (move : Move) (move_info : InfoDict) : bool :=
  match info_pv move_info with
  | Some (m0 :: _) => bool_decide (m0 = move)
  | _ => false
  end.

(** The [for move_info in analysis] loop: the score of the first
    variation that starts with the move played. *)
Fixpoint find_user_move_score (analysis : list InfoDict) (move : Move)
  : res (option Z) :=
  match analysis with
  | [] => Ok None
  | move_info :: rest =>
      if pv_starts_with move move_info
      then s ← get_score move_info; Ok (Some (relative_score s))
      else find_user_move_score rest move
  end.

(** The move was not among the variations: push it, analyse the
    resulting position, pop it. *)
Definition reevaluate (es : EngineState) (b : Board) (move : Move)
  : res (Z * EngineState) :=
  let '(r, es') := analyse es (push b move) in
  user_analysis ← r;
  s ← get_score user_analysis;
  Ok (if is_mate (relative s)
      then - relative_score s
      else relative_score s * -1, es').

(** The body of the loop of [analyze_game_fully], for a ply of the user in
    a position that is not over, in two parts.  First part: the engine is
    asked for two variations and the centipawn loss is computed.  [None]
    is the "No valid analysis" branch. *)
Definition evaluate_ply (es : EngineState) (b : Board) (move : Move)
  : res (option (Z * Move * list InfoDict) * EngineState) :=
  let '(r, es1) := analyse_multipv es b 2 in
  let analysis := match r with Ok l => l | Raise _ => [] end in
  match analysis with
  | best_move_info :: _ =>
      match info_pv best_move_info with
      | Some (best_move :: _) =>
          best ← get_score best_move_info;
          let best_score := relative_score best in
          found ← find_user_move_score analysis move;
          '(user_move_score, es2) ←
            match found with
            | Some s => Ok (s, es1)
            | None => reevaluate es1 b move
            end;
          let cpl := Z.max 0 (best_score - user_move_score) in
          Ok (Some (cpl, best_move, analysis), es2)
      | _ => Ok (None, es1)
      end
  | [] => Ok (None, es1)
  end.

(** Second part: the loss is classified and, unless the move is "Good",
    the record is built.  The board that the body leaves behind is the
    second component ([is_piece_defending] edits it). *)
Definition record_ply (b : Board) (move : Move) (user_color : Color)
           (cpl : Z) (best_move : Move) (analysis : list InfoDict)
  : res (option mistake_data * Board) :=
  let mistake_type := get_mistake_type cpl in
  if bool_decide (mistake_type ≠ "Good") then
    let moved_piece := piece_at b (from_square move) in
    category ← get_mistake_category b move analysis;
    let '(defending, b') :=
      is_piece_defending b (from_square move) user_color in
    Ok (Some {|
          move_number := fullmove_number b;
          player_color := COLOR_NAMES user_color;
          prior_fen := fen b;
          move_made := uci move;
          best_move := uci best_move;
          cpl := cpl;
          mistake_type := mistake_type;
          mistake_category := category;
          game_phase := get_game_phase b;
          material_balance := get_material_balance b user_color;
          board_complexity := get_board_complexity b;
          king_self_safety := get_king_safety b user_color;
          king_opponent_status := get_king_safety b (negb user_color);
          castling_status_self := get_castling_status b user_color;
          piece_moved :=
            match moved_piece with
            | Some p => PIECE_NAMES_upper (piece_type p)
            | None => "UNKNOWN"
            end;
          move_type := get_move_type b move;
          piece_was_attacked :=
            is_attacked_by b (negb user_color) (from_square move);
          piece_was_defended :=
            is_attacked_by b user_color (from_square move);
          piece_was_defending := defending;
          piece_was_pinned := is_pinned b' user_color (from_square move)
        |}, b')
  else Ok (None, b).

Definition analyze_ply (es : EngineState) (b : Board) (move : Move)
           (user_color : Color)
  : res (option mistake_data * Board * EngineState) :=
  '(ev, es2) ← evaluate_ply es b move;
  match ev with
  | Some (cpl, best_move, analysis) =>
      '(m, b') ← record_ply b move user_color cpl best_move analysis;
      Ok (m, b', es2)
  | None => Ok (None, b, es2)
  end.

(** The [for move in game.mainline_moves()] loop. *)
Fixpoint analyze_moves (moves : list Move) (es : EngineState) (b : Board)
         (user_color : Color) (mistakes_list : list mistake_data)
  : res (list mistake_data) :=
  match moves with
  | [] => Ok mistakes_list
  | move :: rest =>
      if Bool.eqb (turn b) user_color then
        if is_game_over b then
          analyze_moves rest es (push b move) user_color mistakes_list
        else
          '(m, b', es') ← analyze_ply es b move user_color;
          analyze_moves rest es' (push b' move) user_color
            (match m with
             | Some mistake => mistakes_list ++ [mistake]
             | None => mistakes_list
             end)
      else analyze_moves rest es (push b move) user_color mistakes_list
  end.

(** A parsed game: the two player headers, the starting board and the
    main line. *)
Record Game := mkGame {
  headers_White : string;
  headers_Black : string;
  game_board : Board;
  mainline_moves : list Move
}.

Definition analyze_game_fully (game : Game) (username : string)
           (engine : EngineState) : res (list mistake_data) :=
  if bool_decide (lower (headers_White game) = lower username) then
    analyze_moves (mainline_moves game) engine (game_board game) WHITE []
  else if bool_decide (lower (headers_Black game) = lower username) then
    analyze_moves (mainline_moves game) engine (game_board game) BLACK []
  else Ok [].

(** ** The specification's wording of the same quantities

    These follow the sentences of the specification, not the code; the
    facts below compare the two. *)

(** "cpl>=300 -> Blunder, >=100 -> Mistake, >=50 -> Inaccuracy, else
    discard": [None] is "discard". *)
Definition spec_mistake_type (cpl : Z) : option string :=
  if decide (300 ≤ cpl) then Some "Blunder"
  else if decide (100 ≤ cpl) then Some "Mistake"
  else if decide (50 ≤ cpl) then Some "Inaccuracy"
  else None.

(** "If the move played matches one of the top-2 lines, read its score
    directly; otherwise perform a focused single-variation re-evaluation
    of the resulting position and negate it to the mover's perspective." *)
Definition spec_player_score (es1 : EngineState) (b : Board) (move : Move)
           (lines : list InfoDict) : option Z :=
  match List.find (pv_starts_with move) lines with
  | Some line => relative_score <$> info_score line
  | None =>
      match fst (analyse es1 (push b move)) with
      | Ok reevaluation => (fun s => - relative_score s) <$> info_score reevaluation
      | Raise _ => None
      end
  end.

(** "cpl = max(0, bestScore - playerScore)" *)
Definition spec_cpl (es : EngineState) (b : Board) (move : Move) : option Z :=
  match analyse_multipv es b 2 with
  | (Ok (best_line :: others), es1) =>
      best_score ← relative_score <$> info_score best_line;
      player_score ← spec_player_score es1 b move (best_line :: others);
      Some (Z.max 0 (best_score - player_score))
  | _ => None
  end.

End Extractor.

(** "best - second-best variation gap > 150 centipawns" *)
Definition spec_tactic_gap (analysis : list InfoDict) : bool :=
  match analysis with
  | best_line :: second_line :: _ =>
      match info_score best_line, info_score second_line with
      | Some best, Some second =>
          bool_decide (150 < relative_score best - relative_score second)
      | _, _ => false
      end
  | _ => false
  end.

(** The value of the cheapest piece of [c] attacking [t], if any. *)
Definition cheapest_attacker_value (b : Board) (c : Color) (t : nat) : option Z :=
  match omap (fun s => (fun p => PIECE_VALUES (piece_type p)) <$> piece_at b s)
             (attackers b c t) with
  | [] => None
  | v :: vs => Some (foldr Z.min v vs)
  end.

(** "the destination square is attacked by the opponent and either
    undefended, or the moved piece's value exceeds the cheapest attacker's
    value", read on a position [pos], for the side [user] that moves a
    piece to the square [t]. *)
Definition hang_test (pos : Board) (user : Color) (t : nat) (moved_piece : Piece)
  : bool :=
  let opponent := negb user in
  is_attacked_by pos opponent t &&
  (negb (is_attacked_by pos user t) ||
   match cheapest_attacker_value pos opponent t with
   | Some cheapest => bool_decide (cheapest < PIECE_VALUES (piece_type moved_piece))
   | None => false
   end).

(** The position with the moved piece on its destination: the square it
    came from is empty, and what stood on the destination is gone. *)
Definition piece_placed (b : Board) (move : Move) (moved_piece : Piece) : Board :=
  mkBoard (<[ to_square move := moved_piece ]>
             (delete (from_square move) (placement b)))
          (promoted b) (turn b) (castling_rights b) (ep_square b)
          (halfmove_clock b) (fullmove_number b) (move_stack b).

(** The hanging piece of the specification: the test is about the piece
    where the move puts it.  The moved piece does not defend the square
    it stands on. *)
Definition spec_is_hang (b : Board) (move : Move) (moved_piece : Piece) : bool :=
  hang_test (piece_placed b move moved_piece) (turn b) (to_square move)
            moved_piece.

(** "first match wins" *)
Definition spec_mistake_category (b : Board) (move : Move) (moved_piece : Piece)
           (analysis : list InfoDict) : string :=
  if spec_tactic_gap analysis then "Missed_Tactic"
  else if spec_is_hang b move moved_piece then "Hanging_Piece"
  else "Positional_Error".

(** Is the king of [c] in check? *)
Definition king_in_check (b : Board) (c : Color) : bool :=
  match king b c with
  | Some k => is_attacked_by b (negb c) k
  | None => false
  end.

(** The number of squares next to the king of [c] that the opponent attacks. *)
Definition attacked_king_neighbours (b : Board) (c : Color) : Z :=
  match king b c with
  | Some k =>
      Z.of_nat (length (List.filter (is_attacked_by b (negb c)) (attacks b k)))
  | None => 0
  end.

(** "In_Check if in check, else Exposed if more than 3 opponent-reachable
    squares adjacent to the king, else Safe" *)
Definition spec_king_safety (b : Board) (c : Color) : string :=
  if king_in_check b c then "In_Check"
  else if bool_decide (3 < attacked_king_neighbours b c) then "Exposed"
  else "Safe".

(** Lower-casing of the letters A to Z, which is what [str.lower()] does
    to a string of ASCII characters. *)
Definition ascii_lower (c : ascii) : ascii :=
  let n := nat_of_ascii c in
  if (65 <=? n)%nat && (n <=? 90)%nat then ascii_of_nat (n + 32) else c.

Fixpoint lower_ascii (s : string) : string :=
  match s with
  | EmptyString => EmptyString
  | String c r => String (ascii_lower c) (lower_ascii r)
  end.

(** Every character of the string is an ASCII character. *)
Definition only_ascii (s : string) : Prop :=
  Forall (fun c => (nat_of_ascii c < 128)%nat) (list_ascii_of_string s).

#[local] Instance ascii_text : Text := {| lower := lower_ascii |}.

(** ** A small instance for examples

    The remaining board operations reduced to what an example needs (a
    move carries the piece from its square to the target and passes the
    turn), and an engine that replays a script of answers. *)

Definition example_push (b : Board) (move : Move) : Board :=
  mkBoard
    (match piece_at b (from_square move) with
     | Some p => <[ to_square move := p ]> (delete (from_square move) (placement b))
     | None => placement b
     end)
    (promoted b) (negb (turn b)) (castling_rights b) None (halfmove_clock b)
    (if turn b then fullmove_number b else fullmove_number b + 1)
    (move_stack b ++ [move]).

#[local] Instance example_ops : BoardOps := {|
  fen := fun _ => "";
  uci := fun _ => "";
  push := example_push;
  is_game_over := fun _ => false;
  is_capture := fun b move => occupied b (to_square move);
  gives_check := fun _ _ => false;
  is_pinned := fun _ _ _ => false;
  has_castling_rights := fun _ _ => false
|}.

#[local] Instance scripted_engine : Engine := {|
  EngineState := list (list InfoDict);
  analyse_multipv := fun script _ k =>
    match script with
    | answer :: rest => (Ok (take (Z.to_nat k) answer), rest)
    | [] => (Raise EngineError, [])
    end;
  analyse := fun script _ =>
    match script with
    | (info :: _) :: rest => (Ok info, rest)
    | _ => (Raise EngineError, tail script)
    end
|}.

(** White: king e1, queen d1.  Black: king a8, rook e8, pawn h6.  White
    is to move and in check from the rook; the game has one move behind
    it (Rh8-e8). *)
Definition A1 : nat := 0%nat.
Definition A5 : nat := 32%nat.
Definition H5 : nat := 39%nat.
Definition E1 : nat := 4%nat.
Definition D1 : nat := 3%nat.
Definition A8 : nat := 56%nat.
Definition E8 : nat := 60%nat.
Definition H6 : nat := 47%nat.
Definition E2 : nat := 12%nat.
Definition D2 : nat := 11%nat.
Definition F1 : nat := 5%nat.
Definition H8 : nat := 63%nat.

Definition example_board : Board :=
  mkBoard
    (list_to_map [(E1, mkPiece KING WHITE); (D1, mkPiece QUEEN WHITE);
                  (A8, mkPiece KING BLACK); (E8, mkPiece ROOK BLACK);
                  (H6, mkPiece PAWN BLACK)])
    ∅ WHITE ∅ None 0%nat 30 [mkMove H8 E8 None].



(** A game that starts from [example_board]: White ("Alice") blocks
    the check with Qd1-e2 and Black takes the queen.  The engine's two
    variations for the first position start with king moves; asked about
    the position after Qe2 it scores it +400 for Black. *)
Definition example_game : Game :=
  mkGame "Alice" "Bob" example_board
         [mkMove D1 E2 None; mkMove E8 E2 None].

Definition example_script : list (list InfoDict) :=
  [ [mkInfo (Some [mkMove E1 F1 None]) (Some (mkPovScore (Cp 0) WHITE));
     mkInfo (Some [mkMove E1 D2 None]) (Some (mkPovScore (Cp (-30)) WHITE))];
    [mkInfo (Some [mkMove E8 E2 None]) (Some (mkPovScore (Cp 400) BLACK))] ].

(** White: king g1, rook a1.  Black: king h8, rook h5.  White is to move
    (7k/8/8/7r/8/8/8/R5K1 w). *)
Definition hang_board : Board :=
  mkBoard
    (list_to_map [(A1, mkPiece ROOK WHITE); (G1, mkPiece KING WHITE);
                  (H8, mkPiece KING BLACK); (H5, mkPiece ROOK BLACK)])
    ∅ WHITE ∅ None 0%nat 40 [].

(** A game that starts from [hang_board]: White ("Alice") plays Ra1-a5
    and Black takes the rook.  The engine's two variations for the first
    position start with king moves, 30 centipawns apart; asked about the
    position after Ra5 it scores it +500 for Black. *)
Definition hang_game : Game :=
  mkGame "Alice" "Bob" hang_board [mkMove A1 A5 None; mkMove H5 A5 None].

Definition hang_script : list (list InfoDict) :=
  [ [mkInfo (Some [mkMove G1 F1 None]) (Some (mkPovScore (Cp 0) WHITE));
     mkInfo (Some [mkMove G1 14%nat None]) (Some (mkPovScore (Cp (-30)) WHITE))];
    [mkInfo (Some [mkMove H5 A5 None]) (Some (mkPovScore (Cp 500) BLACK))] ].

End Matches.

(* ===================================================================== *)
(** * backend/matches.py: value sets and collaborators of the records    *)
(* ===================================================================== *)

Module MatchesValues.
Import Py Chess Matches.

Local Open Scope string_scope.
Local Open Scope Z_scope.

(** The strings each helper can return, as its [return] statements list
    them. *)
Definition MISTAKE_TYPES : list string := ["Blunder"; "Mistake"; "Inaccuracy"].
Definition MISTAKE_CATEGORIES : list string :=
  ["Missed_Tactic"; "Hanging_Piece"; "Positional_Error"].
Definition GAME_PHASES : list string := ["Opening"; "Endgame"; "Middlegame"].
Definition MATERIAL_BALANCES : list string := ["Winning"; "Losing"; "Equal"].
Definition BOARD_COMPLEXITIES : list string := ["High"; "Low"; "Medium"].
Definition KING_SAFETIES : list string := ["In_Check"; "Exposed"; "Safe"].
Definition CASTLING_STATUSES : list string :=
  ["Has_Castled"; "Can_Castle"; "Cannot_Castle"].
Definition MOVE_TYPES : list string := ["Capture"; "Check"; "Quiet"].
Definition PIECE_MOVED_VALUES : list string :=
  ["PAWN"; "KNIGHT"; "BISHOP"; "ROOK"; "QUEEN"; "KING"; "UNKNOWN"].

(** How severe a mistake type is, "Good" being the least. *)
Definition severity (mistake_type : string) : Z :=
  if bool_decide (mistake_type = "Blunder") then 3
  else if bool_decide (mistake_type = "Mistake") then 2
  else if bool_decide (mistake_type = "Inaccuracy") then 1
  else 0.

(** The constraints of the [mistakes] table of [init_db.py] on the string
    columns of a record:
    [player_color VARCHAR(5) CHECK (player_color IN ('white', 'black'))],
    [move_made VARCHAR(10)], [best_move VARCHAR(10)],
    [piece_moved VARCHAR(10)], [mistake_category VARCHAR(100)] and
    [VARCHAR(50)] for the other categorical columns ([prior_fen] is
    [TEXT]). *)
Definition fits_mistakes_table (m : mistake_data) : Prop :=
  player_color m ∈ ["white"; "black"]
  /\ (String.length (player_color m) <= 5)%nat
  /\ (String.length (piece_moved m) <= 10)%nat
  /\ (String.length (mistake_type m) <= 50)%nat
  /\ (String.length (mistake_category m) <= 100)%nat
  /\ (String.length (game_phase m) <= 50)%nat
  /\ (String.length (material_balance m) <= 50)%nat
  /\ (String.length (board_complexity m) <= 50)%nat
  /\ (String.length (king_self_safety m) <= 50)%nat
  /\ (String.length (king_opponent_status m) <= 50)%nat
  /\ (String.length (castling_status_self m) <= 50)%nat
  /\ (String.length (move_type m) <= 50)%nat
  /\ (String.length (move_made m) <= 10)%nat
  /\ (String.length (best_move m) <= 10)%nat.

(** Every categorical field holds one of the strings its helper returns. *)
Definition values_in_range (m : mistake_data) : Prop :=
  mistake_type m ∈ MISTAKE_TYPES
  /\ mistake_category m ∈ MISTAKE_CATEGORIES
  /\ game_phase m ∈ GAME_PHASES
  /\ material_balance m ∈ MATERIAL_BALANCES
  /\ board_complexity m ∈ BOARD_COMPLEXITIES
  /\ king_self_safety m ∈ KING_SAFETIES
  /\ king_opponent_status m ∈ KING_SAFETIES
  /\ castling_status_self m ∈ CASTLING_STATUSES
  /\ piece_moved m ∈ PIECE_MOVED_VALUES
  /\ move_type m ∈ MOVE_TYPES.

(** An answer of [engine.analyse(board, limit, multipv=2)] that the loop
    cannot use: the call raised, or returned no variation, or the first
    variation has no (or an empty) principal variation. *)
Definition unusable (r : res (list InfoDict)) : Prop :=
  match r with
  | Raise _ => True
  | Ok [] => True
  | Ok (best_move_info :: _) =>
      info_pv best_move_info = None \/ info_pv best_move_info = Some []
  end.

(** The corner squares a1, h1, a8, h8. *)
Definition CORNERS : list nat := [0%nat; 7%nat; 56%nat; 63%nat].

(** An engine that is down: every call raises. *)
#[local] Instance dead_engine : Engine := {|
  EngineState := unit;
  analyse_multipv := fun _ _ _ => (Raise EngineError, tt);
  analyse := fun _ _ => (Raise EngineError, tt)
|}.

(** An engine that always answers, with scores: two king moves from e1
    for the first analysis, and +400 for the side to move for the
    second. *)
#[local] Instance steady_engine : Engine := {|
  EngineState := unit;
  analyse_multipv := fun _ _ _ =>
    (Ok [mkInfo (Some [mkMove E1 F1 None]) (Some (mkPovScore (Cp 0) WHITE));
         mkInfo (Some [mkMove E1 D2 None]) (Some (mkPovScore (Cp (-30)) WHITE))],
     tt);
  analyse := fun _ _ =>
    (Ok (mkInfo (Some [mkMove E8 E2 None]) (Some (mkPovScore (Cp 400) BLACK))), tt)
|}.

(** White: king e1, queen d1.  Black: king g6, pawn h6.  Black is to
    move; the square h5 is attacked by the queen and covered by the king. *)
Definition G6 : nat := 46%nat.
Definition pawn_board : Board :=
  mkBoard
    (list_to_map [(E1, mkPiece KING WHITE); (D1, mkPiece QUEEN WHITE);
                  (G6, mkPiece KING BLACK); (H6, mkPiece PAWN BLACK)])
    ∅ BLACK ∅ None 0%nat 30 [].

End MatchesValues.

(* ===================================================================== *)
(** * The dissimilarity matrix of [_run_hdbscan_clustering]              *)
(* ===================================================================== *)

(** [StandardScaler.fit_transform] (scikit-learn) and [gower.gower_matrix]
    (the gower package) are library code working on floating-point
    arrays.  They are written out here over the real numbers: what the
    libraries compute when no rounding happens. *)
Module Gower.

Local Open Scope R_scope.

Definition Rsum (l : list R) : R := fold_right Rplus 0 l.

Definition mean (l : list R) : R := Rsum l / INR (length l).

(** [StandardScaler().fit_transform] on one column: subtract the mean and
    divide by the (population) standard deviation, a zero deviation being
    replaced by one. *)
Definition standard_scale (col : list R) : list R :=
  let mean_ := mean col in
  let var_ := mean (map (fun x => (x - mean_) * (x - mean_)) col) in
  let scale_ := if Req_dec_T (sqrt var_) 0 then 1 else sqrt var_ in
  map (fun x => (x - mean_) / scale_) col.

(** A data frame by columns: the numeric columns and the categorical
    ones; row [i] is made of the [i]-th entries. *)
Record Frame := mkFrame {
  numeric : list (list R);
  categorical : list (list string)
}.

(** [np.nanmax] and [np.nanmin] of a column. *)
Definition col_max (col : list R) : R := fold_right Rmax (hd 0 col) col.
Definition col_min (col : list R) : R := fold_right Rmin (hd 0 col) col.

(** [num_ranges[col] = (1 - min / max) if (max != 0) else 0.0] *)
Definition num_range (col : list R) : R :=
  if Req_dec_T (col_max col) 0 then 0 else 1 - col_min col / col_max col.

(** [Z_num = np.divide(Z_num, num_max, out=zeros, where=num_max != 0)] *)
Definition normalised (col : list R) (i : nat) : R :=
  if Req_dec_T (col_max col) 0 then 0 else nth i col 0 / col_max col.

(** One numeric column's share of [gower_get]:
    [np.divide(abs_delta, ranges_of_numeric, out=zeros, where=ranges != 0)] *)
Definition sij_num (col : list R) (i j : nat) : R :=
  let abs_delta := Rabs (normalised col i - normalised col j) in
  if Req_dec_T (num_range col) 0 then 0 else abs_delta / num_range col.

(** One categorical column's share: [np.where(xi_cat == xj_cat, 0, 1)] *)
Definition sij_cat (col : list string) (i j : nat) : R :=
  if bool_decide (nth i col EmptyString = nth j col EmptyString) then 0 else 1.

(** [gower_get]: the weights are all one, their sum is the number of
    columns. *)
Definition gower_get (X : Frame) (i j : nat) : R :=
  let sum_cat := Rsum (map (fun col => sij_cat col i j) (categorical X)) in
  let sum_num := Rsum (map (fun col => sij_num col i j) (numeric X)) in
  (sum_cat + sum_num) / INR (length (categorical X) + length (numeric X)).

(** [gower_matrix(X)] for a frame of [n] rows.  Row [i] of [gower_get]
    results is computed from column [i] on and written both to
    [out[i, i:]] and to [out[i:, i]]: entry [(a, b)] is the result for the
    pair [(min a b, max a b)]. *)
Definition gower_matrix (X : Frame) (n : nat) : list (list R) :=
  map (fun a => map (fun b => gower_get X (Nat.min a b) (Nat.max a b)) (seq 0 n))
      (seq 0 n).

End Gower.

(* ===================================================================== *)
(** * backend/analysis.py                                                *)
(* ===================================================================== *)

Module Analysis.
Import Py.

Local Open Scope string_scope.
Local Open Scope Z_scope.

(** ** Feature definitions *)

Definition NUMERIC_COLS : list string := ["cpl"; "move_number"].

Definition CATEGORICAL_COLS : list string :=
  ["mistake_type"; "mistake_category"; "game_phase"; "material_balance";
   "board_complexity"; "king_self_safety"; "king_opponent_status";
   "castling_status_self"; "piece_moved"; "move_type"; "piece_was_attacked";
   "piece_was_defended"; "piece_was_defending"; "piece_was_pinned"].

Definition CONTEXT_TRIGGERS : list string :=
  ["game_phase_"; "material_balance_"; "board_complexity_"; "castling_status_"].

Definition ACTION_TRIGGERS : list string :=
  ["mistake_type_"; "mistake_category_"; "piece_moved_"; "move_type_";
   "piece_was_attacked_"; "piece_was_defended_"; "piece_was_defending_";
   "piece_was_pinned_"; "king_self_safety_"; "king_opponent_status_"].

(** ** Python values *)

(** A [dict] with string keys, as the list of its items in insertion
    order: setting a key that is present replaces its value in place. *)
Fixpoint dict_set {V : Type} (d : list (string * V)) (k : string) (v : V)
  : list (string * V) :=
  match d with
  | [] => [(k, v)]
  | (k', v') :: rest =>
      if bool_decide (k' = k) then (k, v) :: rest
      else (k', v') :: dict_set rest k v
  end.

Fixpoint dict_get {V : Type} (d : list (string * V)) (k : string) : option V :=
  match d with
  | [] => None
  | (k', v') :: rest => if bool_decide (k' = k) then Some v' else dict_get rest k
  end.

(** [d.get(k, default)] *)
Definition dict_get_default {V : Type} (d : list (string * V)) (k : string)
           (dflt : V) : V :=
  default dflt (dict_get d k).

(** [t in f] on strings. *)
Fixpoint contains (t f : string) : bool :=
  String.prefix t f ||
  match f with
  | EmptyString => false
  | String _ rest => contains t rest
  end.

(** [str(n)] of an integer. *)
Definition str (n : Z) : string :=
  DecimalString.NilZero.string_of_int (Z.to_int n).

(** [max(d, key=d.get, default=None)]: the first key of largest value. *)
Fixpoint max_key (d : list (string * Q)) : option string :=
  match d with
  | [] => None
  | (k, v) :: rest =>
      match max_key rest with
      | None => Some k
      | Some k' =>
          if Qlt_le_dec v (dict_get_default rest k' v) then Some k' else Some k
      end
  end.

(** ** Data *)

(** A row of the [mistakes] table as the pipeline fetches it: the id, the
    two numeric columns and the values of [CATEGORICAL_COLS], in that
    order, as [astype(str)] prints them. *)
Record Mistake := mkMistake {
  id : Z;
  cpl : Z;
  move_number : Z;
  categorical : list string
}.

(** A row of [df_clustered]. *)
Record Clustered := mkClustered {
  row : Mistake;
  habit_id : Z;
  habit_confidence : Q
}.

(** The arguments of [db_helpers.save_habit_analysis]. *)
Record HabitRow := mkHabitRow {
  hr_user_id : Z;
  hr_label : Z;
  hr_habit_name : string;
  hr_triggers : list (string * Q);
  hr_confidence : Q;
  hr_prime_example_id : Z;
  hr_feedback : string;
  hr_tip : string
}.

(** The returned dict [{"new_habits_found": _, "total_mistakes": _}]. *)
Record Result := mkResult {
  new_habits_found : Z;
  total_mistakes : Z
}.

(** What the run does to the outside, in order. *)
Inductive Event :=
| EvClear (user_id : Z)
| EvFetch (user_id : Z)
| EvCluster (rows : nat)
| EvCreate (attempt : Z)
| EvSleep (seconds : Z)
| EvSave (habit : HabitRow) (new_id : option Z)
| EvLink (habit_id : Z) (mistake_ids : list Z).

(** Events of the text generation loop. *)
Definition is_llm_event (e : Event) : Prop :=
  match e with
  | EvCreate _ | EvSleep _ => True
  | _ => False
  end.

Definition is_link (e : Event) : Prop :=
  match e with
  | EvLink _ _ => True
  | _ => False
  end.

(** "Linking happens only after a successful save": in a sequence of
    events, every link to a habit id comes right after a save that
    returned that id, and the id is not zero. *)
Definition links_follow_saves (events : list Event) : Prop :=
  forall pre h ids post,
    events = (pre ++ EvLink h ids :: post)%list ->
    h <> 0 /\ exists pre' habit, pre = (pre' ++ [EvSave habit (Some h)])%list.

(** ** Collaborators *)

(** The database behind the cursor.  [clear_old_habits_and_feedback],
    [get_all_mistakes_for_user_v6] and [save_habit_analysis] are called by
    the pipeline but are not in [db_helpers.py] as given; like the other
    helpers there they are taken to catch database errors, so they are
    functions of the database state.  [execute_link] is the UPDATE
    statement of [link_mistakes_to_habit]. *)
Class Persistence := {
  DB : Type;
  clear_old_habits_and_feedback : DB -> Z -> DB;
  get_all_mistakes_for_user_v6 : DB -> Z -> list Mistake;
  save_habit_analysis : DB -> HabitRow -> option Z * DB;
  execute_link : DB -> Z -> list Z -> DB
}.

(** The learning libraries: HDBSCAN on a precomputed distance matrix
    (labels and probabilities, one pair per row), the one-hot encoder
    inside the [ColumnTransformer] ([None] where the code catches an
    exception) and the L1 logistic regression ([coef_[0]]); and the digest
    [_summarize_cluster_for_llm], which only feeds the prompt. *)
Class Learning := {
  hdbscan_fit : list (list R) -> list (Z * Q);
  Preprocessor : Type;
  Design : Type;
  preprocessor_fit : list (list string) -> option Preprocessor;
  preprocessor_transform : Preprocessor -> list (list string) -> option Design;
  get_feature_names_out : Preprocessor -> list string;
  logistic_regression_fit : Design -> list bool -> list Q;
  Summary : Type;
  _summarize_cluster_for_llm : list Clustered -> Summary
}.

(** What the prompt is built from. *)
Record Request `{!Learning} := mkRequest {
  rq_context : option string;
  rq_action : option string;
  rq_confidence : Q;
  rq_summary : Summary;
  rq_triggers : list (string * Q)
}.

(** What [json.loads] returns: a dict (its values are strings, as the
    schema of the tool asks), or another JSON value: [null], a list, a
    number or a string. *)
Inductive Json :=
| JsonDict (d : list (string * string))
| JsonOther.

(** The outcome of [client.chat.completions.create]: the call raises, or
    the response has no tool call, or it has one, with a function name
    and arguments that [json.loads] parses, or rejects ([None]). *)
Inductive Completion :=
| CreateRaises
| NoToolCall
| ToolCall (name : string) (arguments : option Json).

Class TextGeneration `{!Learning} := {
  LLMState : Type;
  chat_completions_create : LLMState -> Request -> Completion * LLMState
}.

Section Pipeline.

Context {P : Persistence} {L : Learning} {T : TextGeneration}.

(** The database, the text generator and the events so far. *)
Record World := mkWorld {
  db : DB;
  llm : LLMState;
  trace : list Event
}.

Definition log (w : World) (e : Event) : World :=
  mkWorld (db w) (llm w) (trace w ++ [e])%list.

(** [db_helpers.link_mistakes_to_habit] *)
Definition link_mistakes_to_habit (d : DB) (habit_id : Z)
           (list_of_mistake_ids : list Z) : DB :=
  match list_of_mistake_ids with
  | [] => d
  | _ :: _ => execute_link d habit_id list_of_mistake_ids
  end.

(** ** Pipeline helper functions *)

(** The frame handed to [gower.gower_matrix]: the two numeric columns,
    standardised, then the categorical columns. *)
Definition gower_frame (df : list Mistake) : Gower.Frame :=
  Gower.mkFrame
    [Gower.standard_scale (map (fun r => IZR (cpl r)) df);
     Gower.standard_scale (map (fun r => IZR (move_number r)) df)]
    (map (fun k => map (fun r => nth k (categorical r) "None") df)
         (seq 0 (length CATEGORICAL_COLS))).

Definition _run_hdbscan_clustering (df : list Mistake) : list Clustered :=
  let gower_matrix := Gower.gower_matrix (gower_frame df) (length df) in
  let clusterer := hdbscan_fit gower_matrix in
  zip_with (fun r lp => mkClustered r (fst lp) (snd lp)) df clusterer.

Definition _create_feature_preprocessor (df : list Mistake) : option Preprocessor :=
  preprocessor_fit (map categorical df).

Definition _find_triggers_for_cluster (cluster_df control_df : list Clustered)
           (preprocessor : Preprocessor) : option (list Q * list string) :=
  match control_df with
  | [] => None
  | _ :: _ =>
      let training_df := (cluster_df ++ control_df)%list in
      let Y_train :=
        map (fun r => bool_decide (Some (habit_id r) = habit_id <$> head cluster_df))
            training_df in
      let X_train_raw := map (fun r => categorical (row r)) training_df in
      match preprocessor_transform preprocessor X_train_raw with
      | None => None
      | Some X_train_processed =>
          let feature_names := get_feature_names_out preprocessor in
          Some (logistic_regression_fit X_train_processed Y_train, feature_names)
      end
  end.

Definition fallback_feedback : list (string * string) :=
  [("habit_name", "LLM Error Fallback");
   ("feedback", "The AI coach could not generate personalized feedback. Please check the API status.");
   ("tip", "Review the cluster manually.")].

(** What the body of the [try] returns, if it returns: the parsed
    arguments of a call of the expected function, whatever JSON value
    they are.  [None] is an exception, caught by the [except]. *)
Definition tool_arguments (c : Completion) : option Json :=
  match c with
  | ToolCall name (Some arguments) =>
      if bool_decide (name = "generate_habit_feedback") then Some arguments
      else None
  | _ => None
  end.

(** The [for attempt in range(3)] loop of [_generate_llm_feedback]; [None]
    is falling off the end of the loop. *)
Fixpoint llm_attempts (attempts : list Z) (request : Request) (w : World)
  : option Json * World :=
  match attempts with
  | [] => (None, w)
  | attempt :: rest =>
      let '(completion, st) := chat_completions_create (llm w) request in
      let w1 := mkWorld (db w) st (trace w ++ [EvCreate attempt])%list in
      match tool_arguments completion with
      | Some arguments => (Some arguments, w1)
      | None =>
          if attempt <? 2 then llm_attempts rest request (log w1 (EvSleep (2 ^ attempt)))
          else (Some (JsonDict fallback_feedback), w1)
      end
  end.

Definition _generate_llm_feedback (request : Request) (w : World)
  : option Json * World :=
  llm_attempts [0; 1; 2] request w.

(** One step of the dict comprehension below: the pair [nc] is kept when
    its coefficient passes [coef > 0.1]. *)
Definition trigger_step (d : list (string * Q)) (nc : string * Q) : list (string * Q) :=
  if Qlt_le_dec (1 # 10) (snd nc) then dict_set d (fst nc) (snd nc) else d.

(** [{name: coef for name, coef in zip(feature_names, coefficients) if coef > 0.1}] *)
Definition extract_triggers (feature_names : list string) (coefficients : list Q)
  : list (string * Q) :=
  fold_left trigger_step (zip feature_names coefficients) [].

Definition Qmean (l : list Q) : Q :=
  (fold_right Qplus 0 l / inject_Z (Z.of_nat (length l)))%Q.

(** [cluster_df['cpl'].idxmax()]: the id of the first row of largest cpl;
    [None] for an empty frame, where pandas raises. *)
Fixpoint idxmax_cpl (cluster_df : list Clustered) : option Z :=
  match cluster_df with
  | [] => None
  | r :: rest =>
      match idxmax_cpl rest with
      | None => Some (id (row r))
      | Some i =>
          if cpl (row r) <? fold_right Z.max (cpl (row r)) (map (fun x => cpl (row x)) rest)
          then Some i
          else Some (id (row r))
      end
  end.

Definition build_request (cluster_df : list Clustered) (triggers : list (string * Q))
  : Request :=
  let context_triggers :=
    List.filter (fun fc => existsb (fun t => contains t (fst fc)) CONTEXT_TRIGGERS)
                triggers in
  let action_triggers :=
    List.filter (fun fc => existsb (fun t => contains t (fst fc)) ACTION_TRIGGERS)
                triggers in
  {| rq_context := max_key context_triggers;
     rq_action := max_key action_triggers;
     rq_confidence := Qmean (map habit_confidence cluster_df);
     rq_summary := _summarize_cluster_for_llm cluster_df;
     rq_triggers := triggers |}.

(** The row that is saved, given the text generator's answer. *)
Definition build_habit (user_id hdbscan_label prime_example_id : Z)
           (cluster_df : list Clustered) (triggers : list (string * Q))
           (llm_output : list (string * string)) : HabitRow :=
  let suggested_name := dict_get_default llm_output "habit_name" "Unnamed Habit" in
  let habit_name := suggested_name ++ " (H" ++ str hdbscan_label ++ ")" in
  let coaching_feedback :=
    dict_get_default llm_output "feedback" "No detailed feedback generated." in
  let improvement_tip :=
    dict_get_default llm_output "tip" "No specific tip provided." in
  mkHabitRow user_id hdbscan_label habit_name triggers
             (Qmean (map habit_confidence cluster_df)) prime_example_id
             coaching_feedback improvement_tip.

Definition _generate_and_save_feedback (user_id hdbscan_label : Z)
           (cluster_df : list Clustered) (coefficients : list Q)
           (feature_names : list string) (w : World) : res (option Z) * World :=
  let triggers := extract_triggers feature_names coefficients in
  match triggers with
  | [] => (Ok None, w)
  | _ :: _ =>
      match idxmax_cpl cluster_df with
      | None => (Raise ValueError, w)
      | Some prime_example_id =>
          let '(llm_output, w1) :=
            _generate_llm_feedback (build_request cluster_df triggers) w in
          match llm_output with
          | None | Some JsonOther => (Raise AttributeError, w1)
          | Some (JsonDict output) =>
              let habit :=
                build_habit user_id hdbscan_label prime_example_id cluster_df
                            triggers output in
              let '(new_serial_habit_id, d) := save_habit_analysis (db w1) habit in
              (Ok new_serial_habit_id,
               mkWorld d (llm w1) (trace w1 ++ [EvSave habit new_serial_habit_id])%list)
          end
      end
  end.

(** [Series.unique()]: the values in order of first appearance. *)
Fixpoint unique (l : list Z) : list Z :=
  match l with
  | [] => []
  | x :: rest => x :: List.filter (fun y => negb (Z.eqb y x)) (unique rest)
  end.

(** [if new_serial_id:] *)
Definition truthy (new_serial_id : option Z) : option Z :=
  match new_serial_id with
  | Some i => if Z.eqb i 0 then None else Some i
  | None => None
  end.

(** The [for hdbscan_label in habits_df['habit_id'].unique()] loop. *)
Fixpoint habit_loop (labels : list Z) (user_id : Z)
         (habits_df df_clustered : list Clustered) (preprocessor : Preprocessor)
         (new_habit_count : Z) (w : World) : res Z * World :=
  match labels with
  | [] => (Ok new_habit_count, w)
  | hdbscan_label :: rest =>
      let cluster_df :=
        List.filter (fun r => Z.eqb (habit_id r) hdbscan_label) habits_df in
      let control_df :=
        List.filter (fun r => negb (Z.eqb (habit_id r) hdbscan_label)) df_clustered in
      match _find_triggers_for_cluster cluster_df control_df preprocessor with
      | None =>
          habit_loop rest user_id habits_df df_clustered preprocessor
                     new_habit_count w
      | Some (coefficients, feature_names) =>
          let '(r, w1) :=
            _generate_and_save_feedback user_id hdbscan_label cluster_df
                                        coefficients feature_names w in
          match r with
          | Raise e => (Raise e, w1)
          | Ok new_serial_id =>
              match truthy new_serial_id with
              | Some new_id =>
                  let list_of_mistake_ids := map (fun r => id (row r)) cluster_df in
                  let w2 :=
                    mkWorld (link_mistakes_to_habit (db w1) new_id list_of_mistake_ids)
                            (llm w1)
                            (trace w1 ++ [EvLink new_id list_of_mistake_ids])%list in
                  habit_loop rest user_id habits_df df_clustered preprocessor
                             (new_habit_count + 1) w2
              | None =>
                  habit_loop rest user_id habits_df df_clustered preprocessor
                             new_habit_count w1
              end
          end
      end
  end.

(** ** Main analysis pipeline *)

Definition main_analysis_pipeline (user_id : Z) (w : World) : res Result * World :=
  let w1 :=
    mkWorld (clear_old_habits_and_feedback (db w) user_id) (llm w)
            (trace w ++ [EvClear user_id])%list in
  let all_mistakes := get_all_mistakes_for_user_v6 (db w1) user_id in
  let w2 := log w1 (EvFetch user_id) in
  let total := Z.of_nat (length all_mistakes) in
  if total <? 20 then (Ok (mkResult 0 total), w2)
  else
    let df_clustered := _run_hdbscan_clustering all_mistakes in
    let w3 := log w2 (EvCluster (length all_mistakes)) in
    let habits_df :=
      List.filter (fun r => negb (Z.eqb (habit_id r) (-1))) df_clustered in
    match habits_df with
    | [] => (Ok (mkResult 0 total), w3)
    | _ :: _ =>
        match _create_feature_preprocessor all_mistakes with
        | None => (Ok (mkResult 0 total), w3)
        | Some preprocessor =>
            let '(r, w4) :=
              habit_loop (unique (map habit_id habits_df)) user_id habits_df
                         df_clustered preprocessor 0 w3 in
            match r with
            | Ok new_habit_count => (Ok (mkResult new_habit_count total), w4)
            | Raise e => (Raise e, w4)
            end
        end
    end.

End Pipeline.

(** ** A small instance for examples

    A database that hands out habit ids from a counter (a counter at zero
    makes the save fail), learning libraries with fixed answers (the
    first five rows form cluster 0, the rest is noise; three one-hot
    features with coefficients 0.3, 0.1 and -0.2) and a text generator
    that replays a script. *)

Record ExampleDB := mkExampleDB {
  pending : list Mistake;
  next_habit_id : Z;
  saved : list HabitRow;
  links : list (Z * list Z)
}.

#[local] Instance example_persistence : Persistence := {|
  DB := ExampleDB;
  clear_old_habits_and_feedback := fun d _ =>
    mkExampleDB (pending d) (next_habit_id d) [] [];
  get_all_mistakes_for_user_v6 := fun d _ => pending d;
  save_habit_analysis := fun d habit =>
    if Z.eqb (next_habit_id d) 0 then (None, d)
    else (Some (next_habit_id d),
          mkExampleDB (pending d) (next_habit_id d + 1)
                      (saved d ++ [habit])%list (links d));
  execute_link := fun d habit_id ids =>
    mkExampleDB (pending d) (next_habit_id d) (saved d)
                (links d ++ [(habit_id, ids)])%list
|}.

Definition example_feature_names : list string :=
  ["game_phase_Endgame"; "piece_moved_QUEEN"; "move_type_Quiet"].

Definition example_coefficients : list Q := [3 # 10; 1 # 10; - (2 # 10)]%Q.

#[local] Instance example_learning : Learning := {|
  hdbscan_fit := fun matrix =>
    map (fun i => if (i <? 5)%nat then (0, 1%Q) else (-1, 0%Q))
        (seq 0 (length matrix));
  Preprocessor := unit;
  Design := unit;
  preprocessor_fit := fun _ => Some tt;
  preprocessor_transform := fun _ _ => Some tt;
  get_feature_names_out := fun _ => example_feature_names;
  logistic_regression_fit := fun _ _ => example_coefficients;
  Summary := unit;
  _summarize_cluster_for_llm := fun _ => tt
|}.

#[local] Instance scripted_llm : TextGeneration := {|
  LLMState := list Completion;
  chat_completions_create := fun script _ =>
    match script with
    | completion :: rest => (completion, rest)
    | [] => (CreateRaises, [])
    end
|}.

(** [n] mistakes with ids 1 to [n]. *)
Definition example_mistakes (n : nat) : list Mistake :=
  map (fun i => mkMistake (Z.of_nat i) (50 + Z.of_nat i) 10
                          (repeat "x" (length CATEGORICAL_COLS)))
      (seq 1 n).

Definition example_world (n : nat) (next_id : Z) (script : list Completion)
  : World :=
  mkWorld (mkExampleDB (example_mistakes n) next_id [] []) script [].

(** The first five example mistakes as cluster 0. *)
Definition example_cluster : list Clustered :=
  map (fun r => mkClustered r 0 1%Q) (example_mistakes 5).

(** A well-formed answer of the text generator. *)
Definition example_completion : Completion :=
  ToolCall "generate_habit_feedback"
           (Some (JsonDict [("habit_name", "Late queen raids");
                            ("feedback", "You send the queen out too early.");
                            ("tip", "Develop the minor pieces first.")])).

End Analysis.

(* ===================================================================== *)
(** * backend/analysis.py: counting events, naming features              *)
(* ===================================================================== *)

Module AnalysisValues.
Import Py Analysis.

Local Open Scope string_scope.
Local Open Scope Z_scope.

(** How often the text generator was called, a habit was saved, mistakes
    were linked, and for how long the run slept. *)
Definition count_creates (events : list Event) : nat :=
  length (List.filter (fun e => match e with EvCreate _ => true | _ => false end)
                      events).

Definition count_saves (events : list Event) : nat :=
  length (List.filter (fun e => match e with EvSave _ _ => true | _ => false end)
                      events).

Definition count_links (events : list Event) : nat :=
  length (List.filter (fun e => match e with EvLink _ _ => true | _ => false end)
                      events).

Definition total_sleep (events : list Event) : Z :=
  fold_right (fun e acc => match e with EvSleep seconds => seconds + acc | _ => acc end)
             0 events.

(** Events of the work on the clusters: everything but clearing, fetching
    and clustering. *)
Definition is_cluster_work (e : Event) : Prop :=
  match e with
  | EvClear _ | EvFetch _ | EvCluster _ => False
  | _ => True
  end.

(** The two tests of [_generate_and_save_feedback]:
    [any(t in f for t in CONTEXT_TRIGGERS)] and the same for
    [ACTION_TRIGGERS]. *)
Definition is_context (f : string) : bool :=
  existsb (fun t => contains t f) CONTEXT_TRIGGERS.

Definition is_action (f : string) : bool :=
  existsb (fun t => contains t f) ACTION_TRIGGERS.

(** The name [OneHotEncoder.get_feature_names_out] gives to the level
    [value] of the input column [col]. *)
Definition one_hot_name (col value : string) : string :=
  col ++ "_" ++ value.

(** Learning libraries that give every row the same label. *)
Definition uniform_learning (label : Z) : Learning := {|
  hdbscan_fit := fun matrix => map (fun _ => (label, 1%Q)) matrix;
  Preprocessor := unit;
  Design := unit;
  preprocessor_fit := fun _ => Some tt;
  preprocessor_transform := fun _ _ => Some tt;
  get_feature_names_out := fun _ => example_feature_names;
  logistic_regression_fit := fun _ _ => example_coefficients;
  Summary := unit;
  _summarize_cluster_for_llm := fun _ => tt
|}.

(** A text generator that replays a script, for any learning libraries. *)
Definition scripted_llm_for (L : Learning) : @TextGeneration L := {|
  LLMState := list Completion;
  chat_completions_create := fun script _ =>
    match script with
    | completion :: rest => (completion, rest)
    | [] => (CreateRaises, [])
    end
|}.

Definition uniform_world (label : Z) (n : nat)
  : @World example_persistence (uniform_learning label)
           (scripted_llm_for (uniform_learning label)) :=
  @mkWorld example_persistence (uniform_learning label)
           (scripted_llm_for (uniform_learning label))
           (mkExampleDB (example_mistakes n) 1 [] []) [example_completion] [].

End AnalysisValues.

(* ===================================================================== *)
(** * backend/matches.py and backend/db_helpers.py: storing the mistakes *)
(* ===================================================================== *)

Module Ingest.
Import Py Chess Matches.

Local Open Scope string_scope.
Local Open Scope Z_scope.

(** ** Rows of the [mistakes] table *)

(** The Python values of a mistake dict, as the database driver takes
    them. *)
Inductive Val :=
| VNone
| VInt (n : Z)
| VStr (s : string)
| VBool (b : bool).

(** The dict literal [mistake_data] of [analyze_game_fully], keys in the
    order of the source. *)
Definition mistake_dict (m : mistake_data) : list (string * Val) :=
  [("move_number", VInt (move_number m));
   ("player_color", VStr (player_color m));
   ("prior_fen", VStr (prior_fen m));
   ("move_made", VStr (move_made m));
   ("best_move", VStr (best_move m));
   ("cpl", VInt (cpl m));
   ("mistake_type", VStr (mistake_type m));
   ("mistake_category", VStr (mistake_category m));
   ("game_phase", VStr (game_phase m));
   ("material_balance", VStr (material_balance m));
   ("board_complexity", VStr (board_complexity m));
   ("king_self_safety", VStr (king_self_safety m));
   ("king_opponent_status", VStr (king_opponent_status m));
   ("castling_status_self", VStr (castling_status_self m));
   ("piece_moved", VStr (piece_moved m));
   ("move_type", VStr (move_type m));
   ("piece_was_attacked", VBool (piece_was_attacked m));
   ("piece_was_defended", VBool (piece_was_defended m));
   ("piece_was_defending", VBool (piece_was_defending m));
   ("piece_was_pinned", VBool (piece_was_pinned m))].

(** [columns] of [db_helpers.batch_insert_mistakes]. *)
Definition columns : list string :=
  ["game_id";
   "move_number"; "player_color"; "prior_fen"; "move_made"; "best_move";
   "cpl"; "mistake_type"; "mistake_category";
   "game_phase"; "material_balance"; "board_complexity";
   "king_self_safety"; "king_opponent_status"; "castling_status_self";
   "piece_moved"; "move_type";
   "piece_was_attacked"; "piece_was_defended"; "piece_was_defending";
   "piece_was_pinned"].

(** [tuple(mistake.get(col) for col in columns)] *)
Definition values_tuple (mistake : list (string * Val)) : list Val :=
  map (fun col => default VNone (Analysis.dict_get mistake col)) columns.

(** [mistake_dict['game_id'] = new_game_id] *)
Definition with_game_id (mistake : list (string * Val)) (new_game_id : Z)
  : list (string * Val) :=
  Analysis.dict_set mistake "game_id" (VInt new_game_id).

(** ** Collaborators *)

(** One entry of the ["games"] list of the chess.com answer:
    [game_json.get("pgn")] and [game_json.get("url")]. *)
Record game_json := mkGameJson {
  gj_pgn : option string;
  gj_url : option string
}.

(** What [chess.pgn.read_game] gives: the game and the two headers that
    [process_user_games] reads itself. *)
Record ParsedGame := mkParsedGame {
  pg_game : Game;
  pg_UTCDate : option string;
  pg_UTCTime : option string
}.

(** The helpers of [db_helpers.py] catch what the database raises and
    return [None]; the cursor stands for the state of the database.
    [get_player_matches] gives [None] when the request fails, and
    otherwise what [.get("games")] finds in the answer.  [read_game] is
    [None] where [pgn_parse] gets [None] or catches an exception.
    [execute_values] is the INSERT of [batch_insert_mistakes]. *)
Class Sources := {
  Cursor : Type;
  DateTime : Type;
  get_user_by_username : Cursor -> string -> option Z;
  get_player_matches : string -> Z -> Z -> option (option (list game_json));
  read_game : string -> option ParsedGame;
  strptime : string -> res DateTime;
  insert_game : Cursor -> Z -> string -> string -> string -> option string
                -> DateTime -> option Z * Cursor;
  execute_values : Cursor -> list (list Val) -> Cursor
}.

(** [s.split('/')[-1]]: what follows the last slash. *)
Fixpoint split_last (s acc : string) : string :=
  match s with
  | EmptyString => acc
  | String c rest =>
      if Ascii.eqb c "/" then split_last rest EmptyString
      else split_last rest (acc ++ String c EmptyString)
  end.

Section Process.

Context {ops : BoardOps} {eng : Engine} {txt : Text} {src : Sources}.

(** The calls that [process_user_games] makes once the user is known, in
    order: [insert_game] with the user id, the source game id and its
    answer; [analyze_game_fully] for the game stored under an id, with
    what it returned; [execute_values] with the rows. *)
Inductive Call :=
| CallInsertGame (user_id : Z) (source_game_id : string) (new_game_id : option Z)
| CallAnalyse (new_game_id : Z) (game : Game) (outcome : res (list mistake_data))
| CallExecuteValues (values_list : list (list Val)).

Record State := mkState {
  cur : Cursor;
  engine : EngineState;
  calls : list Call
}.

(** [pgn_parse] *)
Definition pgn_parse (pgn_file : option string) : option ParsedGame :=
  match pgn_file with
  | None => None
  | Some EmptyString => None
  | Some pgn => read_game pgn
  end.

(** The loop of [analyze_game_fully] again, this time keeping the state
    in which it leaves the engine, for the next game. *)
Fixpoint analyze_moves_from (moves : list Move) (es : EngineState) (b : Board)
         (user_color : Color) (mistakes_list : list mistake_data)
  : res (list mistake_data * EngineState) :=
  match moves with
  | [] => Ok (mistakes_list, es)
  | move :: rest =>
      if Bool.eqb (turn b) user_color then
        if is_game_over b then
          analyze_moves_from rest es (push b move) user_color mistakes_list
        else
          '(m, b', es') ← analyze_ply es b move user_color;
          analyze_moves_from rest es' (push b' move) user_color
            (match m with
             | Some mistake => mistakes_list ++ [mistake]
             | None => mistakes_list
             end)
      else analyze_moves_from rest es (push b move) user_color mistakes_list
  end.

Definition analyze_game_fully_from (game : Game) (username : string)
           (es : EngineState) : res (list mistake_data * EngineState) :=
  if bool_decide (lower (headers_White game) = lower username) then
    analyze_moves_from (mainline_moves game) es (game_board game) WHITE []
  else if bool_decide (lower (headers_Black game) = lower username) then
    analyze_moves_from (mainline_moves game) es (game_board game) BLACK []
  else Ok ([], es).

(** [db_helpers.batch_insert_mistakes] *)
Definition batch_insert_mistakes (w : State)
           (mistakes_list_of_dicts : list (list (string * Val))) : State :=
  match mistakes_list_of_dicts with
  | [] => w
  | _ :: _ =>
      let values_list := map values_tuple mistakes_list_of_dicts in
      mkState (execute_values (cur w) values_list) (engine w)
              (calls w ++ [CallExecuteValues values_list])
  end.

(** The [for i, game_json in enumerate(games_data["games"])] loop.  An
    exception of [strptime], of [game_url.split] on [None] or of
    [analyze_game_fully] ends the function. *)
Fixpoint games_loop (games : list game_json) (username : string) (user_id : Z)
         (all_mistakes_to_insert : list (list (string * Val))) (w : State)
  : res (list (list (string * Val))) * State :=
  match games with
  | [] => (Ok all_mistakes_to_insert, w)
  | game_json :: rest =>
      let pgn := gj_pgn game_json in
      let game_url := gj_url game_json in
      match pgn_parse pgn with
      | None => games_loop rest username user_id all_mistakes_to_insert w
      | Some game_obj =>
          let game_date_str :=
            default "1970.01.01" (pg_UTCDate game_obj) ++ " "
            ++ default "00:00:00" (pg_UTCTime game_obj) in
          match strptime game_date_str with
          | Raise e => (Raise e, w)
          | Ok game_date_obj =>
              match game_url with
              | None => (Raise AttributeError, w)
              | Some url =>
                  let source_game_id := split_last url EmptyString in
                  let '(new_game_id, c) :=
                    insert_game (cur w) user_id "chess.com" source_game_id
                                url pgn game_date_obj in
                  let w1 :=
                    mkState c (engine w)
                            (calls w
                             ++ [CallInsertGame user_id source_game_id new_game_id]) in
                  match Analysis.truthy new_game_id with
                  | None =>
                      games_loop rest username user_id all_mistakes_to_insert w1
                  | Some new_id =>
                      let outcome :=
                        analyze_game_fully_from (pg_game game_obj) username
                                                (engine w1) in
                      match outcome with
                      | Raise e =>
                          (Raise e,
                           mkState c (engine w1)
                                   (calls w1
                                    ++ [CallAnalyse new_id (pg_game game_obj)
                                                    (Raise e)]))
                      | Ok (mistakes_from_game, es) =>
                          games_loop rest username user_id
                            (all_mistakes_to_insert
                             ++ map (fun m => with_game_id (mistake_dict m) new_id)
                                    mistakes_from_game)
                            (mkState c es
                                     (calls w1
                                      ++ [CallAnalyse new_id (pg_game game_obj)
                                                      (Ok mistakes_from_game)]))
                      end
                  end
              end
          end
      end
  end.

(** [process_user_games]; the engine and the cursor of the connection are
    in the state. *)
Definition process_user_games (username : string) (year month : Z) (w : State)
  : res unit * State :=
  match Analysis.truthy (get_user_by_username (cur w) username) with
  | None => (Ok tt, w)
  | Some user_id =>
      match get_player_matches username year month with
      | Some (Some (game_json :: rest)) =>
          match games_loop (game_json :: rest) username user_id [] w with
          | (Raise e, w1) => (Raise e, w1)
          | (Ok [], w1) => (Ok tt, w1)
          | (Ok all_mistakes_to_insert, w1) =>
              (Ok tt, batch_insert_mistakes w1 all_mistakes_to_insert)
          end
      | _ => (Ok tt, w)
      end
  end.

End Process.

(** ** What a sequence of calls says *)

Section Calls.
Context {ops : BoardOps} {eng : Engine} {txt : Text} {src : Sources}.

(** The rows that the analyses of a sequence of calls give: one per
    mistake, in order, with the id of the game it was found in. *)
Definition rows_of (q : list Call) : list (list Val) :=
  flat_map (fun c =>
              match c with
              | CallAnalyse new_game_id _ (Ok mistakes) =>
                  map (fun m => values_tuple (with_game_id (mistake_dict m) new_game_id))
                      mistakes
              | _ => []
              end) q.

(** Games are analysed exactly when their insert has answered with an id,
    right after it; nothing follows an analysis that raised; no row is
    written. *)
Fixpoint games_then_analyses (user_id : Z) (q : list Call) : Prop :=
  match q with
  | [] => True
  | CallInsertGame u _ new_game_id :: rest =>
      u = user_id
      /\ match Analysis.truthy new_game_id with
         | None => games_then_analyses user_id rest
         | Some new_id =>
             match rest with
             | CallAnalyse i _ outcome :: rest' =>
                 i = new_id
                 /\ match outcome with
                    | Ok _ => games_then_analyses user_id rest'
                    | Raise _ => rest' = []
                    end
             | _ => False
             end
         end
  | _ => False
  end.

Definition raised {A : Type} (r : res A) : Prop :=
  match r with
  | Raise _ => True
  | Ok _ => False
  end.

End Calls.

(** ** An example *)

(** A database with one user, "Alice" (id 7), that has stored the game
    "111" already; new games get the ids 41, 42, ... *)
Record ExampleCursor := mkExampleCursor {
  known_games : list string;
  next_game_id : Z;
  stored_rows : list (list Val)
}.

#[local] Instance example_sources : Sources := {|
  Cursor := ExampleCursor;
  DateTime := string;
  get_user_by_username := fun _ username =>
    if bool_decide (username = "Alice") then Some 7 else None;
  get_player_matches := fun _ _ _ =>
    Some (Some [mkGameJson (Some "old") (Some "https://www.chess.com/game/live/111");
                mkGameJson None (Some "https://www.chess.com/game/live/112");
                mkGameJson (Some "new") (Some "https://www.chess.com/game/live/113")]);
  read_game := fun _ => Some (mkParsedGame example_game (Some "2024.05.01") None);
  strptime := fun s => Ok s;
  insert_game := fun c _ _ source_game_id _ _ _ =>
    if bool_decide (source_game_id ∈ known_games c) then (None, c)
    else (Some (next_game_id c),
          mkExampleCursor (source_game_id :: known_games c) (next_game_id c + 1)
                          (stored_rows c));
  execute_values := fun c values_list =>
    mkExampleCursor (known_games c) (next_game_id c)
                    (stored_rows c ++ values_list)%list
|}.

Definition example_state : State (eng := scripted_engine) :=
  mkState (eng := scripted_engine)
          (mkExampleCursor ["111"] 41 []) example_script [].

(** No game is stored yet, and the engine stops answering in the second
    game, when it is asked about the position after the move played. *)
Definition example_state_failing : State (eng := scripted_engine) :=
  mkState (eng := scripted_engine)
          (mkExampleCursor [] 41 [])
          (example_script ++ take 1 example_script)%list [].

End Ingest.

(* ===================================================================== *)
(** * Facts about backend/matches.py                                     *)
(* ===================================================================== *)

Module MatchesFacts.
Import Py Chess Matches.

Local Open Scope string_scope.
Local Open Scope Z_scope.

(** Unfold the bind of [res] where its argument is known. *)
Ltac res_simpl :=
  unfold mbind, res_bind, mret, res_ret in *; simpl in *.

(** ** Thresholds *)

Lemma get_mistake_type_spec (c : Z) :
  get_mistake_type c = default "Good" (spec_mistake_type c).
Proof.
  unfold get_mistake_type, spec_mistake_type,
    CPL_BLUNDER, CPL_MISTAKE, CPL_INACCURACY.
  rewrite !Z.geb_leb.
  repeat case_decide;
    repeat match goal with
           | |- context [?a <=? ?b] => destruct (Z.leb_spec a b); try lia
           end; reflexivity.
Qed.

Lemma get_mistake_type_good (c : Z) :
  get_mistake_type c = "Good" <-> spec_mistake_type c = None.
Proof.
  rewrite get_mistake_type_spec. unfold spec_mistake_type.
  repeat case_decide; simpl; split; intros; congruence.
Qed.

Lemma spec_mistake_type_floor (c : Z) :
  is_Some (spec_mistake_type c) <-> 50 ≤ c.
Proof.
  unfold spec_mistake_type.
  repeat case_decide; split; intros Hc; try lia; eauto;
    destruct Hc; congruence.
Qed.

Section Records.
Context {ops : BoardOps}.

Lemma record_ply_cases b move uc c bm analysis :
  match record_ply b move uc c bm analysis with
  | Ok (Some m, _) =>
      spec_mistake_type c = Some (mistake_type m) /\ cpl m = c
  | Ok (None, b') => spec_mistake_type c = None /\ b' = b
  | Raise _ => is_Some (spec_mistake_type c)
  end.
Proof.
  unfold record_ply.
  pose proof (get_mistake_type_spec c) as Hs.
  pose proof (get_mistake_type_good c) as Hg.
  case_bool_decide as Hne.
  - assert (is_Some (spec_mistake_type c)) as [t Ht].
    { destruct (spec_mistake_type c) eqn:E; eauto.
      exfalso. apply Hne, Hg. reflexivity. }
    destruct (get_mistake_category b move analysis) as [cat|e]; simpl.
    + destruct (is_piece_defending b (from_square move) uc) as [d b'].
      simpl. rewrite Hs, Ht. split; reflexivity.
    + rewrite Ht. eauto.
  - split; [|reflexivity]. apply Hg.
    destruct (decide (get_mistake_type c = "Good")); [assumption|contradiction].
Qed.

End Records.

(** C1. The mistake type is Blunder from 300, Mistake from 100,
    Inaccuracy from 50, each bound included, and below 50 the move is
    not recorded: [get_mistake_type] is the specification's table (with
    "Good" for "discard"), 300 is a Blunder and 299 a Mistake, and the
    loop body makes a record exactly when the table names a type, the
    record carrying that type. *)
Theorem mistake_type_thresholds :
  forall (ops : BoardOps) (b : Board) (move : Move) (user_color : Color)
         (c : Z) (best : Move) (analysis : list InfoDict),
    get_mistake_type c = default "Good" (spec_mistake_type c)
    /\ get_mistake_type 300 = "Blunder"
    /\ get_mistake_type 299 = "Mistake"
    /\ match record_ply b move user_color c best analysis with
       | Ok (Some m, _) =>
           spec_mistake_type c = Some (mistake_type m) /\ cpl m = c
       | Ok (None, b') => spec_mistake_type c = None /\ b' = b
       | Raise _ => is_Some (spec_mistake_type c)
       end.
Proof.
  intros. split; [apply get_mistake_type_spec|].
  split; [reflexivity|]. split; [reflexivity|].
  apply record_ply_cases.
Qed.

(** ** Centipawn loss *)

Section Loss.
Context {ops : BoardOps} {eng : Engine} {txt : Text}.

Lemma find_user_move_score_found (analysis : list InfoDict) (move : Move) (r : option Z) :
  find_user_move_score analysis move = Ok r ->
  match List.find (pv_starts_with move) analysis with
  | Some line => exists s, info_score line = Some s /\ r = Some (relative_score s)
  | None => r = None
  end.
Proof.
  induction analysis as [|info rest IH]; simpl.
  - intros [= <-]. reflexivity.
  - destruct (pv_starts_with move info); [|exact IH].
    unfold get_score. destruct (info_score info) as [s|]; simpl; [|discriminate].
    intros [= <-]. eauto.
Qed.

Lemma reevaluate_negates es1 b move (u : Z) es2 :
  reevaluate es1 b move = Ok (u, es2) ->
  exists info s,
    analyse es1 (push b move) = (Ok info, es2)
    /\ info_score info = Some s /\ u = - relative_score s.
Proof.
  unfold reevaluate.
  destruct (analyse es1 (push b move)) as [[info|e] es'] eqn:Ha; simpl;
    [|discriminate].
  unfold get_score. destruct (info_score info) as [s|] eqn:Hs; simpl;
    [|discriminate].
  intros [= <- <-]. exists info, s. repeat split; try assumption.
  destruct (is_mate (relative s)); lia.
Qed.

Lemma evaluate_ply_spec es b move (c : Z) best analysis es2 :
  evaluate_ply es b move = Ok (Some (c, best, analysis), es2) ->
  spec_cpl es b move = Some c /\ 0 ≤ c.
Proof.
  unfold evaluate_ply, spec_cpl.
  destruct (analyse_multipv es b 2) as [[l|e] es1]; [|discriminate].
  destruct l as [|i0 rest]; [discriminate|].
  destruct (info_pv i0) as [[|bm pv]|]; try discriminate.
  unfold get_score at 1. destruct (info_score i0) as [s0|] eqn:Hs0;
    res_simpl; [|discriminate].
  destruct (_ : res (option Z)) as [found|e] eqn:Hf; [|discriminate].
  change (find_user_move_score (i0 :: rest) move = Ok found) in Hf.
  apply find_user_move_score_found in Hf.
  unfold spec_player_score.
  destruct found as [u|].
  - intros [= <- <- <- <-].
    destruct (List.find (pv_starts_with move) (i0 :: rest)) as [line|];
      [|discriminate].
    destruct Hf as (s & -> & [= ->]). simpl. split; [reflexivity|lia].
  - destruct (reevaluate es1 b move) as [[u es']|e] eqn:Hr; [|discriminate].
    intros [= <- <- <- <-].
    apply reevaluate_negates in Hr as (info & s & Ha & Hs & ->).
    destruct (List.find (pv_starts_with move) (i0 :: rest)) as [line|].
    { destruct Hf as (? & _ & [=]). }
    rewrite Ha. simpl. rewrite Hs. simpl. split; [reflexivity|lia].
Qed.

Lemma analyze_ply_record es b move uc m b' es' :
  analyze_ply es b move uc = Ok (Some m, b', es') ->
  spec_cpl es b move = Some (cpl m) /\ 0 ≤ cpl m
  /\ move_made m = uci move /\ prior_fen m = fen b
  /\ player_color m = COLOR_NAMES uc.
Proof.
  unfold analyze_ply.
  destruct (evaluate_ply es b move) as [[[[[c best] analysis]|] es2]|e] eqn:He;
    res_simpl; try discriminate.
  apply evaluate_ply_spec in He as [Hc Hpos].
  unfold record_ply.
  case_bool_decide; [|discriminate].
  destruct (get_mistake_category b move analysis) as [cat|]; res_simpl;
    [|discriminate].
  destruct (is_piece_defending b (from_square move) uc) as [d b1]; simpl in *.
  intros [= <- <- <-]. simpl. auto.
Qed.

(** What [analyze_moves] adds to the list was made by the loop body at a
    ply of the user, in a position not yet over, for a move of the main
    line. *)
Lemma analyze_moves_records (uc : Color) (P : Move -> mistake_data -> Prop) :
  (forall es b move m b' es',
      turn b = uc -> is_game_over b = false ->
      analyze_ply es b move uc = Ok (Some m, b', es') -> P move m) ->
  forall moves es b acc l,
    analyze_moves moves es b uc acc = Ok l ->
    forall m, m ∈ l -> m ∈ acc \/ exists move, move ∈ moves /\ P move m.
Proof.
  intros HP moves. induction moves as [|move rest IH]; simpl; intros es b acc l.
  - intros [= <-]. auto.
  - assert (Hrest : forall es0 b0 acc0,
               analyze_moves rest es0 b0 uc acc0 = Ok l ->
               forall m, m ∈ l ->
                 m ∈ acc0 \/ exists mv, mv ∈ move :: rest /\ P mv m).
    { intros es0 b0 acc0 Hl m Hm.
      destruct (IH _ _ _ _ Hl m Hm) as [?|(mv & ? & ?)]; [by left|].
      right. exists mv. split; [by apply list_elem_of_further|done]. }
    destruct (Bool.eqb (turn b) uc) eqn:Ht; [|by apply Hrest].
    apply Bool.eqb_prop in Ht.
    destruct (is_game_over b) eqn:Hover; [by apply Hrest|].
    destruct (analyze_ply es b move uc) as [[[om b'] es']|e] eqn:Hply;
      res_simpl; [|discriminate].
    intros Hl m Hm.
    destruct (Hrest _ _ _ Hl m Hm) as [Hacc|?]; [|by right].
    destruct om as [mistake|]; [|by left].
    apply elem_of_app in Hacc as [?|Hlast]; [by left|].
    apply list_elem_of_singleton in Hlast as ->.
    right. exists move. split; [apply list_elem_of_here|].
    eapply HP; eauto.
Qed.

(** C2. Every record of [analyze_game_fully] was made at a ply of the
    main line, in a position where the user is to move, and its
    centipawn loss is the specification's
    max(0, bestScore - playerScore) there: the best score is that of the
    first of the two variations asked for, the player's score is read
    from the first variation that starts with the move played and is
    otherwise the negated score of a single-variation analysis of the
    position after the move.  So the loss is never negative. *)
Theorem cpl_is_clamped_score_drop :
  forall (game : Game) (username : string) (engine : EngineState)
         (l : list mistake_data) (m : mistake_data),
    analyze_game_fully game username engine = Ok l ->
    m ∈ l ->
    0 ≤ cpl m
    /\ exists es b move,
         move ∈ mainline_moves game
         /\ player_color m = COLOR_NAMES (turn b)
         /\ is_game_over b = false
         /\ prior_fen m = fen b /\ move_made m = uci move
         /\ spec_cpl es b move = Some (cpl m).
Proof.
  intros game username engine l m Hrun Hm.
  set (P := fun (move : Move) (m : mistake_data) =>
              0 ≤ cpl m /\ exists es b,
                player_color m = COLOR_NAMES (turn b)
                /\ is_game_over b = false
                /\ prior_fen m = fen b /\ move_made m = uci move
                /\ spec_cpl es b move = Some (cpl m)).
  assert (HP : forall uc es b move m b' es',
             turn b = uc -> is_game_over b = false ->
             analyze_ply es b move uc = Ok (Some m, b', es') -> P move m).
  { intros uc es b move m0 b' es' Ht Hover Hply.
    apply analyze_ply_record in Hply as (Hc & Hpos & Hmv & Hfen & Hcol).
    split; [assumption|]. exists es, b. subst uc. auto. }
  assert (Hgoal : forall uc,
             analyze_moves (mainline_moves game) engine (game_board game) uc []
             = Ok l ->
             exists move, move ∈ mainline_moves game /\ P move m).
  { intros uc Hl.
    destruct (analyze_moves_records uc P (HP uc) _ _ _ _ _ Hl m Hm)
      as [Hnil|?]; [|assumption].
    apply elem_of_nil in Hnil. contradiction. }
  unfold analyze_game_fully in Hrun.
  assert (exists move, move ∈ mainline_moves game /\ P move m)
    as (move & Hin & Hpos & es & b & ?).
  { repeat case_bool_decide; eauto.
    injection Hrun as <-. apply elem_of_nil in Hm. contradiction. }
  split; [assumption|]. exists es, b, move. tauto.
Qed.

End Loss.

(** Qd1-e2 in [example_game] costs 400 centipawns. *)
Lemma cpl_is_clamped_score_drop_witness :
  exists l m,
    analyze_game_fully (ops := example_ops) (eng := scripted_engine) (txt := ascii_text)
                       example_game "alice" example_script = Ok l
    /\ m ∈ l
    /\ cpl m = 400
    /\ 0 ≤ cpl m
    /\ exists es b move,
         move ∈ mainline_moves example_game
         /\ player_color m = COLOR_NAMES (turn b)
         /\ is_game_over (BoardOps := example_ops) b = false
         /\ prior_fen m = fen (BoardOps := example_ops) b
         /\ move_made m = uci (BoardOps := example_ops) move
         /\ spec_cpl (ops := example_ops) (eng := scripted_engine) es b move
            = Some (cpl m).
Proof.
  eexists _, _.
  split; [vm_compute; reflexivity|].
  split; [apply list_elem_of_here|].
  split; [reflexivity|].
  eapply (cpl_is_clamped_score_drop (ops := example_ops) (eng := scripted_engine) (txt := ascii_text)
            example_game "alice" example_script).
  - vm_compute; reflexivity.
  - apply list_elem_of_here.
Defined.

(** ** Mistake category *)

Lemma attackers_have_pieces (b : Board) (c : Color) (t s : nat) :
  s ∈ attackers b c t -> exists p, piece_at b s = Some p /\ color p = c.
Proof.
  unfold attackers. rewrite list_elem_of_In, filter_In. intros [_ Hs].
  destruct (piece_at b s) as [p|]; [|discriminate].
  apply andb_prop in Hs as [Hc _]. apply Bool.eqb_prop in Hc. eauto.
Qed.

Lemma is_attacked_by_attackers (b : Board) (c : Color) (t : nat) :
  is_attacked_by b c t = match attackers b c t with [] => false | _ :: _ => true end.
Proof. unfold is_attacked_by. destruct (attackers b c t); reflexivity. Qed.

Lemma PIECE_VALUES_le_100 (pt : PieceType) : PIECE_VALUES pt ≤ 100.
Proof. destruct pt; simpl; lia. Qed.

Lemma foldr_min_start (v : Z) (vs : list Z) :
  v ≤ 100 -> Z.min v (foldr Z.min 100 vs) = foldr Z.min v vs.
Proof.
  intros Hv. induction vs as [|w vs IH]; simpl; [lia|].
  rewrite <- IH. lia.
Qed.

Lemma lowest_attacker_value_from (b : Board) (l : list nat) (acc : Z) :
  acc ≤ 100 ->
  fold_left (fun lowest attacker_square =>
               match piece_at b attacker_square with
               | Some attacker_piece =>
                   Z.min lowest (PIECE_VALUES (piece_type attacker_piece))
               | None => lowest
               end) l acc
  = Z.min acc
      (foldr Z.min 100
         (omap (fun s => (fun p => PIECE_VALUES (piece_type p)) <$> piece_at b s) l)).
Proof.
  revert acc. induction l as [|s l IH]; intros acc Hacc; simpl; [lia|].
  destruct (piece_at b s) as [p|]; simpl.
  - rewrite IH by lia. rewrite <- Z.min_assoc. reflexivity.
  - apply IH, Hacc.
Qed.

(** The loop of [is_move_a_hang] finds the cheapest attacker. *)
Lemma lowest_attacker_value_cheapest (b : Board) (c : Color) (t : nat) (v : Z) :
  cheapest_attacker_value b c t = Some v ->
  lowest_attacker_value b (attackers b c t) = v.
Proof.
  unfold cheapest_attacker_value, lowest_attacker_value.
  rewrite lowest_attacker_value_from by lia.
  destruct (omap _ (attackers b c t)) as [|w ws] eqn:Hvals; [discriminate|].
  intros [= <-].
  assert (w ≤ 100) as Hw.
  { assert (w ∈ w :: ws) as Hin by apply list_elem_of_here.
    rewrite <- Hvals in Hin. apply list_elem_of_omap in Hin as (s & _ & Hs).
    destruct (piece_at b s) as [p|]; [|discriminate].
    injection Hs as <-. apply PIECE_VALUES_le_100. }
  simpl. rewrite foldr_min_start by assumption.
  pose proof (foldr_min_start w ws Hw). lia.
Qed.

Lemma cheapest_attacker_value_some (b : Board) (c : Color) (t : nat) :
  attackers b c t <> [] -> is_Some (cheapest_attacker_value b c t).
Proof.
  unfold cheapest_attacker_value. intros Hne.
  destruct (attackers b c t) as [|a rest] eqn:Ha; [contradiction|].
  destruct (attackers_have_pieces b c t a) as (p & Hp & _).
  { rewrite Ha. apply list_elem_of_here. }
  simpl. rewrite Hp. simpl. eauto.
Qed.

(** [is_move_a_hang] is the test of the specification read on the board
    it is given, which is the position before the move: the moving piece
    is still on its origin and counts among the pieces that attack the
    destination. *)
Lemma is_move_a_hang_before_move (b : Board) (move : Move) (moved_piece : Piece) :
  piece_at b (from_square move) = Some moved_piece ->
  is_move_a_hang b move = hang_test b (turn b) (to_square move) moved_piece.
Proof.
  intros Hp. unfold is_move_a_hang, hang_test. rewrite Hp.
  rewrite !is_attacked_by_attackers.
  destruct (attackers b (negb (turn b)) (to_square move)) as [|a rest] eqn:Ha;
    [reflexivity|].
  destruct (attackers b (turn b) (to_square move)) as [|d ds]; [reflexivity|].
  destruct (cheapest_attacker_value_some b (negb (turn b)) (to_square move))
    as [v Hv].
  { rewrite Ha. discriminate. }
  rewrite Hv. simpl. rewrite <- Ha.
  rewrite (lowest_attacker_value_cheapest _ _ _ _ Hv).
  rewrite Z.gtb_ltb.
  destruct (Z.ltb_spec v (PIECE_VALUES (piece_type moved_piece)));
    case_bool_decide; try lia; reflexivity.
Qed.

Lemma get_mistake_category_before_move (b : Board) (move : Move)
      (moved_piece : Piece) (analysis : list InfoDict) (category : string) :
  piece_at b (from_square move) = Some moved_piece ->
  get_mistake_category b move analysis = Ok category ->
  category
  = if spec_tactic_gap analysis then "Missed_Tactic"
    else if hang_test b (turn b) (to_square move) moved_piece
         then "Hanging_Piece"
         else "Positional_Error".
Proof.
  intros Hp. unfold get_mistake_category, spec_tactic_gap.
  rewrite (is_move_a_hang_before_move _ _ _ Hp).
  destruct analysis as [|i0 [|i1 rest]]; try (intros [= <-]; reflexivity).
  unfold get_score, TACTIC_DIFFERENCE_THRESHOLD.
  destruct (info_score i0) as [s0|]; res_simpl; [|discriminate].
  destruct (info_score i1) as [s1|]; res_simpl; [|discriminate].
  rewrite Z.gtb_ltb.
  destruct (Z.ltb_spec 150 (relative_score s0 - relative_score s1));
    case_bool_decide; try lia; intros [= <-]; reflexivity.
Qed.

(** C3. The order of the three categories is the specification's, but the
    hanging-piece test is made on the board before the move, where the
    moving piece itself attacks its destination and so counts as a
    defender of it.  On [hang_board] the white rook goes from a1 to a5:
    there the black rook on h5 attacks it and no white piece defends it,
    so the specification's category is Hanging_Piece (the two variations
    are 30 centipawns apart, so it is no Missed_Tactic).  The code finds
    the rook on a1 among the defenders of a5, a rook is not worth more than
    the attacking rook, and the answer is Positional_Error; this is the
    category of the record that [analyze_game_fully] makes for the move
    in [hang_game]. *)
Theorem hanging_piece_counts_the_mover_as_defender :
  let move := mkMove A1 A5 None in
  let rook := mkPiece ROOK WHITE in
  let analysis := hd [] hang_script in
  turn hang_board = WHITE
  /\ piece_at hang_board A1 = Some rook
  /\ spec_tactic_gap analysis = false
  /\ attackers (piece_placed hang_board move rook) BLACK A5 = [H5]
  /\ attackers (piece_placed hang_board move rook) WHITE A5 = []
  /\ spec_is_hang hang_board move rook = true
  /\ spec_mistake_category hang_board move rook analysis = "Hanging_Piece"
  /\ attackers hang_board BLACK A5 = [H5]
  /\ attackers hang_board WHITE A5 = [A1]
  /\ is_move_a_hang hang_board move = false
  /\ get_mistake_category hang_board move analysis = Ok "Positional_Error"
  /\ exists m,
       analyze_game_fully (ops := example_ops) (eng := scripted_engine)
                          (txt := ascii_text) hang_game "alice" hang_script
       = Ok [m]
       /\ mistake_type m = "Blunder"
       /\ mistake_category m = "Positional_Error".
Proof.
  repeat (split; [vm_compute; reflexivity|]).
  eexists. split; [vm_compute; reflexivity|]. split; reflexivity.
Qed.


(** ** King safety *)

Lemma count_true (f : nat -> bool) (l : list nat) (n : Z) :
  fold_left (fun n sq => if f sq then n + 1 else n) l n
  = n + Z.of_nat (length (List.filter f l)).
Proof.
  revert n. induction l as [|sq l IH]; intros n; simpl; [lia|].
  rewrite IH. destruct (f sq); simpl; lia.
Qed.

(** What [get_king_safety] computes: the check test is that of the side
    to move, whatever colour is asked for. *)
Lemma get_king_safety_cases (b : Board) (c : Color) :
  get_king_safety b c =
  if is_check b then "In_Check"
  else if bool_decide (3 < attacked_king_neighbours b c) then "Exposed"
  else "Safe".
Proof.
  unfold get_king_safety, attacked_king_neighbours.
  destruct (is_check b); [reflexivity|].
  destruct (king b c) as [k|].
  - rewrite count_true, Z.gtb_ltb, Z.add_0_l.
    destruct (Z.ltb_spec 3 (Z.of_nat (length (List.filter (is_attacked_by b (negb c))
                                                          (attacks b k)))));
      case_bool_decide; try lia; reflexivity.
  - case_bool_decide; [lia|reflexivity].
Qed.

Lemma is_check_side_to_move (b : Board) : is_check b = king_in_check b (turn b).
Proof. unfold is_check, king_in_check. reflexivity. Qed.

(** Asked about the side to move, [get_king_safety] is the specification's
    feature. *)
Lemma get_king_safety_side_to_move (b : Board) :
  get_king_safety b (turn b) = spec_king_safety b (turn b).
Proof.
  rewrite get_king_safety_cases, is_check_side_to_move.
  unfold spec_king_safety. reflexivity.
Qed.

(** Asked about any colour, it is the specification's feature as long as
    the two kings agree on being in check. *)
Lemma get_king_safety_agree (b : Board) (c : Color) :
  king_in_check b c = king_in_check b (turn b) ->
  get_king_safety b c = spec_king_safety b c.
Proof.
  intros Hc. rewrite get_king_safety_cases, is_check_side_to_move.
  unfold spec_king_safety. rewrite Hc. reflexivity.
Qed.

(** C9. On [example_board] White is to move and in check from the rook
    on e8, and no white piece attacks the black king on a8 or a square
    next to it.  Asked about Black, [get_king_safety] answers "In_Check"
    where the specification's feature is "Safe"; the record that
    [analyze_game_fully] makes for White's move in [example_game] carries
    that answer as [king_opponent_status]. *)
Theorem king_safety_of_opponent_reports_mover_check :
  turn example_board = WHITE
  /\ king_in_check example_board WHITE = true
  /\ king example_board BLACK = Some A8
  /\ king_in_check example_board BLACK = false
  /\ attacked_king_neighbours example_board BLACK = 0
  /\ spec_king_safety example_board BLACK = "Safe"
  /\ get_king_safety example_board BLACK = "In_Check"
  /\ exists m,
       analyze_game_fully (ops := example_ops) (eng := scripted_engine) (txt := ascii_text)
                          example_game "alice" example_script = Ok [m]
       /\ king_opponent_status m = "In_Check".
Proof.
  repeat (split; [vm_compute; reflexivity|]).
  eexists. split; vm_compute; reflexivity.
Qed.

(** ** The board after [is_piece_defending] *)

Lemma base_remove_piece_at_absent (b : Board) (sq : nat) :
  piece_at b sq = None -> base_remove_piece_at b sq = b.
Proof. unfold base_remove_piece_at. intros ->. reflexivity. Qed.

Lemma remove_piece_at_board (b : Board) (sq : nat) (p : Piece) :
  piece_at b sq = Some p ->
  snd (remove_piece_at b sq) =
  mkBoard (delete sq (placement b)) (promoted b ∖ {[ sq ]}) (turn b)
          (castling_rights b) (ep_square b) (halfmove_clock b)
          (fullmove_number b) [].
Proof.
  intros Hp. unfold remove_piece_at, base_remove_piece_at. rewrite Hp.
  reflexivity.
Qed.

(** What [is_piece_defending] leaves of the board: nothing changes when
    the square is empty; otherwise the placement, the side to move, the
    castling rights, the en-passant square and the counters are as
    before, the square is no longer marked as promoted, and the move
    stack is empty. *)
Lemma is_piece_defending_board (b : Board) (sq : nat) (c : Color) :
  snd (is_piece_defending b sq c) =
  match piece_at b sq with
  | Some _ =>
      mkBoard (placement b) (promoted b ∖ {[ sq ]}) (turn b) (castling_rights b)
              (ep_square b) (halfmove_clock b) (fullmove_number b) []
  | None => b
  end.
Proof.
  unfold is_piece_defending.
  destruct (piece_at b sq) as [p|] eqn:Hp; [|reflexivity].
  rewrite (remove_piece_at_board b sq p Hp).
  cbn [snd]. unfold set_piece_at.
  rewrite base_remove_piece_at_absent
    by (unfold piece_at; cbn [placement]; apply lookup_delete_eq).
  unfold clear_stack. cbn [placement promoted turn castling_rights ep_square
                             halfmove_clock fullmove_number move_stack].
  rewrite insert_delete_eq, insert_id by exact Hp. reflexivity.
Qed.

Lemma is_piece_defending_placement (b : Board) (sq : nat) (c : Color) :
  let b' := snd (is_piece_defending b sq c) in
  placement b' = placement b /\ turn b' = turn b
  /\ castling_rights b' = castling_rights b /\ ep_square b' = ep_square b
  /\ halfmove_clock b' = halfmove_clock b
  /\ fullmove_number b' = fullmove_number b.
Proof.
  simpl. rewrite is_piece_defending_board.
  destruct (piece_at b sq); simpl; repeat split.
Qed.

(** C10. On [example_board], whose move stack holds the move Rh8-e8,
    the query for the white king's square puts the king back on e1 (the
    placement is as before) and returns a board whose move stack is
    empty: the board after the call is not the board before it. *)
Theorem is_piece_defending_clears_move_stack :
  let b' := snd (is_piece_defending example_board E1 WHITE) in
  piece_at example_board E1 = Some (mkPiece KING WHITE)
  /\ placement b' = placement example_board
  /\ move_stack example_board = [mkMove H8 E8 None]
  /\ move_stack b' = []
  /\ b' <> example_board.
Proof.
  simpl. rewrite is_piece_defending_board.
  change (piece_at example_board E1) with (Some (mkPiece KING WHITE)).
  repeat (split; [reflexivity|]).
  intros Heq. apply (f_equal move_stack) in Heq. discriminate Heq.
Qed.

End MatchesFacts.

(* ===================================================================== *)
(** * Facts about backend/analysis.py                                    *)
(* ===================================================================== *)

Module AnalysisFacts.
Import Py Analysis.

Local Open Scope string_scope.
Local Open Scope list_scope.
Local Open Scope Z_scope.

(** ** Too few mistakes *)

(** C4. When fewer than 20 mistakes are fetched the pipeline returns
    [{new_habits_found: 0, total_mistakes: n}], [n] the number fetched:
    it does not raise, and all it has done is clear the old analysis and
    fetch (no clustering, no text generation, no save, no link). *)
Theorem insufficient_data_result :
  forall (P : Persistence) (L : Learning) (T : TextGeneration)
         (user_id : Z) (w : World),
    let cleared := clear_old_habits_and_feedback (db w) user_id in
    let n := length (get_all_mistakes_for_user_v6 cleared user_id) in
    (n < 20)%nat ->
    main_analysis_pipeline user_id w =
    (Ok (mkResult 0 (Z.of_nat n)),
     mkWorld cleared (llm w) (trace w ++ [EvClear user_id; EvFetch user_id])).
Proof.
  intros P L T user_id w cleared n Hn.
  unfold main_analysis_pipeline, log. cbn [db llm trace].
  fold cleared. fold n.
  destruct (Z.ltb_spec (Z.of_nat n) 20) as [_|Hge]; [|lia].
  rewrite <- app_assoc. reflexivity.
Qed.

(** Fifteen pending mistakes. *)
Lemma insufficient_data_result_witness :
  (length (get_all_mistakes_for_user_v6
             (clear_old_habits_and_feedback (db (example_world 15 1 [])) 7) 7)
   < 20)%nat
  /\ fst (main_analysis_pipeline 7 (example_world 15 1 []))
     = Ok (mkResult 0 15)
  /\ trace (snd (main_analysis_pipeline 7 (example_world 15 1 [])))
     = [EvClear 7; EvFetch 7].
Proof.
  assert (Hn : (length (get_all_mistakes_for_user_v6
                          (clear_old_habits_and_feedback
                             (db (example_world 15 1 [])) 7) 7) < 20)%nat).
  { vm_compute. lia. }
  split; [exact Hn|].
  rewrite (insufficient_data_result example_persistence example_learning
             scripted_llm 7 (example_world 15 1 []) Hn).
  split; reflexivity.
Defined.

(** ** Triggers *)

Lemma dict_get_set_eq {V : Type} (d : list (string * V)) (k : string) (v : V) :
  dict_get (dict_set d k v) k = Some v.
Proof.
  induction d as [|[k' v'] d IH]; simpl.
  - rewrite bool_decide_eq_true_2; reflexivity.
  - case_bool_decide as Hk; simpl.
    + rewrite bool_decide_eq_true_2; reflexivity.
    + rewrite bool_decide_eq_false_2 by exact Hk. exact IH.
Qed.

Lemma dict_get_set_ne {V : Type} (d : list (string * V)) (k k0 : string) (v : V) :
  k <> k0 -> dict_get (dict_set d k v) k0 = dict_get d k0.
Proof.
  intros Hne. induction d as [|[k' v'] d IH]; simpl.
  - rewrite bool_decide_eq_false_2; [reflexivity|exact Hne].
  - case_bool_decide as Hk; simpl.
    + subst k'. rewrite !bool_decide_eq_false_2 by exact Hne. reflexivity.
    + rewrite IH. reflexivity.
Qed.

Lemma dict_get_nil_iff {V : Type} (d : list (string * V)) :
  d = [] <-> forall k, dict_get d k = None.
Proof.
  split; [intros ->; reflexivity|].
  destruct d as [|[k v] d]; [reflexivity|].
  intros H. specialize (H k). simpl in H.
  rewrite bool_decide_eq_true_2 in H by reflexivity. discriminate.
Qed.

Lemma extract_triggers_fold (names : list string) (coefs : list Q) :
  extract_triggers names coefs = fold_left trigger_step (zip names coefs) [].
Proof. reflexivity. Qed.

(** Every entry of the dict was put there by a pair that passed the test. *)
Lemma fold_trigger_step_sound (l : list (string * Q)) (d : list (string * Q))
      (k : string) (v : Q) :
  dict_get (fold_left trigger_step l d) k = Some v ->
  dict_get d k = Some v \/ ((k, v) ∈ l /\ (1 # 10 < v)%Q).
Proof.
  revert d. induction l as [|[n c] l IH]; intros d; simpl; [auto|].
  intros H. apply IH in H as [H|[Hin Hlt]].
  - unfold trigger_step in H. simpl in H.
    destruct (Qlt_le_dec (1 # 10) c) as [Hc|Hc]; [|by left].
    destruct (decide (n = k)) as [->|Hne].
    + rewrite dict_get_set_eq in H. injection H as <-.
      right. split; [apply list_elem_of_here|exact Hc].
    + rewrite dict_get_set_ne in H by exact Hne. by left.
  - right. split; [by apply list_elem_of_further|exact Hlt].
Qed.

Lemma fold_trigger_step_other (l : list (string * Q)) (d : list (string * Q))
      (k : string) :
  k ∉ map fst l ->
  dict_get (fold_left trigger_step l d) k = dict_get d k.
Proof.
  revert d. induction l as [|[n c] l IH]; intros d Hk; simpl; [reflexivity|].
  simpl in Hk. apply not_elem_of_cons in Hk as [Hne Hk].
  rewrite IH by exact Hk. unfold trigger_step. simpl.
  destruct (Qlt_le_dec (1 # 10) c); [|reflexivity].
  apply dict_get_set_ne. congruence.
Qed.

(** With distinct names, a pair is in the dict exactly when it passes. *)
Lemma fold_trigger_step_complete (l : list (string * Q)) (d : list (string * Q))
      (k : string) (v : Q) :
  NoDup (map fst l) -> (k, v) ∈ l -> (1 # 10 < v)%Q ->
  dict_get (fold_left trigger_step l d) k = Some v.
Proof.
  revert d. induction l as [|[n c] l IH]; intros d Hnd Hin Hlt; simpl.
  - apply elem_of_nil in Hin. contradiction.
  - simpl in Hnd. apply NoDup_cons in Hnd as [Hn Hnd].
    apply elem_of_cons in Hin as [[= <- <-]|Hin].
    + rewrite fold_trigger_step_other by exact Hn.
      unfold trigger_step. simpl.
      destruct (Qlt_le_dec (1 # 10) v) as [_|Hle].
      * apply dict_get_set_eq.
      * exfalso. apply (Qlt_not_le _ _ Hlt Hle).
    + apply IH; assumption.
Qed.

Lemma zip_names_NoDup (names : list string) (coefs : list Q) :
  NoDup names -> NoDup (map fst (zip names coefs)).
Proof.
  revert coefs. induction names as [|n names IH]; intros coefs Hnd; simpl.
  - constructor.
  - destruct coefs as [|c coefs]; simpl; [constructor|].
    apply NoDup_cons in Hnd as [Hn Hnd].
    apply NoDup_cons. split; [|by apply IH].
    intros Hin. apply Hn.
    apply list_elem_of_fmap in Hin as ([n' c'] & -> & Hin).
    simpl. clear -Hin. revert coefs Hin.
    induction names as [|m names IH']; intros coefs Hin; simpl in Hin.
    + apply elem_of_nil in Hin. contradiction.
    + destruct coefs as [|c0 coefs]; simpl in Hin.
      * apply elem_of_nil in Hin. contradiction.
      * apply elem_of_cons in Hin as [[= -> ->]|Hin].
        -- apply list_elem_of_here.
        -- apply list_elem_of_further. eapply IH'. exact Hin.
Qed.

Section Triggers.
Context {P : Persistence} {L : Learning} {T : TextGeneration}.

(** C5. A feature becomes a trigger exactly when its coefficient is
    strictly above 0.1: every entry of the trigger dict is a (name,
    coefficient) pair of the fitted model with coefficient above 0.1;
    for distinct feature names, a pair of the model is in the dict if and
    only if its coefficient is above 0.1; and when the dict comes out
    empty [_generate_and_save_feedback] returns [None] with the
    database, the text generator and the events untouched, and the loop
    goes on to the next cluster without linking or counting. *)
Theorem triggers_exceed_floor :
  forall (feature_names : list string) (coefficients : list Q),
    (forall name coef,
        dict_get (extract_triggers feature_names coefficients) name = Some coef ->
        (name, coef) ∈ zip feature_names coefficients /\ (1 # 10 < coef)%Q)
    /\ (NoDup feature_names ->
        forall name coef,
          (name, coef) ∈ zip feature_names coefficients ->
          ((1 # 10 < coef)%Q <->
           dict_get (extract_triggers feature_names coefficients) name = Some coef))
    /\ (extract_triggers feature_names coefficients = [] ->
        forall user_id hdbscan_label cluster_df w,
          _generate_and_save_feedback user_id hdbscan_label cluster_df
                                      coefficients feature_names w
          = (Ok None, w))
    /\ (extract_triggers feature_names coefficients = [] ->
        forall user_id hdbscan_label rest habits_df df_clustered preprocessor
               count w,
          _find_triggers_for_cluster
            (List.filter (fun r => Z.eqb (habit_id r) hdbscan_label) habits_df)
            (List.filter (fun r => negb (Z.eqb (habit_id r) hdbscan_label))
                         df_clustered)
            preprocessor
          = Some (coefficients, feature_names) ->
          habit_loop (hdbscan_label :: rest) user_id habits_df df_clustered
                     preprocessor count w
          = habit_loop rest user_id habits_df df_clustered preprocessor count w).
Proof.
  intros names coefs.
  assert (Hempty : extract_triggers names coefs = [] ->
                   forall user_id hdbscan_label cluster_df w,
                     _generate_and_save_feedback user_id hdbscan_label cluster_df
                                                 coefs names w
                     = (Ok None, w)).
  { intros Hnil user_id label cluster_df w.
    unfold _generate_and_save_feedback. rewrite Hnil. reflexivity. }
  rewrite extract_triggers_fold in *.
  split; [|split; [|split]].
  - intros name coef H.
    apply fold_trigger_step_sound in H as [H|H]; [discriminate H|exact H].
  - intros Hnd name coef Hin. split.
    + intros Hlt. apply fold_trigger_step_complete; auto using zip_names_NoDup.
    + intros H. apply fold_trigger_step_sound in H as [H|[_ H]];
        [discriminate H|exact H].
  - exact Hempty.
  - intros Hnil user_id label rest habits_df df_clustered pre count w Hfind.
    cbn [habit_loop]. rewrite Hfind, (Hempty Hnil). reflexivity.
Qed.

End Triggers.

(** Coefficients 0.3, 0.1 and -0.2: only the first feature is a trigger;
    with 0.1 and -0.2 alone nothing is saved. *)
Lemma triggers_exceed_floor_witness :
  NoDup example_feature_names
  /\ ("piece_moved_QUEEN", (1 # 10)%Q) ∈ zip example_feature_names example_coefficients
  /\ extract_triggers example_feature_names example_coefficients
     = [("game_phase_Endgame", (3 # 10)%Q)]
  /\ ((1 # 10 < 1 # 10)%Q <->
      dict_get (extract_triggers example_feature_names example_coefficients)
               "piece_moved_QUEEN" = Some (1 # 10)%Q)
  /\ extract_triggers (tail example_feature_names) (tail example_coefficients) = []
  /\ _generate_and_save_feedback 7 0 [] (tail example_coefficients)
       (tail example_feature_names) (example_world 25 1 [])
     = (Ok None, example_world 25 1 []).
Proof.
  assert (Hnd : NoDup example_feature_names).
  { apply (bool_decide_unpack _). vm_compute. exact I. }
  assert (Hin : ("piece_moved_QUEEN", (1 # 10)%Q)
                  ∈ zip example_feature_names example_coefficients).
  { apply list_elem_of_further, list_elem_of_here. }
  split; [exact Hnd|]. split; [exact Hin|]. split; [reflexivity|].
  split.
  - exact (proj1 (proj2 (triggers_exceed_floor (P := example_persistence)
                           (L := example_learning) (T := scripted_llm)
                           example_feature_names example_coefficients))
                 Hnd _ _ Hin).
  - split; [reflexivity|].
    apply (proj1 (proj2 (proj2 (triggers_exceed_floor
                                  (tail example_feature_names)
                                  (tail example_coefficients))))).
    reflexivity.
Defined.

(** ** Text generation *)

Section Feedback.
Context {P : Persistence} {L : Learning} {T : TextGeneration}.

(** The loop answers on every path, after at most three calls, and does
    nothing but call and sleep. *)
Lemma generate_llm_feedback_total (request : Request) (w : World) :
  exists output events,
    _generate_llm_feedback request w
    = (Some output, mkWorld (db w) (llm (snd (_generate_llm_feedback request w)))
                            (trace w ++ events))
    /\ Forall is_llm_event events
    /\ (length (List.filter (fun e => match e with EvCreate _ => true | _ => false end)
                            events) <= 3)%nat.
Proof.
  unfold _generate_llm_feedback. cbn [llm_attempts].
  destruct (chat_completions_create (llm w) request) as [c1 s1].
  destruct (tool_arguments c1) as [a1|].
  { exists a1, [EvCreate 0]. cbn. repeat split; repeat constructor. }
  cbn [Z.ltb Z.compare log db llm trace].
  destruct (chat_completions_create s1 request) as [c2 s2].
  destruct (tool_arguments c2) as [a2|].
  { exists a2, [EvCreate 0; EvSleep (2 ^ 0); EvCreate 1].
    cbn [snd llm]. rewrite <- !app_assoc.
    repeat split; repeat constructor. }
  cbn [Z.ltb Z.compare Pos.compare Pos.compare_cont log db llm trace].
  destruct (chat_completions_create s2 request) as [c3 s3].
  destruct (tool_arguments c3) as [a3|].
  { exists a3, [EvCreate 0; EvSleep (2 ^ 0); EvCreate 1; EvSleep (2 ^ 1); EvCreate 2].
    cbn [snd llm]. rewrite <- !app_assoc.
    repeat split; repeat constructor. }
  cbn [Z.ltb Z.compare Pos.compare Pos.compare_cont].
  exists (JsonDict fallback_feedback),
    [EvCreate 0; EvSleep (2 ^ 0); EvCreate 1; EvSleep (2 ^ 1); EvCreate 2].
  cbn [snd llm]. rewrite <- !app_assoc.
  repeat split; repeat constructor.
Qed.



End Feedback.


(** ** Save, then link *)

Lemma is_llm_event_not_link (e : Event) : is_llm_event e -> ~ is_link e.
Proof. destruct e; simpl; tauto. Qed.

Lemma links_follow_saves_nil : links_follow_saves [].
Proof.
  intros pre h ids post H. destruct pre; discriminate H.
Qed.

Lemma links_follow_saves_snoc (a : list Event) (e : Event) :
  links_follow_saves a -> ~ is_link e -> links_follow_saves (a ++ [e]).
Proof.
  intros Ha He pre h ids post H.
  destruct post as [|x post _] using rev_ind.
  - apply app_inj_tail in H as [_ ->]. exfalso. apply He. exact I.
  - rewrite app_comm_cons, app_assoc in H.
    apply app_inj_tail in H as [H _]. exact (Ha _ _ _ _ H).
Qed.

Lemma links_follow_saves_app (a q : list Event) :
  links_follow_saves a -> Forall (fun e => ~ is_link e) q ->
  links_follow_saves (a ++ q).
Proof.
  revert a. induction q as [|e q IH]; intros a Ha Hq.
  - rewrite app_nil_r. exact Ha.
  - apply Forall_cons in Hq as [He Hq].
    change (e :: q) with ([e] ++ q). rewrite app_assoc.
    apply IH; [|exact Hq]. apply links_follow_saves_snoc; assumption.
Qed.

Lemma links_follow_saves_linked (a : list Event) (habit : HabitRow) (h : Z)
      (ids : list Z) :
  links_follow_saves a -> h <> 0 ->
  links_follow_saves (a ++ [EvSave habit (Some h); EvLink h ids]).
Proof.
  intros Ha Hh pre h' ids' post H.
  destruct post as [|x post _] using rev_ind.
  - change [EvSave habit (Some h); EvLink h ids]
      with ([EvSave habit (Some h)] ++ [EvLink h ids]) in H.
    rewrite app_assoc in H.
    apply app_inj_tail in H as [<- [= <- <-]].
    split; [exact Hh|]. eauto.
  - rewrite app_comm_cons, app_assoc in H.
    change [EvSave habit (Some h); EvLink h ids]
      with ([EvSave habit (Some h)] ++ [EvLink h ids]) in H.
    rewrite (app_assoc a) in H.
    apply app_inj_tail in H as [H _].
    assert (Hs : links_follow_saves (a ++ [EvSave habit (Some h)])).
    { apply links_follow_saves_snoc; [exact Ha|]. simpl. tauto. }
    exact (Hs _ _ _ _ H).
Qed.

Section SaveThenLink.
Context {P : Persistence} {L : Learning} {T : TextGeneration}.

(** What [_generate_and_save_feedback] adds to the events: calls and
    sleeps, then at most one save, which carries the returned id. *)
Lemma generate_and_save_feedback_events user_id label cluster_df coefs names
      (w : World) (r : res (option Z)) (w1 : World) :
  _generate_and_save_feedback user_id label cluster_df coefs names w = (r, w1) ->
  exists q, Forall is_llm_event q /\
    ((trace w1 = trace w ++ q /\ (r = Ok None \/ exists e, r = Raise e))
     \/ exists habit new_id,
          r = Ok new_id /\ trace w1 = trace w ++ q ++ [EvSave habit new_id]).
Proof.
  unfold _generate_and_save_feedback.
  destruct (extract_triggers names coefs) as [|t ts].
  { intros [= <- <-]. exists []. split; [constructor|]. left.
    rewrite app_nil_r. auto. }
  destruct (idxmax_cpl cluster_df) as [prime|].
  2:{ intros [= <- <-]. exists []. split; [constructor|]. left.
      rewrite app_nil_r. eauto. }
  destruct (generate_llm_feedback_total
              (build_request cluster_df (t :: ts)) w)
    as (output & q & Hllm & Hq & _).
  rewrite Hllm. cbn [db llm trace].
  destruct output as [output|].
  2:{ intros [= <- <-]. exists q. split; [exact Hq|]. left. cbn [trace]. eauto. }
  destruct (save_habit_analysis _ _) as [new_id d].
  intros [= <- <-]. exists q. split; [exact Hq|]. right.
  eexists _, new_id. split; [reflexivity|]. cbn [trace].
  rewrite <- app_assoc. reflexivity.
Qed.

Lemma habit_loop_events (labels : list Z) user_id habits_df df_clustered
      preprocessor (count : Z) (w : World) (base added : list Event) :
  trace w = base ++ added -> links_follow_saves added ->
  exists added',
    trace (snd (habit_loop labels user_id habits_df df_clustered preprocessor
                           count w))
    = base ++ added'
    /\ links_follow_saves added'.
Proof.
  revert count w added.
  induction labels as [|label rest IH]; intros count w added Hw Hadded;
    cbn [habit_loop].
  - eauto.
  - destruct (_find_triggers_for_cluster _ _ _) as [[coefs names]|]; [|eauto].
    destruct (_generate_and_save_feedback _ _ _ _ _ _) as [r w1] eqn:Hgen.
    apply generate_and_save_feedback_events in Hgen as (q & Hq & Hcases).
    assert (Hq' : Forall (fun e => ~ is_link e) q).
    { eapply Forall_impl; [exact Hq|]. apply is_llm_event_not_link. }
    destruct Hcases as [[Htr Hr]|(habit & new_id & -> & Htr)].
    + assert (Hadd : links_follow_saves (added ++ q))
        by (apply links_follow_saves_app; assumption).
      assert (Hw1 : trace w1 = base ++ added ++ q)
        by (rewrite Htr, Hw, <- app_assoc; reflexivity).
      destruct Hr as [->|[e ->]]; cbn [truthy snd]; eauto.
    + assert (Hw1 : trace w1 = base ++ (added ++ q) ++ [EvSave habit new_id])
        by (rewrite Htr, Hw, <- !app_assoc; reflexivity).
      assert (Hadd : links_follow_saves (added ++ q))
        by (apply links_follow_saves_app; assumption).
      destruct new_id as [i|]; cbn [truthy].
      * destruct (Z.eqb_spec i 0) as [->|Hi].
        -- eapply IH; [exact Hw1|].
           apply links_follow_saves_snoc; [exact Hadd|]. simpl. tauto.
        -- eapply IH.
           ++ cbn [trace]. rewrite Hw1, <- !app_assoc. cbn [app].
              rewrite (app_assoc added q). reflexivity.
           ++ apply links_follow_saves_linked; assumption.
      * eapply IH; [exact Hw1|].
        apply links_follow_saves_snoc; [exact Hadd|]. simpl. tauto.
Qed.

(** C6. In the events a run of the pipeline adds, every link of
    mistakes to a habit id comes immediately after a save that returned
    that very id, and the id is not zero.  When the save of a cluster
    returns no id (or zero), the loop goes on to the next cluster with
    the count unchanged and nothing linked. *)
Theorem link_only_after_successful_save :
  forall (user_id : Z) (w : World),
    (exists added,
        trace (snd (main_analysis_pipeline user_id w)) = trace w ++ added
        /\ links_follow_saves added)
    /\ (forall hdbscan_label rest habits_df df_clustered preprocessor count
               coefficients feature_names w0 new_serial_id w1,
          _find_triggers_for_cluster
            (List.filter (fun r => Z.eqb (habit_id r) hdbscan_label) habits_df)
            (List.filter (fun r => negb (Z.eqb (habit_id r) hdbscan_label))
                         df_clustered)
            preprocessor
          = Some (coefficients, feature_names) ->
          _generate_and_save_feedback
            user_id hdbscan_label
            (List.filter (fun r => Z.eqb (habit_id r) hdbscan_label) habits_df)
            coefficients feature_names w0
          = (Ok new_serial_id, w1) ->
          truthy new_serial_id = None ->
          habit_loop (hdbscan_label :: rest) user_id habits_df df_clustered
                     preprocessor count w0
          = habit_loop rest user_id habits_df df_clustered preprocessor count w1).
Proof.
  intros user_id w. split.
  - unfold main_analysis_pipeline, log. cbn [db llm trace].
    set (all := get_all_mistakes_for_user_v6 _ user_id).
    destruct (Z.of_nat (length all) <? 20).
    { exists [EvClear user_id; EvFetch user_id]. cbn [snd trace].
      rewrite <- app_assoc. split; [reflexivity|].
      apply (links_follow_saves_app []); [apply links_follow_saves_nil|].
      repeat constructor; simpl; tauto. }
    assert (H3 : links_follow_saves
                   [EvClear user_id; EvFetch user_id; EvCluster (length all)]).
    { apply (links_follow_saves_app []); [apply links_follow_saves_nil|].
      repeat constructor; simpl; tauto. }
    destruct (List.filter _ (_run_hdbscan_clustering all)) as [|h hs] eqn:Hh.
    { eexists. cbn [snd trace]. rewrite <- !app_assoc. split; [reflexivity|].
      exact H3. }
    destruct (_create_feature_preprocessor all) as [pre|].
    2:{ eexists. cbn [snd trace]. rewrite <- !app_assoc. split; [reflexivity|].
        exact H3. }
    match goal with
    | |- context [habit_loop ?ls ?u ?hd ?dc ?p ?c ?w3] =>
        destruct (habit_loop_events ls u hd dc p c w3 (trace w)
                    [EvClear user_id; EvFetch user_id; EvCluster (length all)])
          as (added' & Htr & Hadded');
          [cbn [trace]; rewrite <- !app_assoc; reflexivity|exact H3|];
          destruct (habit_loop ls u hd dc p c w3) as [r w4]
    end.
    cbn [snd] in Htr. exists added'.
    split; [|exact Hadded']. destruct r; exact Htr.
  - intros label rest habits_df df_clustered pre count coefs names w0
           new_id w1 Hfind Hgen Hnone.
    cbn [habit_loop]. rewrite Hfind, Hgen, Hnone. reflexivity.
Qed.

End SaveThenLink.

(** Twenty-five mistakes, five of them in a cluster.  With a database
    whose save fails nothing is linked; with one that returns id 1 the
    five mistakes are linked right after the save. *)
Lemma link_only_after_successful_save_witness :
  let failing := example_world 25 0 [example_completion] in
  let working := example_world 25 1 [example_completion] in
  fst (main_analysis_pipeline 7 failing) = Ok (mkResult 0 25)
  /\ links (db (snd (main_analysis_pipeline 7 failing))) = []
  /\ fst (main_analysis_pipeline 7 working) = Ok (mkResult 1 25)
  /\ links (db (snd (main_analysis_pipeline 7 working))) = [(1, [1; 2; 3; 4; 5])]
  /\ exists added,
       trace (snd (main_analysis_pipeline 7 working)) = trace working ++ added
       /\ links_follow_saves added.
Proof.
  intros failing working.
  repeat (split; [reflexivity|]).
  exact (proj1 (link_only_after_successful_save
                  (P := example_persistence) (L := example_learning)
                  (T := scripted_llm) 7 working)).
Defined.

End AnalysisFacts.

(* ===================================================================== *)
(** * Facts about the dissimilarity matrix                               *)
(* ===================================================================== *)

Module GowerFacts.
Import Gower.

Local Open Scope list_scope.
Local Open Scope R_scope.

(** ** Sums and extrema *)

Lemma Rsum_map_between {A : Type} (f : A -> R) (l : list A) :
  (forall x, 0 <= f x <= 1) -> 0 <= Rsum (map f l) <= INR (length l).
Proof.
  intros Hf. induction l as [|x l IH].
  - simpl. lra.
  - change (Rsum (map f (x :: l))) with (f x + Rsum (map f l)).
    change (length (x :: l)) with (S (length l)). rewrite S_INR.
    specialize (Hf x). lra.
Qed.

Lemma Rsum_map_zero {A : Type} (f : A -> R) (l : list A) :
  (forall x, f x = 0) -> Rsum (map f l) = 0.
Proof.
  intros Hf. induction l as [|x l IH]; simpl; [reflexivity|].
  rewrite Hf, IH. lra.
Qed.

Lemma fold_Rmax_ge (d : R) (l : list R) :
  d <= fold_right Rmax d l /\ forall x, In x l -> x <= fold_right Rmax d l.
Proof.
  induction l as [|y l [IHd IHl]]; simpl.
  - split; [lra|tauto].
  - split.
    + pose proof (Rmax_r y (fold_right Rmax d l)). lra.
    + intros x [->|Hx].
      * apply Rmax_l.
      * pose proof (Rmax_r y (fold_right Rmax d l)). specialize (IHl x Hx). lra.
Qed.

Lemma fold_Rmin_le (d : R) (l : list R) :
  fold_right Rmin d l <= d /\ forall x, In x l -> fold_right Rmin d l <= x.
Proof.
  induction l as [|y l [IHd IHl]]; simpl.
  - split; [lra|tauto].
  - split.
    + pose proof (Rmin_r y (fold_right Rmin d l)). lra.
    + intros x [->|Hx].
      * apply Rmin_l.
      * pose proof (Rmin_r y (fold_right Rmin d l)). specialize (IHl x Hx). lra.
Qed.

Lemma col_max_ge (col : list R) (x : R) : In x col -> x <= col_max col.
Proof. intros Hx. apply fold_Rmax_ge, Hx. Qed.

Lemma col_min_le (col : list R) (x : R) : In x col -> col_min col <= x.
Proof. intros Hx. apply fold_Rmin_le, Hx. Qed.

Lemma Rsum_le_max (l : list R) (m : R) :
  (forall x, In x l -> x <= m) -> Rsum l <= INR (length l) * m.
Proof.
  intros H. induction l as [|y l IH].
  - simpl. lra.
  - change (Rsum (y :: l)) with (y + Rsum l).
    change (length (y :: l)) with (S (length l)). rewrite S_INR.
    assert (y <= m) by (apply H; left; reflexivity).
    assert (Rsum l <= INR (length l) * m) by (apply IH; intros; apply H; right; assumption).
    lra.
Qed.

Lemma Rsum_ge_min (l : list R) (m : R) :
  (forall x, In x l -> m <= x) -> INR (length l) * m <= Rsum l.
Proof.
  intros H. induction l as [|y l IH].
  - simpl. lra.
  - change (Rsum (y :: l)) with (y + Rsum l).
    change (length (y :: l)) with (S (length l)). rewrite S_INR.
    assert (m <= y) by (apply H; left; reflexivity).
    assert (INR (length l) * m <= Rsum l) by (apply IH; intros; apply H; right; assumption).
    lra.
Qed.

(** A column that sums to zero has its minimum at or below zero and its
    maximum at or above. *)
Lemma centred_extrema (col : list R) :
  Rsum col = 0 -> col_min col <= 0 <= col_max col.
Proof.
  intros Hsum. destruct col as [|y l] eqn:Hcol.
  - unfold col_min, col_max. simpl. lra.
  - rewrite <- Hcol in *.
    assert (Hpos : 0 < INR (length col)).
    { rewrite Hcol. change (length (y :: l)) with (S (length l)).
      apply lt_0_INR. lia. }
    pose proof (Rsum_le_max col (col_max col) (col_max_ge col)) as Hmax.
    pose proof (Rsum_ge_min col (col_min col) (col_min_le col)) as Hmin.
    rewrite Hsum in Hmax, Hmin. split; nra.
Qed.

Lemma nth_between (col : list R) (i : nat) :
  col_min col <= 0 <= col_max col ->
  col_min col <= nth i col 0 <= col_max col.
Proof.
  intros H0. destruct (Nat.lt_ge_cases i (length col)) as [Hi|Hi].
  - split; [apply col_min_le|apply col_max_ge]; apply nth_In, Hi.
  - rewrite nth_overflow by exact Hi. exact H0.
Qed.

(** ** The scaler *)

Lemma Rsum_shift_scale (col : list R) (m s : R) :
  Rsum (map (fun x => (x - m) / s) col) = (Rsum col - INR (length col) * m) / s.
Proof.
  induction col as [|y l IH].
  - simpl. unfold Rdiv. lra.
  - change (Rsum (map (fun x => (x - m) / s) (y :: l)))
      with ((y - m) / s + Rsum (map (fun x => (x - m) / s) l)).
    change (Rsum (y :: l)) with (y + Rsum l).
    change (length (y :: l)) with (S (length l)). rewrite S_INR, IH.
    unfold Rdiv. lra.
Qed.

(** A standardised column sums to zero. *)
Lemma standard_scale_centred (col : list R) : Rsum (standard_scale col) = 0.
Proof.
  unfold standard_scale. rewrite Rsum_shift_scale.
  assert (H : Rsum col - INR (length col) * mean col = 0).
  { unfold mean. destruct col as [|y l] eqn:Hcol.
    - simpl. unfold Rdiv. ring.
    - rewrite <- Hcol.
      assert (Hn : INR (length col) <> 0).
      { rewrite Hcol. change (length (y :: l)) with (S (length l)).
        apply not_0_INR. lia. }
      field. exact Hn. }
  rewrite H. unfold Rdiv. ring.
Qed.

(** ** One column *)

Lemma sij_cat_between (col : list string) (i j : nat) : 0 <= sij_cat col i j <= 1.
Proof. unfold sij_cat. case_bool_decide; lra. Qed.

Lemma sij_cat_diag (col : list string) (i : nat) : sij_cat col i i = 0.
Proof. unfold sij_cat. rewrite bool_decide_eq_true_2; reflexivity. Qed.

Lemma sij_num_diag (col : list R) (i : nat) : sij_num col i i = 0.
Proof.
  unfold sij_num. destruct (Req_dec_T (num_range col) 0); [reflexivity|].
  replace (normalised col i - normalised col i) with 0 by lra.
  rewrite Rabs_R0. unfold Rdiv. lra.
Qed.

(** On a column that sums to zero the numeric share is between 0 and 1. *)
Lemma sij_num_between (col : list R) (i j : nat) :
  Rsum col = 0 -> 0 <= sij_num col i j <= 1.
Proof.
  intros Hsum. pose proof (centred_extrema col Hsum) as H0.
  pose proof (nth_between col i H0) as Hi.
  pose proof (nth_between col j H0) as Hj.
  unfold sij_num, num_range, normalised.
  destruct (Req_dec_T (col_max col) 0) as [Hz|Hnz].
  { destruct (Req_dec_T 0 0); [lra|contradiction]. }
  assert (Hmax : 0 < col_max col) by lra.
  set (mx := col_max col) in *. set (mn := col_min col) in *.
  set (xi := nth i col 0) in *. set (xj := nth j col 0) in *.
  destruct (Req_dec_T (1 - mn / mx) 0) as [_|Hr]; [lra|].
  assert (Hrange : 1 - mn / mx = (mx - mn) / mx) by (field; lra).
  assert (Hdelta : xi / mx - xj / mx = (xi - xj) / mx) by (field; lra).
  rewrite Hdelta, Hrange in *.
  assert (Hpos : 0 < (mx - mn) / mx).
  { apply Rdiv_lt_0_compat; lra. }
  assert (Habs : Rabs ((xi - xj) / mx) <= (mx - mn) / mx).
  { unfold Rdiv. rewrite Rabs_mult, (Rabs_pos_eq (/ mx)).
    - apply Rmult_le_compat_r.
      + left. apply Rinv_0_lt_compat, Hmax.
      + apply Rabs_le. lra.
    - left. apply Rinv_0_lt_compat, Hmax. }
  pose proof (Rabs_pos ((xi - xj) / mx)) as Hnonneg.
  split.
  - apply Rmult_le_pos; [exact Hnonneg|]. left. apply Rinv_0_lt_compat, Hpos.
  - apply (Rmult_le_reg_r ((mx - mn) / mx)); [exact Hpos|].
    unfold Rdiv at 1. rewrite Rmult_assoc, Rinv_l by lra. lra.
Qed.

(** ** The matrix *)

Lemma nth_map_seq {A : Type} (f : nat -> A) (n i : nat) (d : A) :
  nth i (map f (seq 0 n)) d = if (i <? n)%nat then f i else d.
Proof.
  destruct (Nat.ltb_spec i n) as [Hi|Hi].
  - rewrite (nth_indep _ d (f 0%nat)) by (rewrite length_map, length_seq; exact Hi).
    rewrite map_nth, seq_nth by exact Hi. reflexivity.
  - apply nth_overflow. rewrite length_map, length_seq. exact Hi.
Qed.

Lemma gower_get_diag (X : Frame) (i : nat) : gower_get X i i = 0.
Proof.
  unfold gower_get.
  rewrite (Rsum_map_zero (fun col => sij_cat col i i)) by (intros; apply sij_cat_diag).
  rewrite (Rsum_map_zero (fun col => sij_num col i i)) by (intros; apply sij_num_diag).
  unfold Rdiv. lra.
Qed.

Lemma Rsum_map_between_on {A : Type} (f : A -> R) (l : list A) :
  (forall x, In x l -> 0 <= f x <= 1) -> 0 <= Rsum (map f l) <= INR (length l).
Proof.
  intros Hf. induction l as [|x l IH].
  - simpl. lra.
  - change (Rsum (map f (x :: l))) with (f x + Rsum (map f l)).
    change (length (x :: l)) with (S (length l)). rewrite S_INR.
    assert (0 <= f x <= 1) by (apply Hf; left; reflexivity).
    assert (0 <= Rsum (map f l) <= INR (length l))
      by (apply IH; intros; apply Hf; right; assumption).
    lra.
Qed.

(** When every numeric column sums to zero, each result of [gower_get]
    is between 0 and 1. *)
Lemma gower_get_between (X : Frame) (i j : nat) :
  (forall col, In col (numeric X) -> Rsum col = 0) ->
  0 <= gower_get X i j <= 1.
Proof.
  intros Hnum. unfold gower_get.
  pose proof (Rsum_map_between (fun col => sij_cat col i j) (categorical X)
                (fun col => sij_cat_between col i j)) as Hc.
  pose proof (Rsum_map_between_on (fun col => sij_num col i j) (numeric X)
                (fun col Hcol => sij_num_between col i j (Hnum col Hcol))) as Hn.
  rewrite plus_INR.
  set (sc := Rsum (map (fun col => sij_cat col i j) (categorical X))) in *.
  set (sn := Rsum (map (fun col => sij_num col i j) (numeric X))) in *.
  set (nc := INR (length (categorical X))) in *.
  set (nn := INR (length (numeric X))) in *.
  destruct (Req_dec_T (nc + nn) 0) as [Hz|Hnz].
  - replace (sc + sn) with 0 by lra. unfold Rdiv. rewrite Rmult_0_l. lra.
  - assert (Hpos : 0 < nc + nn) by lra.
    split.
    + apply Rmult_le_pos; [lra|]. left. apply Rinv_0_lt_compat, Hpos.
    + apply (Rmult_le_reg_r (nc + nn)); [exact Hpos|].
      unfold Rdiv. rewrite Rmult_assoc, Rinv_l by exact Hnz. lra.
Qed.

Lemma gower_frame_centred (df : list Analysis.Mistake) (col : list R) :
  In col (numeric (Analysis.gower_frame df)) -> Rsum col = 0.
Proof.
  unfold Analysis.gower_frame. cbn [numeric].
  intros [<-|[<-|[]]]; apply standard_scale_centred.
Qed.

Lemma gower_matrix_nth (X : Frame) (n i j : nat) :
  nth j (nth i (gower_matrix X n) []) 0 =
  if ((i <? n)%nat && (j <? n)%nat)%bool
  then gower_get X (Nat.min i j) (Nat.max i j)
  else 0.
Proof.
  unfold gower_matrix. rewrite nth_map_seq.
  destruct (i <? n)%nat; cbn [andb].
  - rewrite (nth_map_seq (fun b => gower_get X (Nat.min i b) (Nat.max i b))).
    reflexivity.
  - destruct j; reflexivity.
Qed.

(** C7. The matrix that [_run_hdbscan_clustering] hands to the
    clusterer, for any list of fetched mistakes: it is square of the size
    of the list; entry (i, j) equals entry (j, i); the diagonal is zero;
    every entry is between 0 and 1.  (Entries are read with [nth], which
    gives the empty row and 0 outside the matrix.) *)
Theorem gower_matrix_symmetric_zero_diagonal_unit_range :
  forall (df : list Analysis.Mistake),
    let M := gower_matrix (Analysis.gower_frame df) (length df) in
    length M = length df
    /\ Forall (fun r => length r = length df) M
    /\ (forall i j, nth j (nth i M []) 0 = nth i (nth j M []) 0)
    /\ (forall i, nth i (nth i M []) 0 = 0)
    /\ Forall (Forall (fun x => 0 <= x <= 1)) M.
Proof.
  intros df M. unfold M.
  split; [unfold gower_matrix; rewrite length_map, length_seq; reflexivity|].
  split.
  { apply Forall_forall. intros r Hr. unfold gower_matrix in Hr.
    apply list_elem_of_In, in_map_iff in Hr as (a & <- & _).
    rewrite length_map, length_seq. reflexivity. }
  split.
  { intros i j. rewrite !gower_matrix_nth.
    rewrite andb_comm, Nat.min_comm, Nat.max_comm. reflexivity. }
  split.
  { intros i. rewrite gower_matrix_nth, Nat.min_id, Nat.max_id, gower_get_diag.
    destruct (_ && _)%bool; reflexivity. }
  apply Forall_forall. intros r Hr. unfold gower_matrix in Hr.
  apply list_elem_of_In, in_map_iff in Hr as (a & <- & _).
  apply Forall_forall. intros x Hx.
  apply list_elem_of_In, in_map_iff in Hx as (b & <- & _).
  apply gower_get_between, gower_frame_centred.
Qed.

End GowerFacts.

(* ===================================================================== *)
(** * More facts about backend/matches.py                                *)
(* ===================================================================== *)

Module MatchesProperties.
Import Py Chess Matches MatchesValues.

Local Open Scope string_scope.
Local Open Scope list_scope.
Local Open Scope Z_scope.

Ltac res_simpl :=
  unfold mbind, res_bind, mret, res_ret in *; simpl in *.

(** Membership in a list of string literals. *)
Ltac in_literals :=
  repeat (first [apply list_elem_of_here | apply list_elem_of_further]).

(** ** Severity grows with the loss *)

(** X1. A larger centipawn loss never gets a milder type. *)
Theorem get_mistake_type_monotone (c1 c2 : Z) :
  c1 ≤ c2 -> severity (get_mistake_type c1) ≤ severity (get_mistake_type c2).
Proof.
  intros Hle. rewrite !MatchesFacts.get_mistake_type_spec.
  unfold spec_mistake_type.
  repeat case_decide; try lia; vm_compute; discriminate.
Qed.

Lemma get_mistake_type_monotone_witness :
  49 ≤ 300
  /\ severity (get_mistake_type 49) ≤ severity (get_mistake_type 300)
  /\ severity (get_mistake_type 49) = 0 /\ severity (get_mistake_type 300) = 3.
Proof.
  split; [lia|].
  split; [apply (get_mistake_type_monotone 49 300); lia|].
  split; reflexivity.
Defined.

(** ** The values of a record *)

Lemma get_mistake_type_values (c : Z) :
  get_mistake_type c <> "Good" -> get_mistake_type c ∈ MISTAKE_TYPES.
Proof.
  unfold get_mistake_type.
  destruct (c >=? CPL_BLUNDER); [intros _; in_literals|].
  destruct (c >=? CPL_MISTAKE); [intros _; in_literals|].
  destruct (c >=? CPL_INACCURACY); [intros _; in_literals|].
  intros H. contradiction H. reflexivity.
Qed.

Lemma get_mistake_category_values b move analysis cat :
  get_mistake_category b move analysis = Ok cat -> cat ∈ MISTAKE_CATEGORIES.
Proof.
  unfold get_mistake_category.
  assert (Hrest : (if is_move_a_hang b move then "Hanging_Piece"
                   else "Positional_Error") ∈ MISTAKE_CATEGORIES).
  { destruct (is_move_a_hang b move); in_literals. }
  destruct analysis as [|i0 [|i1 rest]]; try (intros [= <-]; exact Hrest).
  unfold get_score.
  destruct (info_score i0); res_simpl; [|discriminate].
  destruct (info_score i1); res_simpl; [|discriminate].
  destruct (_ >? _); intros [= <-]; [in_literals|exact Hrest].
Qed.

Lemma get_game_phase_values b : get_game_phase b ∈ GAME_PHASES.
Proof.
  unfold get_game_phase.
  destruct (_ && _); [in_literals|]. destruct (_ <? _); in_literals.
Qed.

Lemma get_material_balance_values b c : get_material_balance b c ∈ MATERIAL_BALANCES.
Proof.
  unfold get_material_balance.
  destruct (_ >? _); [in_literals|]. destruct (_ <? _); in_literals.
Qed.

Lemma get_board_complexity_values b : get_board_complexity b ∈ BOARD_COMPLEXITIES.
Proof.
  unfold get_board_complexity.
  destruct (_ >? _); [in_literals|]. destruct (_ <? _); in_literals.
Qed.

Lemma get_king_safety_values b c : get_king_safety b c ∈ KING_SAFETIES.
Proof.
  rewrite MatchesFacts.get_king_safety_cases.
  destruct (is_check b); [in_literals|]. case_bool_decide; in_literals.
Qed.

Section Values.
Context {ops : BoardOps}.

Lemma get_castling_status_values b c : get_castling_status b c ∈ CASTLING_STATUSES.
Proof.
  unfold get_castling_status.
  destruct (_ && _); [in_literals|].
  destruct (has_castling_rights b c); in_literals.
Qed.

Lemma get_move_type_values b move : get_move_type b move ∈ MOVE_TYPES.
Proof.
  unfold get_move_type.
  destruct (is_capture b move); [in_literals|].
  destruct (gives_check b move); in_literals.
Qed.

Lemma values_fit (m : mistake_data) :
  values_in_range m -> player_color m ∈ ["white"; "black"] ->
  (String.length (move_made m) <= 10)%nat ->
  (String.length (best_move m) <= 10)%nat ->
  fits_mistakes_table m.
Proof.
  unfold values_in_range, fits_mistakes_table.
  intros (Ht & Hc & Hp & Hm & Hb & Hs & Ho & Hcs & Hpm & Hmt) Hcol Hmade Hbest.
  assert (Hlen : forall (vs : list string) (n : nat) (x : string),
             Forall (fun v => (String.length v <= n)%nat) vs -> x ∈ vs ->
             (String.length x <= n)%nat).
  { intros vs n x Hall Hx. rewrite Forall_forall in Hall. auto. }
  split; [exact Hcol|].
  repeat split; try assumption;
    match goal with
    | H : ?f m ∈ ?vs |- (String.length (?f m) <= ?n)%nat =>
        apply (Hlen vs n _); [|exact H];
          repeat constructor; vm_compute; lia
    end.
Qed.

(** What [record_ply] puts in a record. *)
Lemma record_ply_values b move uc c best analysis m b' :
  record_ply b move uc c best analysis = Ok (Some m, b') ->
  values_in_range m /\ player_color m = COLOR_NAMES uc
  /\ cpl m = c /\ mistake_type m = get_mistake_type c /\ 50 ≤ c
  /\ move_made m = uci move /\ best_move m = uci best.
Proof.
  unfold record_ply.
  case_bool_decide as Hgood; [|discriminate].
  destruct (get_mistake_category b move analysis) as [cat|] eqn:Hcat;
    res_simpl; [|discriminate].
  destruct (is_piece_defending b (from_square move) uc) as [d b1].
  intros [= <- <-]. cbn.
  split; [|split; [reflexivity|split; [reflexivity|split; [reflexivity|]]]];
    [|split; [|split; reflexivity]].
  - unfold values_in_range. cbn.
    repeat split;
      auto using get_mistake_type_values, get_game_phase_values,
        get_material_balance_values, get_board_complexity_values,
        get_king_safety_values, get_castling_status_values,
        get_move_type_values.
    + eapply get_mistake_category_values, Hcat.
    + destruct (piece_at b (from_square move)) as [[[] ?]|]; in_literals.
  - apply MatchesFacts.spec_mistake_type_floor.
    destruct (spec_mistake_type c) eqn:E; [eauto|].
    exfalso. apply Hgood. apply MatchesFacts.get_mistake_type_good, E.
Qed.

End Values.

(** ** Whole games *)

Section Games.
Context {ops : BoardOps} {eng : Engine} {txt : Text}.

Lemma analyze_ply_from_record_ply es b move uc m b' es' :
  analyze_ply es b move uc = Ok (Some m, b', es') ->
  exists c best analysis, record_ply b move uc c best analysis = Ok (Some m, b').
Proof.
  unfold analyze_ply.
  destruct (evaluate_ply es b move) as [[[[[c best] analysis]|] es2]|e];
    res_simpl; try discriminate.
  destruct (record_ply b move uc c best analysis) as [[om b1]|e] eqn:Hrec;
    res_simpl; [|discriminate].
  intros [= -> -> <-]. eauto.
Qed.

(** X2. Every record of a game holds, in each categorical field, one of the
    strings the helper of that field returns; it carries the colour the
    user plays in that game; its type is the one its loss gives and the
    loss is at least 50; and it satisfies the CHECK on [player_color] and
    the width of every VARCHAR column of the [mistakes] table, [move_made]
    and [best_move] included, given that the UCI form of a move has at
    most ten characters (python-chess writes four or five). *)
Theorem records_are_well_formed :
  forall (game : Game) (username : string) (engine : EngineState)
         (l : list mistake_data) (m : mistake_data),
    (forall move : Move, (String.length (uci move) <= 10)%nat) ->
    analyze_game_fully game username engine = Ok l ->
    m ∈ l ->
    values_in_range m
    /\ fits_mistakes_table m
    /\ 50 ≤ cpl m
    /\ mistake_type m = get_mistake_type (cpl m)
    /\ player_color m =
       (if bool_decide (lower (headers_White game) = lower username)
        then "white" else "black").
Proof.
  intros game username engine l m Huci Hrun Hm.
  set (P := fun (uc : Color) (_ : Move) (m : mistake_data) =>
              values_in_range m /\ player_color m = COLOR_NAMES uc
              /\ 50 ≤ cpl m /\ mistake_type m = get_mistake_type (cpl m)
              /\ (String.length (move_made m) <= 10)%nat
              /\ (String.length (best_move m) <= 10)%nat).
  assert (HP : forall uc es b move m b' es',
             turn b = uc -> is_game_over b = false ->
             analyze_ply es b move uc = Ok (Some m, b', es') -> P uc move m).
  { intros uc es b move m0 b' es' _ _ Hply.
    apply analyze_ply_from_record_ply in Hply as (c & best & analysis & Hrec).
    apply record_ply_values in Hrec
      as (Hv & Hcol & Hc & Ht & H50 & Hmade & Hbest).
    unfold P. subst c. rewrite Hmade, Hbest. auto 10. }
  assert (Hgoal : forall uc,
             analyze_moves (mainline_moves game) engine (game_board game) uc []
             = Ok l -> P uc (mkMove 0 0 None) m).
  { intros uc Hl.
    destruct (MatchesFacts.analyze_moves_records uc (P uc) (HP uc) _ _ _ _ _ Hl m Hm)
      as [Hnil|(mv & _ & Hmv)]; [|exact Hmv].
    apply elem_of_nil in Hnil. contradiction. }
  unfold analyze_game_fully in Hrun.
  assert (Hfit : forall uc, P uc (mkMove 0 0 None) m -> fits_mistakes_table m).
  { intros uc (Hv & Hcol & _ & _ & Hmade & Hbest).
    apply values_fit; [exact Hv| |exact Hmade|exact Hbest].
    rewrite Hcol. destruct uc; in_literals. }
  case_bool_decide.
  - pose proof (Hgoal WHITE Hrun) as HW. pose proof (Hfit _ HW).
    destruct HW as (? & ? & ? & ? & _). auto.
  - case_bool_decide.
    + pose proof (Hgoal BLACK Hrun) as HB. pose proof (Hfit _ HB).
      destruct HB as (? & ? & ? & ? & _). auto.
    + injection Hrun as <-. apply elem_of_nil in Hm. contradiction.
Qed.

Lemma analyze_moves_length (moves : list Move) es b uc acc l :
  analyze_moves moves es b uc acc = Ok l ->
  (length acc <= length l <= length acc + length moves)%nat.
Proof.
  revert es b acc. induction moves as [|move rest IH]; intros es b acc; simpl.
  - intros [= <-]. lia.
  - destruct (Bool.eqb (turn b) uc).
    + destruct (is_game_over b).
      * intros H. apply IH in H. lia.
      * destruct (analyze_ply es b move uc) as [[[om b'] es']|e]; res_simpl;
          [|discriminate].
        intros H. apply IH in H. destruct om; rewrite ?length_app in H;
          simpl in H; lia.
    + intros H. apply IH in H. lia.
Qed.

(** X3. A game gives at most one record per ply of its main line. *)
Theorem records_at_most_one_per_ply :
  forall (game : Game) (username : string) (engine : EngineState)
         (l : list mistake_data),
    analyze_game_fully game username engine = Ok l ->
    (length l <= length (mainline_moves game))%nat.
Proof.
  intros game username engine l. unfold analyze_game_fully.
  repeat case_bool_decide.
  - intros Hl. apply analyze_moves_length in Hl. simpl in Hl. lia.
  - intros Hl. apply analyze_moves_length in Hl. simpl in Hl. lia.
  - intros [= <-]. simpl. lia.
Qed.

(** X4. When the move played starts one of the variations the engine
    returned, its score is read there and the engine is not asked again
    (its state is the one the first call left); when it starts the first
    variation the loss is zero and the ply makes no record and leaves the
    board alone. *)
Theorem variation_played_needs_no_second_analysis :
  forall (es es1 : EngineState) (b : Board) (move : Move) (user_color : Color)
         (best_line line : InfoDict) (others : list InfoDict)
         (best_move : Move) (pv : list Move) (best played : PovScore),
    analyse_multipv es b 2 = (Ok (best_line :: others), es1) ->
    info_pv best_line = Some (best_move :: pv) ->
    info_score best_line = Some best ->
    List.find (pv_starts_with move) (best_line :: others) = Some line ->
    info_score line = Some played ->
    evaluate_ply es b move
    = Ok (Some (Z.max 0 (relative_score best - relative_score played),
                best_move, best_line :: others), es1)
    /\ (best_move = move -> analyze_ply es b move user_color = Ok (None, b, es1)).
Proof.
  intros es es1 b move uc best_line line others best_move pv best played
         Han Hpv Hbest Hfind Hplayed.
  assert (Hscore : find_user_move_score (best_line :: others) move
                   = Ok (Some (relative_score played))).
  { clear Han Hpv Hbest. revert Hfind.
    generalize (best_line :: others) as lines.
    induction lines as [|i rest IH]; cbn [List.find find_user_move_score].
    - discriminate.
    - destruct (pv_starts_with move i).
      + intros [= ->]. unfold get_score. rewrite Hplayed. reflexivity.
      + exact IH. }
  assert (Heval : evaluate_ply es b move
                  = Ok (Some (Z.max 0 (relative_score best - relative_score played),
                              best_move, best_line :: others), es1)).
  { unfold evaluate_ply. rewrite Han, Hpv, Hscore. unfold get_score.
    rewrite Hbest. reflexivity. }
  split; [exact Heval|].
  intros ->. unfold analyze_ply. rewrite Heval. res_simpl.
  assert (line = best_line) as ->.
  { cbn [List.find] in Hfind. unfold pv_starts_with at 1 in Hfind.
    rewrite Hpv in Hfind. rewrite bool_decide_eq_true_2 in Hfind by reflexivity.
    congruence. }
  assert (played = best) as -> by congruence.
  unfold record_ply. rewrite Z.sub_diag. reflexivity.
Qed.

(** An unusable answer of the first analysis (the call raised, no
    variation, no principal variation) is not an error: the ply makes no
    record and the loop goes on. *)
Lemma analyze_ply_unusable es es1 b move uc (r : res (list InfoDict)) :
  analyse_multipv es b 2 = (r, es1) -> unusable r ->
  analyze_ply es b move uc = Ok (None, b, es1).
Proof.
  intros Han Hr. unfold analyze_ply, evaluate_ply. rewrite Han.
  destruct r as [[|i rest]|e]; simpl in Hr; try reflexivity.
  destruct Hr as [-> | ->]; reflexivity.
Qed.

Lemma analyze_moves_unusable (moves : list Move) es b uc acc :
  (forall es b, unusable (fst (analyse_multipv es b 2))) ->
  analyze_moves moves es b uc acc = Ok acc.
Proof.
  intros Hdead. revert es b.
  induction moves as [|move rest IH]; intros es b; simpl; [reflexivity|].
  destruct (Bool.eqb (turn b) uc); [|apply IH].
  destruct (is_game_over b); [apply IH|].
  destruct (analyse_multipv es b 2) as [r es1] eqn:Han.
  rewrite (analyze_ply_unusable es es1 b move uc r Han).
  - res_simpl. apply IH.
  - specialize (Hdead es b). rewrite Han in Hdead. exact Hdead.
Qed.

(** X5. With an engine whose first analysis is never usable, every game is
    analysed without error and gives no record. *)
Theorem unusable_engine_gives_no_records :
  forall (game : Game) (username : string) (engine : EngineState),
    (forall es b, unusable (fst (analyse_multipv es b 2))) ->
    analyze_game_fully game username engine = Ok [].
Proof.
  intros game username engine Hdead. unfold analyze_game_fully.
  repeat case_bool_decide; try reflexivity; apply analyze_moves_unusable, Hdead.
Qed.

(** X6. The second analysis is not guarded: when the move played starts none
    of the variations and the analysis of the resulting position raises,
    the exception leaves [analyze_moves] and the records made so far are
    lost. *)
Theorem reevaluation_error_aborts_the_game :
  forall (es es1 es2 : EngineState) (b : Board) (move : Move) (rest : list Move)
         (user_color : Color) (acc : list mistake_data)
         (best_line : InfoDict) (others : list InfoDict)
         (best_move : Move) (pv : list Move) (best : PovScore) (e : exn),
    turn b = user_color ->
    is_game_over b = false ->
    analyse_multipv es b 2 = (Ok (best_line :: others), es1) ->
    info_pv best_line = Some (best_move :: pv) ->
    info_score best_line = Some best ->
    List.find (pv_starts_with move) (best_line :: others) = None ->
    analyse es1 (push b move) = (Raise e, es2) ->
    analyze_moves (move :: rest) es b user_color acc = Raise e.
Proof.
  intros es es1 es2 b move rest uc acc best_line others best_move pv best e
         Hturn Hover Han Hpv Hbest Hfind Hre.
  assert (Hscore : find_user_move_score (best_line :: others) move = Ok None).
  { clear Han Hpv Hbest. revert Hfind.
    generalize (best_line :: others) as lines.
    induction lines as [|i lines IH]; cbn [List.find find_user_move_score];
      [reflexivity|].
    destruct (pv_starts_with move i); [discriminate|exact IH]. }
  cbn [analyze_moves]. rewrite Hturn, Bool.eqb_reflx, Hover.
  unfold analyze_ply, evaluate_ply. rewrite Han, Hpv, Hscore.
  unfold get_score. rewrite Hbest.
  unfold reevaluate. rewrite Hre. reflexivity.
Qed.

End Games.

(** The example game: one record, for two plies. *)
Lemma records_are_well_formed_witness :
  exists l m,
    analyze_game_fully (ops := example_ops) (eng := scripted_engine) (txt := ascii_text)
                       example_game "alice" example_script = Ok l
    /\ m ∈ l
    /\ values_in_range m
    /\ fits_mistakes_table m
    /\ 50 ≤ cpl m
    /\ mistake_type m = get_mistake_type (cpl m)
    /\ player_color m = "white".
Proof.
  eexists _, _.
  split; [vm_compute; reflexivity|].
  split; [apply list_elem_of_here|].
  eapply (records_are_well_formed (ops := example_ops) (eng := scripted_engine)
            (txt := ascii_text) example_game "alice" example_script).
  - intros move. cbn. lia.
  - vm_compute; reflexivity.
  - apply list_elem_of_here.
Defined.

Lemma records_at_most_one_per_ply_witness :
  exists l,
    analyze_game_fully (ops := example_ops) (eng := scripted_engine) (txt := ascii_text)
                       example_game "alice" example_script = Ok l
    /\ length l = 1%nat
    /\ (length l <= length (mainline_moves example_game))%nat.
Proof.
  eexists.
  split; [vm_compute; reflexivity|].
  split; [reflexivity|].
  eapply (records_at_most_one_per_ply (ops := example_ops)
            (eng := scripted_engine) (txt := ascii_text) example_game "alice" example_script).
  vm_compute; reflexivity.
Defined.

(** On [example_board] the engine's first choice is Ke1-f1; the second
    is Ke1-d2, 30 centipawns worse. *)
Lemma variation_played_needs_no_second_analysis_witness :
  evaluate_ply (ops := example_ops) (eng := scripted_engine)
               example_script example_board (mkMove E1 D2 None)
  = Ok (Some (30, mkMove E1 F1 None, hd [] example_script), tail example_script)
  /\ analyze_ply (ops := example_ops) (eng := scripted_engine)
                 example_script example_board (mkMove E1 F1 None) WHITE
     = Ok (None, example_board, tail example_script).
Proof.
  split.
  - exact (proj1 (variation_played_needs_no_second_analysis
                    (ops := example_ops) (eng := scripted_engine)
                    example_script (tail example_script) example_board
                    (mkMove E1 D2 None) WHITE
                    (mkInfo (Some [mkMove E1 F1 None]) (Some (mkPovScore (Cp 0) WHITE)))
                    (mkInfo (Some [mkMove E1 D2 None])
                            (Some (mkPovScore (Cp (-30)) WHITE)))
                    _ (mkMove E1 F1 None) [] _ _
                    eq_refl eq_refl eq_refl eq_refl eq_refl)).
  - exact (proj2 (variation_played_needs_no_second_analysis
                    (ops := example_ops) (eng := scripted_engine)
                    example_script (tail example_script) example_board
                    (mkMove E1 F1 None) WHITE
                    (mkInfo (Some [mkMove E1 F1 None]) (Some (mkPovScore (Cp 0) WHITE)))
                    (mkInfo (Some [mkMove E1 F1 None]) (Some (mkPovScore (Cp 0) WHITE)))
                    _ (mkMove E1 F1 None) [] _ _
                    eq_refl eq_refl eq_refl eq_refl eq_refl) eq_refl).
Defined.

Lemma unusable_engine_gives_no_records_witness :
  (forall es b, unusable (fst (analyse_multipv (Engine := dead_engine) es b 2)))
  /\ analyze_game_fully (ops := example_ops) (eng := dead_engine) (txt := ascii_text)
                        example_game "alice" tt = Ok [].
Proof.
  assert (H : forall es b,
             unusable (fst (analyse_multipv (Engine := dead_engine) es b 2))).
  { intros es b. exact I. }
  split; [exact H|].
  exact (unusable_engine_gives_no_records (ops := example_ops)
           (eng := dead_engine) (txt := ascii_text) example_game "alice" tt H).
Defined.

(** The script answers the first analysis and has nothing left for the
    second. *)
Lemma reevaluation_error_aborts_the_game_witness :
  analyze_moves (ops := example_ops) (eng := scripted_engine)
                (mainline_moves example_game) [hd [] example_script]
                example_board WHITE []
  = Raise EngineError.
Proof.
  eapply (reevaluation_error_aborts_the_game
            (ops := example_ops) (eng := scripted_engine)
            [hd [] example_script] [] [] example_board (mkMove D1 E2 None)
            [mkMove E8 E2 None] WHITE []
            (mkInfo (Some [mkMove E1 F1 None]) (Some (mkPovScore (Cp 0) WHITE)))
            _ (mkMove E1 F1 None) [] _ EngineError);
    reflexivity.
Defined.

(** ** The user name *)

Lemma ascii_lower_idempotent (c : ascii) : ascii_lower (ascii_lower c) = ascii_lower c.
Proof. destruct c as [[] [] [] [] [] [] [] []]; vm_compute; reflexivity. Qed.

Lemma lower_ascii_idempotent (s0 : string) :
  lower_ascii (lower_ascii s0) = lower_ascii s0.
Proof.
  induction s0 as [|c r IH]; simpl; [reflexivity|].
  rewrite ascii_lower_idempotent, IH. reflexivity.
Qed.

Lemma ascii_lower_below_128 (c : ascii) :
  (nat_of_ascii c < 128)%nat -> (nat_of_ascii (ascii_lower c) < 128)%nat.
Proof.
  destruct c as [[] [] [] [] [] [] [] []]; vm_compute; intros H; lia.
Qed.

Lemma lower_ascii_only_ascii (s0 : string) :
  only_ascii s0 -> only_ascii (lower_ascii s0).
Proof.
  unfold only_ascii. induction s0 as [|c r IH]; intros H; [constructor|].
  cbn [lower_ascii list_ascii_of_string] in *.
  apply Forall_cons in H as [Hc Hr].
  constructor; [apply ascii_lower_below_128, Hc|apply IH, Hr].
Qed.

Section UserName.
Context {ops : BoardOps} {eng : Engine} {txt : Text}.

(** X8. The user is found in the headers whatever the case of the letters.
    [str.lower()] turns the letters A to Z of an ASCII string into a to
    z and leaves its other characters; given this, two ASCII user names
    that differ only in the case of letters give the same result, as
    does the lower-case form of the name.  A user whose lower-case name
    is neither the lower-case White header nor the Black one gives no
    record. *)
Theorem username_is_matched_ignoring_case :
  forall (game : Game) (username username' : string) (engine : EngineState),
    (forall s0, only_ascii s0 -> lower s0 = lower_ascii s0) ->
    only_ascii username -> only_ascii username' ->
    lower_ascii username = lower_ascii username' ->
    analyze_game_fully game username engine
    = analyze_game_fully game username' engine
    /\ analyze_game_fully game (lower_ascii username) engine
       = analyze_game_fully game username engine
    /\ (lower (headers_White game) <> lower username ->
        lower (headers_Black game) <> lower username ->
        analyze_game_fully game username' engine = Ok []).
Proof.
  intros game u u' engine Hlower Hu Hu' Heq.
  assert (Hsame : lower u' = lower u)
    by (rewrite !Hlower by assumption; congruence).
  assert (Hfold : lower (lower_ascii u) = lower u).
  { rewrite (Hlower u Hu), (Hlower _ (lower_ascii_only_ascii u Hu)).
    apply lower_ascii_idempotent. }
  unfold analyze_game_fully. rewrite Hsame, Hfold.
  split; [reflexivity|]. split; [reflexivity|].
  intros HW HB.
  rewrite !bool_decide_eq_false_2 by assumption. reflexivity.
Qed.

End UserName.

Lemma username_is_matched_ignoring_case_witness :
  lower_ascii "ALICE" = lower_ascii "Alice"
  /\ analyze_game_fully (ops := example_ops) (eng := scripted_engine)
                        (txt := ascii_text) example_game "ALICE" example_script
     = analyze_game_fully (ops := example_ops) (eng := scripted_engine)
                          (txt := ascii_text) example_game "Alice" example_script
  /\ analyze_game_fully (ops := example_ops) (eng := scripted_engine)
                        (txt := ascii_text) example_game "carol" example_script
     = Ok [].
Proof.
  assert (Hascii : forall s0, only_ascii s0 ->
                              lower (Text := ascii_text) s0 = lower_ascii s0)
    by reflexivity.
  assert (Honly : forall s0,
             forallb (fun c => (nat_of_ascii c <? 128)%nat)
                     (list_ascii_of_string s0) = true -> only_ascii s0).
  { intros s0 H. apply Forall_forall. intros c Hc.
    rewrite forallb_forall in H. apply Nat.ltb_lt, H, list_elem_of_In, Hc. }
  split; [reflexivity|].
  split.
  - exact (proj1 (username_is_matched_ignoring_case
                    (ops := example_ops) (eng := scripted_engine)
                    (txt := ascii_text)
                    example_game "ALICE" "Alice" example_script Hascii
                    (Honly "ALICE" eq_refl) (Honly "Alice" eq_refl) eq_refl)).
  - apply (proj2 (proj2 (username_is_matched_ignoring_case
                           (ops := example_ops) (eng := scripted_engine)
                           (txt := ascii_text)
                           example_game "carol" "carol" example_script Hascii
                           (Honly "carol" eq_refl) (Honly "carol" eq_refl)
                           eq_refl)));
      vm_compute; discriminate.
Defined.

(** ** Board features *)

(** X9. Seen from the other side, the material balance is mirrored: Winning
    for one colour is Losing for the other, and Equal is Equal. *)
Theorem get_material_balance_mirrored :
  forall (b : Board) (c : Color),
    (get_material_balance b c = "Winning"
     <-> get_material_balance b (negb c) = "Losing")
    /\ (get_material_balance b c = "Losing"
        <-> get_material_balance b (negb c) = "Winning")
    /\ (get_material_balance b c = "Equal"
        <-> get_material_balance b (negb c) = "Equal").
Proof.
  intros b c. unfold get_material_balance. cbv zeta.
  rewrite negb_involutive.
  match goal with
  | |- context [fold_left ?f PIECE_VALUES_keys 0 - fold_left ?g PIECE_VALUES_keys 0] =>
      generalize (fold_left f PIECE_VALUES_keys 0) as u;
      generalize (fold_left g PIECE_VALUES_keys 0) as o
  end.
  intros o u. rewrite !Z.gtb_ltb.
  destruct (Z.ltb_spec 3 (2 * (u - o))), (Z.ltb_spec (2 * (u - o)) (-3)),
    (Z.ltb_spec 3 (2 * (o - u))), (Z.ltb_spec (2 * (o - u)) (-3));
    try lia; repeat split; intros; congruence.
Qed.

(** X10. The phase and the complexity of a position go together: an Opening
    is of High complexity, Low complexity is an Endgame, and an Endgame
    is never of High complexity. *)
Theorem phase_and_complexity_agree :
  forall (b : Board),
    (get_game_phase b = "Opening" -> get_board_complexity b = "High")
    /\ (get_board_complexity b = "Low" -> get_game_phase b = "Endgame")
    /\ (get_game_phase b = "Endgame" -> get_board_complexity b <> "High").
Proof.
  intros b. unfold get_game_phase, get_board_complexity. cbv zeta.
  generalize (Z.of_nat (length (piece_map b))) as n. intros n.
  rewrite !Z.gtb_ltb.
  destruct (Z.ltb_spec (fullmove_number b) 12), (Z.ltb_spec 28 n),
    (Z.ltb_spec n 14), (Z.ltb_spec 26 n), (Z.ltb_spec n 10);
    cbn [andb]; try lia; repeat split; intros; congruence.
Qed.

(** [example_board] has five pieces. *)
Lemma phase_and_complexity_agree_witness :
  get_board_complexity example_board = "Low"
  /\ get_game_phase example_board = "Endgame"
  /\ get_board_complexity example_board <> "High".
Proof.
  assert (Hlow : get_board_complexity example_board = "Low")
    by (vm_compute; reflexivity).
  pose proof (phase_and_complexity_agree example_board) as (_ & Hend & Hnot).
  split; [exact Hlow|]. split; [exact (Hend Hlow)|exact (Hnot (Hend Hlow))].
Defined.

Lemma get_material_balance_mirrored_witness :
  get_material_balance example_board WHITE = "Winning"
  /\ get_material_balance example_board BLACK = "Losing".
Proof.
  assert (Hw : get_material_balance example_board WHITE = "Winning")
    by (vm_compute; reflexivity).
  split; [exact Hw|].
  exact (proj1 (proj1 (get_material_balance_mirrored example_board WHITE)) Hw).
Defined.

(** ** Hanging pieces *)

Lemma PIECE_VALUES_ge_1 (pt : PieceType) : 1 ≤ PIECE_VALUES pt.
Proof. destruct pt; simpl; lia. Qed.

Lemma lowest_attacker_value_ge_1 (b : Board) (l : list nat) :
  1 ≤ lowest_attacker_value b l.
Proof.
  unfold lowest_attacker_value.
  assert (H : forall acc, 1 ≤ acc ->
            1 ≤ fold_left (fun lowest attacker_square =>
                             match piece_at b attacker_square with
                             | Some attacker_piece =>
                                 Z.min lowest (PIECE_VALUES (piece_type attacker_piece))
                             | None => lowest
                             end) l acc).
  { induction l as [|a l IH]; intros acc Hacc; simpl; [exact Hacc|].
    apply IH. destruct (piece_at b a) as [q|]; [|exact Hacc].
    pose proof (PIECE_VALUES_ge_1 (piece_type q)). lia. }
  apply H. lia.
Qed.

(** X11. What [is_move_a_hang] never reports: a move from an empty square, a
    move to a square no opposing piece attacks, and a pawn move to a
    square that a piece of the mover attacks. *)
Theorem is_move_a_hang_never :
  forall (b : Board) (move : Move),
    (piece_at b (from_square move) = None -> is_move_a_hang b move = false)
    /\ (attackers b (negb (turn b)) (to_square move) = [] ->
        is_move_a_hang b move = false)
    /\ (forall p,
           piece_at b (from_square move) = Some p ->
           piece_type p = PAWN ->
           attackers b (turn b) (to_square move) <> [] ->
           is_move_a_hang b move = false).
Proof.
  intros b move. unfold is_move_a_hang. split; [|split].
  - intros ->. reflexivity.
  - intros ->. destruct (piece_at b (from_square move)); reflexivity.
  - intros p -> Hpawn Hdef.
    destruct (attackers b (negb (turn b)) (to_square move)) as [|a l] eqn:Ha;
      [reflexivity|].
    destruct (attackers b (turn b) (to_square move)); [contradiction|].
    rewrite Hpawn. cbn [PIECE_VALUES].
    pose proof (lowest_attacker_value_ge_1 b (a :: l)).
    rewrite Z.gtb_ltb.
    destruct (Z.ltb_spec (lowest_attacker_value b (a :: l)) 1); [lia|reflexivity].
Qed.

(** The white king of [example_board] steps to f1, which Black does not
    attack; on [pawn_board] the pawn goes to h5, attacked by the queen
    and covered by the king. *)
Lemma is_move_a_hang_never_witness :
  attackers example_board (negb (turn example_board)) F1 = []
  /\ is_move_a_hang example_board (mkMove E1 F1 None) = false
  /\ piece_at pawn_board H6 = Some (mkPiece PAWN BLACK)
  /\ attackers pawn_board (negb (turn pawn_board)) H5 = [D1]
  /\ attackers pawn_board (turn pawn_board) H5 <> []
  /\ is_move_a_hang pawn_board (mkMove H6 H5 None) = false.
Proof.
  assert (Ha : attackers example_board (negb (turn example_board)) F1 = [])
    by (vm_compute; reflexivity).
  assert (Hd : attackers pawn_board (turn pawn_board) H5 <> [])
    by (vm_compute; discriminate).
  split; [exact Ha|].
  split; [exact (proj1 (proj2 (is_move_a_hang_never example_board
                                 (mkMove E1 F1 None))) Ha)|].
  split; [reflexivity|]. split; [vm_compute; reflexivity|]. split; [exact Hd|].
  exact (proj2 (proj2 (is_move_a_hang_never pawn_board (mkMove H6 H5 None)))
               (mkPiece PAWN BLACK) eq_refl eq_refl Hd).
Defined.

(** ** King safety in a corner *)

Lemma king_square_holds_king (b : Board) (c : Color) (k : nat) :
  king b c = Some k -> piece_at b k = Some (mkPiece KING c).
Proof.
  unfold king. intros Hlast.
  assert (Hin : In k (List.filter
                        (fun s => bool_decide (piece_at b s = Some (mkPiece KING c))
                                  && negb (bool_decide (s ∈ promoted b))) SQUARES)).
  { apply list_elem_of_In. eapply last_Some_elem_of, Hlast. }
  apply filter_In in Hin as [_ Hk].
  apply andb_prop in Hk as [Hk _]. apply bool_decide_eq_true in Hk. exact Hk.
Qed.

Lemma filter_length_le {A : Type} (f : A -> bool) (l : list A) :
  (length (List.filter f l) <= length l)%nat.
Proof.
  induction l as [|x l IH]; simpl; [lia|]. destruct (f x); simpl; lia.
Qed.

(** X12. A king standing in a corner has three neighbouring squares, so it is
    never reported Exposed. *)
Theorem corner_king_is_never_exposed :
  forall (b : Board) (c : Color) (k : nat),
    king b c = Some k -> k ∈ CORNERS ->
    get_king_safety b c <> "Exposed".
Proof.
  intros b c k Hk Hcorner. rewrite MatchesFacts.get_king_safety_cases.
  destruct (is_check b); [discriminate|].
  unfold attacked_king_neighbours. rewrite Hk.
  assert (Hlen : (length (attacks b k) <= 3)%nat).
  { unfold attacks. rewrite (king_square_holds_king b c k Hk).
    unfold CORNERS in Hcorner.
    do 4 (apply elem_of_cons in Hcorner as [->|Hcorner]; [vm_compute; lia|]).
    apply elem_of_nil in Hcorner. contradiction. }
  pose proof (filter_length_le (is_attacked_by b (negb c)) (attacks b k)).
  rewrite bool_decide_eq_false_2 by lia. discriminate.
Qed.

Lemma corner_king_is_never_exposed_witness :
  king example_board BLACK = Some A8
  /\ A8 ∈ CORNERS
  /\ get_king_safety example_board BLACK <> "Exposed".
Proof.
  assert (Hk : king example_board BLACK = Some A8) by (vm_compute; reflexivity).
  assert (Hc : A8 ∈ CORNERS) by (unfold A8, CORNERS; in_literals).
  split; [exact Hk|]. split; [exact Hc|].
  exact (corner_king_is_never_exposed example_board BLACK A8 Hk Hc).
Defined.

(** ** Castling status *)

Section Castling.
Context {ops : BoardOps}.

(** X13. Can_Castle is reported exactly when the colour still has castling
    rights; Has_Castled only without rights and with the king on g1 or c1
    (g8 or c8 for Black); Cannot_Castle only without rights. *)
Theorem get_castling_status_cases :
  forall (b : Board) (c : Color),
    (get_castling_status b c = "Can_Castle" <-> has_castling_rights b c = true)
    /\ (get_castling_status b c = "Has_Castled" ->
        has_castling_rights b c = false
        /\ exists k, king b c = Some k /\ k ∈ (if c then [G1; C1] else [G8; C8]))
    /\ (get_castling_status b c = "Cannot_Castle" ->
        has_castling_rights b c = false).
Proof.
  intros b c. unfold get_castling_status. cbv zeta.
  destruct (has_castling_rights b c); cbn [negb].
  - rewrite andb_false_r. repeat split; intros; congruence.
  - rewrite andb_true_r.
    destruct (king b c) as [k|]; [|repeat split; intros; congruence].
    case_bool_decide as Hin; repeat split; intros; try congruence; eauto.
Qed.

End Castling.

Lemma get_castling_status_cases_witness :
  get_castling_status (ops := example_ops) example_board WHITE = "Cannot_Castle"
  /\ has_castling_rights (BoardOps := example_ops) example_board WHITE = false.
Proof.
  assert (H : get_castling_status (ops := example_ops) example_board WHITE
              = "Cannot_Castle") by (vm_compute; reflexivity).
  split; [exact H|].
  exact (proj2 (proj2 (get_castling_status_cases (ops := example_ops)
                         example_board WHITE)) H).
Defined.

(** ** Defending pieces *)

Lemma filter_all_false {A : Type} (f : A -> bool) (l : list A) :
  (forall x, In x l -> f x = false) -> List.filter f l = [].
Proof.
  induction l as [|x l IH]; intros H; simpl; [reflexivity|].
  rewrite (H x) by (left; reflexivity).
  apply IH. intros y Hy. apply H. right. exact Hy.
Qed.

(** X14. [is_piece_defending] looks at the other pieces of the same type and
    of the colour given: on an empty square, or when no other square
    holds such a piece, the answer is False. *)
Theorem is_piece_defending_needs_a_twin :
  forall (b : Board) (sq : nat) (c : Color),
    (piece_at b sq = None -> fst (is_piece_defending b sq c) = false)
    /\ (forall p,
           piece_at b sq = Some p ->
           (forall s, s <> sq -> piece_at b s <> Some (mkPiece (piece_type p) c)) ->
           fst (is_piece_defending b sq c) = false).
Proof.
  intros b sq c. unfold is_piece_defending. split.
  - intros ->. reflexivity.
  - intros p Hp Honly. rewrite Hp.
    rewrite (MatchesFacts.remove_piece_at_board b sq p Hp). cbn [fst snd].
    match goal with
    | |- existsb _ (pieces ?b1 ?pt ?c0) = false =>
        assert (Hnone : pieces b1 pt c0 = [])
    end.
    { unfold pieces. apply filter_all_false. intros s _.
      apply bool_decide_eq_false_2. unfold piece_at. cbn [placement].
      destruct (decide (s = sq)) as [->|Hne].
      - rewrite lookup_delete_eq. discriminate.
      - rewrite lookup_delete_ne by congruence. apply (Honly s Hne). }
    rewrite Hnone. reflexivity.
Qed.

(** The white king of [example_board] is White's only king. *)
Lemma is_piece_defending_needs_a_twin_witness :
  piece_at example_board E1 = Some (mkPiece KING WHITE)
  /\ fst (is_piece_defending example_board E1 WHITE) = false.
Proof.
  split; [reflexivity|].
  apply (proj2 (is_piece_defending_needs_a_twin example_board E1 WHITE)
               (mkPiece KING WHITE) eq_refl).
  intros s Hne Hs. unfold piece_at in Hs.
  apply elem_of_map_to_list in Hs.
  set (l := map_to_list (placement example_board)) in Hs.
  vm_compute in l. subst l.
  repeat (apply elem_of_cons in Hs as [Heq|Hs];
          [inversion Heq; subst; contradiction Hne; reflexivity|]).
  apply elem_of_nil in Hs. exact Hs.
Defined.

(** ** When the analysis of a game succeeds *)

Section Scored.
Context {ops : BoardOps} {eng : Engine} {txt : Text}.

Lemma get_score_scored (i : InfoDict) :
  info_score i <> None -> exists s, get_score i = Ok s.
Proof.
  unfold get_score. destruct (info_score i) as [s|]; [eauto|contradiction].
Qed.

Lemma find_user_move_score_scored (analysis : list InfoDict) (move : Move) :
  Forall (fun i => info_score i <> None) analysis ->
  exists found, find_user_move_score analysis move = Ok found.
Proof.
  induction 1 as [|i rest Hi _ IH]; cbn [find_user_move_score]; [eauto|].
  destruct (pv_starts_with move i); [|exact IH].
  destruct (get_score_scored i Hi) as [s ->]. res_simpl. eauto.
Qed.

Lemma get_mistake_category_scored (b : Board) (move : Move)
      (analysis : list InfoDict) :
  Forall (fun i => info_score i <> None) analysis ->
  exists category, get_mistake_category b move analysis = Ok category.
Proof.
  intros Hall. unfold get_mistake_category.
  destruct analysis as [|i0 [|i1 rest]]; [eauto|eauto|].
  apply Forall_cons in Hall as [H0 Hall]. apply Forall_cons in Hall as [H1 _].
  destruct (get_score_scored i0 H0) as [s0 ->].
  destruct (get_score_scored i1 H1) as [s1 ->]. res_simpl.
  destruct (_ >? _); eauto.
Qed.

Lemma record_ply_scored (b : Board) (move : Move) (user_color : Color)
      (c : Z) (best_move : Move) (analysis : list InfoDict) :
  Forall (fun i => info_score i <> None) analysis ->
  exists r, record_ply b move user_color c best_move analysis = Ok r.
Proof.
  intros Hall. unfold record_ply.
  case_bool_decide; [|eauto].
  destruct (get_mistake_category_scored b move analysis Hall) as [category ->].
  unfold mbind, res_bind.
  destruct (is_piece_defending b (from_square move) user_color). eauto.
Qed.

Lemma analyze_ply_scored (es : EngineState) (b : Board) (move : Move)
      (user_color : Color) :
  (forall es b, match fst (analyse es b) with
                | Ok info => info_score info <> None
                | Raise _ => False
                end) ->
  (forall es b, match fst (analyse_multipv es b 2) with
                | Ok analysis => Forall (fun i => info_score i <> None) analysis
                | Raise _ => True
                end) ->
  exists r, analyze_ply es b move user_color = Ok r.
Proof.
  intros Hsecond Hfirst. unfold analyze_ply, evaluate_ply.
  specialize (Hfirst es b).
  destruct (analyse_multipv es b 2) as [[analysis|e] es1]; cbn [fst] in Hfirst;
    [|unfold mbind, res_bind; eauto].
  destruct analysis as [|best_move_info others]; [unfold mbind, res_bind; eauto|].
  destruct (info_pv best_move_info) as [[|best_move pv]|];
    try (unfold mbind, res_bind; eauto; fail).
  pose proof Hfirst as Hall. apply Forall_cons in Hfirst as [Hbest _].
  destruct (get_score_scored best_move_info Hbest) as [best ->].
  destruct (find_user_move_score_scored (best_move_info :: others) move Hall)
    as [found ->].
  unfold mbind, res_bind.
  destruct found as [s|].
  - destruct (record_ply_scored b move user_color
                (Z.max 0 (relative_score best - s)) best_move
                (best_move_info :: others) Hall) as [[m b'] ->]. eauto.
  - unfold reevaluate. specialize (Hsecond es1 (push b move)).
    destruct (analyse es1 (push b move)) as [[user_analysis|e] es2];
      cbn [fst] in Hsecond; [|contradiction].
    unfold mbind, res_bind.
    destruct (get_score_scored user_analysis Hsecond) as [s ->].
    unfold mbind, res_bind.
    match goal with |- context [record_ply b move user_color ?c best_move ?a] =>
      destruct (record_ply_scored b move user_color c best_move a Hall)
        as [[m b'] ->] end.
    eauto.
Qed.

(** X7. [analyze_game_fully] returns its list, for every game and user,
    when the engine answers with scores: every variation of a first
    analysis that answers has a score, and the analysis of the position
    after the move played answers with a score.  (A first analysis that
    raises is tolerated.) *)
Theorem analysis_succeeds_when_scores_are_there :
  forall (game : Game) (username : string) (engine : EngineState),
    (forall es b, match fst (analyse es b) with
                  | Ok info => info_score info <> None
                  | Raise _ => False
                  end) ->
    (forall es b, match fst (analyse_multipv es b 2) with
                  | Ok analysis => Forall (fun i => info_score i <> None) analysis
                  | Raise _ => True
                  end) ->
    exists mistakes_list, analyze_game_fully game username engine = Ok mistakes_list.
Proof.
  intros game username engine Hsecond Hfirst.
  assert (Hmoves : forall moves es b user_color acc,
             exists l, analyze_moves moves es b user_color acc = Ok l).
  { induction moves as [|move rest IH]; intros es b user_color acc;
      cbn [analyze_moves]; [eauto|].
    destruct (Bool.eqb (turn b) user_color); [|apply IH].
    destruct (is_game_over b); [apply IH|].
    destruct (analyze_ply_scored es b move user_color Hsecond Hfirst)
      as [[[m b'] es'] ->].
    unfold mbind, res_bind. apply IH. }
  unfold analyze_game_fully. repeat case_bool_decide; eauto.
Qed.

End Scored.

Lemma analysis_succeeds_when_scores_are_there_witness :
  analyze_game_fully (ops := example_ops) (eng := steady_engine) (txt := ascii_text)
                     example_game "Alice" tt <> Ok []
  /\ exists mistakes_list,
       analyze_game_fully (ops := example_ops) (eng := steady_engine) (txt := ascii_text)
                          example_game "Alice" tt = Ok mistakes_list.
Proof.
  split; [vm_compute; discriminate|].
  apply (analysis_succeeds_when_scores_are_there
           (ops := example_ops) (eng := steady_engine) (txt := ascii_text)).
  - intros es b. cbn. discriminate.
  - intros es b. cbn. repeat constructor; discriminate.
Defined.

End MatchesProperties.

(* ===================================================================== *)
(** * More facts about backend/analysis.py                               *)
(* ===================================================================== *)

Module AnalysisProperties.
Import Py Analysis AnalysisValues.

Local Open Scope string_scope.
Local Open Scope list_scope.
Local Open Scope Z_scope.

(** ** One label for every row *)

Lemma unique_Forall (P : Z -> Prop) (l : list Z) :
  Forall P l -> Forall P (unique l).
Proof.
  induction l as [|x l IH]; intros H; simpl; [constructor|].
  apply Forall_cons in H as [Hx Hl]. constructor; [exact Hx|].
  apply Forall_forall. intros y Hy.
  apply list_elem_of_In, filter_In in Hy as [Hy _].
  specialize (IH Hl). rewrite Forall_forall in IH.
  apply IH, list_elem_of_In, Hy.
Qed.

Lemma filter_Forall_false {A : Type} (f : A -> bool) (l : list A) :
  Forall (fun x => f x = false) l -> List.filter f l = [].
Proof.
  induction 1 as [|x l Hx _ IH]; simpl; [reflexivity|]. rewrite Hx. exact IH.
Qed.

Section Uniform.
Context {P : Persistence} {L : Learning} {T : TextGeneration}.

Lemma run_hdbscan_clustering_labels (df : list Mistake) (label : Z) :
  Forall (fun lp => fst lp = label)
         (hdbscan_fit (Gower.gower_matrix (gower_frame df) (length df))) ->
  Forall (fun r => habit_id r = label) (_run_hdbscan_clustering df).
Proof.
  unfold _run_hdbscan_clustering.
  generalize (hdbscan_fit (Gower.gower_matrix (gower_frame df) (length df))).
  intros out Hout. revert df.
  induction Hout as [|lp out Hlp _ IH]; intros df.
  - destruct df; constructor.
  - destruct df as [|r df]; [constructor|].
    cbn [zip_with]. constructor; [exact Hlp|apply IH].
Qed.

(** With no row outside the cluster there is nothing to compare with:
    every label of the loop is skipped. *)
Lemma habit_loop_without_control (labels : list Z) (label : Z) user_id
      habits_df df_clustered preprocessor (count : Z) (w : World) :
  Forall (fun x => x = label) labels ->
  Forall (fun r => habit_id r = label) df_clustered ->
  habit_loop labels user_id habits_df df_clustered preprocessor count w
  = (Ok count, w).
Proof.
  intros Hlabels Hdf.
  induction Hlabels as [|x labels -> _ IH]; cbn [habit_loop]; [reflexivity|].
  rewrite (filter_Forall_false (fun r => negb (Z.eqb (habit_id r) label)) df_clustered).
  - unfold _find_triggers_for_cluster at 1. exact IH.
  - eapply Forall_impl; [exact Hdf|]. cbn. intros r ->.
    rewrite Z.eqb_refl. reflexivity.
Qed.

(** X18. When the clusterer gives every row the same label (all noise, or
    one cluster that covers everything) the run finds no habit: it
    returns [{new_habits_found: 0, total_mistakes: n}] after clearing,
    fetching and clustering, without generating text, saving or
    linking. *)
Theorem uniform_labelling_gives_no_habits :
  forall (user_id : Z) (w : World) (label : Z),
    let cleared := clear_old_habits_and_feedback (db w) user_id in
    let all_mistakes := get_all_mistakes_for_user_v6 cleared user_id in
    (20 <= length all_mistakes)%nat ->
    Forall (fun lp => fst lp = label)
           (hdbscan_fit (Gower.gower_matrix (gower_frame all_mistakes)
                                            (length all_mistakes))) ->
    main_analysis_pipeline user_id w
    = (Ok (mkResult 0 (Z.of_nat (length all_mistakes))),
       mkWorld cleared (llm w)
               (trace w ++ [EvClear user_id; EvFetch user_id;
                            EvCluster (length all_mistakes)])).
Proof.
  intros user_id w label cleared all_mistakes Hn Hlabels.
  unfold main_analysis_pipeline, log. cbn [db llm trace].
  fold cleared. fold all_mistakes.
  destruct (Z.ltb_spec (Z.of_nat (length all_mistakes)) 20) as [Hlt|_]; [lia|].
  pose proof (run_hdbscan_clustering_labels all_mistakes label Hlabels) as Hdf.
  set (df_clustered := _run_hdbscan_clustering all_mistakes) in *.
  rewrite <- !app_assoc. cbn [app].
  destruct (List.filter _ df_clustered) as [|h hs] eqn:Hhabits; [reflexivity|].
  destruct (_create_feature_preprocessor all_mistakes) as [pre|]; [|reflexivity].
  rewrite (habit_loop_without_control _ label); [reflexivity| |exact Hdf].
  apply unique_Forall. apply Forall_forall. intros x Hx.
  apply list_elem_of_In, in_map_iff in Hx as (r & <- & Hr).
  rewrite <- Hhabits in Hr. apply filter_In in Hr as [Hr _].
  rewrite Forall_forall in Hdf. apply Hdf, list_elem_of_In, Hr.
Qed.

End Uniform.

(** Twenty-five mistakes, all noise; twenty-five mistakes, all in
    cluster 0. *)
Lemma uniform_labelling_gives_no_habits_witness :
  fst (main_analysis_pipeline 7 (uniform_world (-1) 25)) = Ok (mkResult 0 25)
  /\ trace (snd (main_analysis_pipeline 7 (uniform_world (-1) 25)))
     = [EvClear 7; EvFetch 7; EvCluster 25]
  /\ fst (main_analysis_pipeline 7 (uniform_world 0 25)) = Ok (mkResult 0 25)
  /\ trace (snd (main_analysis_pipeline 7 (uniform_world 0 25)))
     = [EvClear 7; EvFetch 7; EvCluster 25].
Proof.
  assert (Hn : (20 <= length (example_mistakes 25))%nat) by (vm_compute; lia).
  assert (Hall : forall label,
             Forall (fun lp => fst lp = label)
                    (hdbscan_fit (Learning := uniform_learning label)
                       (Gower.gower_matrix (gower_frame (example_mistakes 25))
                                           (length (example_mistakes 25))))).
  { intros label. cbn [hdbscan_fit uniform_learning].
    apply Forall_forall. intros lp Hlp.
    apply list_elem_of_In, in_map_iff in Hlp as (x & <- & _). reflexivity. }
  rewrite (uniform_labelling_gives_no_habits
             (P := example_persistence) (L := uniform_learning (-1))
             (T := scripted_llm_for (uniform_learning (-1)))
             7 (uniform_world (-1) 25) (-1) Hn (Hall (-1))).
  rewrite (uniform_labelling_gives_no_habits
             (P := example_persistence) (L := uniform_learning 0)
             (T := scripted_llm_for (uniform_learning 0))
             7 (uniform_world 0 25) 0 Hn (Hall 0)).
  repeat split; reflexivity.
Defined.

(** ** Counting what a run does *)

Lemma count_creates_app (a b : list Event) :
  count_creates (a ++ b) = (count_creates a + count_creates b)%nat.
Proof. unfold count_creates. rewrite List.filter_app, length_app. reflexivity. Qed.

Lemma count_saves_app (a b : list Event) :
  count_saves (a ++ b) = (count_saves a + count_saves b)%nat.
Proof. unfold count_saves. rewrite List.filter_app, length_app. reflexivity. Qed.

Lemma count_links_app (a b : list Event) :
  count_links (a ++ b) = (count_links a + count_links b)%nat.
Proof. unfold count_links. rewrite List.filter_app, length_app. reflexivity. Qed.

Lemma llm_events_counts (q : list Event) :
  Forall is_llm_event q ->
  count_saves q = 0%nat /\ count_links q = 0%nat /\ Forall is_cluster_work q.
Proof.
  induction 1 as [|e q He _ (IHs & IHl & IHw)].
  - repeat split. constructor.
  - destruct e; simpl in He; try contradiction;
      (split; [exact IHs|split; [exact IHl|constructor; [exact I|exact IHw]]]).
Qed.

Section Counting.
Context {P : Persistence} {L : Learning} {T : TextGeneration}.

Lemma generate_llm_feedback_counts (request : Request) (w : World) :
  exists q,
    trace (snd (_generate_llm_feedback request w)) = trace w ++ q
    /\ db (snd (_generate_llm_feedback request w)) = db w
    /\ is_Some (fst (_generate_llm_feedback request w))
    /\ Forall is_llm_event q
    /\ (1 <= count_creates q <= 3)%nat
    /\ 0 ≤ total_sleep q ≤ 3
    /\ (exists q' attempt, q = q' ++ [EvCreate attempt]).
Proof.
  unfold _generate_llm_feedback. cbn [llm_attempts].
  destruct (chat_completions_create (llm w) request) as [c1 s1].
  destruct (tool_arguments c1) as [a1|].
  { exists [EvCreate 0]. cbn. repeat split; eauto; try lia.
    - repeat constructor.
    - exists [], 0. reflexivity. }
  cbn [Z.ltb Z.compare log db llm trace].
  destruct (chat_completions_create s1 request) as [c2 s2].
  destruct (tool_arguments c2) as [a2|].
  { exists [EvCreate 0; EvSleep (2 ^ 0); EvCreate 1].
    cbn [fst snd db trace]. rewrite <- !app_assoc.
    repeat split; eauto; try (cbn; lia).
    - repeat constructor.
    - exists [EvCreate 0; EvSleep (2 ^ 0)], 1. reflexivity. }
  cbn [Z.ltb Z.compare Pos.compare Pos.compare_cont log db llm trace].
  destruct (chat_completions_create s2 request) as [c3 s3].
  exists [EvCreate 0; EvSleep (2 ^ 0); EvCreate 1; EvSleep (2 ^ 1); EvCreate 2].
  destruct (tool_arguments c3) as [a3|];
    cbn [Z.ltb Z.compare Pos.compare Pos.compare_cont fst snd db trace];
    rewrite <- !app_assoc;
    (repeat split; eauto; try (cbn; lia);
     [repeat constructor
     |exists [EvCreate 0; EvSleep (2 ^ 0); EvCreate 1; EvSleep (2 ^ 1)], 2;
      reflexivity]).
Qed.

(** Where the answer comes from: it is the placeholder, or what a call of
    the text generator gave as arguments, of whatever JSON type. *)
Lemma generate_llm_feedback_answer (request : Request) (w : World) :
  exists answer,
    fst (_generate_llm_feedback request w) = Some answer
    /\ (answer = JsonDict fallback_feedback
        \/ exists st,
             tool_arguments (fst (chat_completions_create st request)) = Some answer).
Proof.
  unfold _generate_llm_feedback. cbn [llm_attempts].
  destruct (chat_completions_create (llm w) request) as [c1 s1] eqn:H1.
  destruct (tool_arguments c1) as [a1|] eqn:F1.
  { exists a1. split; [reflexivity|]. right. exists (llm w). rewrite H1. exact F1. }
  cbn [Z.ltb Z.compare log db llm trace].
  destruct (chat_completions_create s1 request) as [c2 s2] eqn:H2.
  destruct (tool_arguments c2) as [a2|] eqn:F2.
  { exists a2. split; [reflexivity|]. right. exists s1. rewrite H2. exact F2. }
  cbn [Z.ltb Z.compare Pos.compare Pos.compare_cont log db llm trace].
  destruct (chat_completions_create s2 request) as [c3 s3] eqn:H3.
  destruct (tool_arguments c3) as [a3|] eqn:F3.
  { exists a3. split; [reflexivity|]. right. exists s2. rewrite H3. exact F3. }
  cbn [Z.ltb Z.compare Pos.compare Pos.compare_cont].
  exists (JsonDict fallback_feedback). split; [reflexivity|]. left. reflexivity.
Qed.

Lemma generate_and_save_feedback_counts user_id label cluster_df coefs names
      (w : World) :
  exists added,
    trace (snd (_generate_and_save_feedback user_id label cluster_df coefs names w))
    = trace w ++ added
    /\ Forall is_cluster_work added
    /\ (count_creates added <= 3)%nat
    /\ (count_saves added <= 1)%nat
    /\ count_links added = 0%nat
    /\ (forall i,
           fst (_generate_and_save_feedback user_id label cluster_df coefs names w)
           = Ok (Some i) -> count_saves added = 1%nat).
Proof.
  unfold _generate_and_save_feedback.
  destruct (extract_triggers names coefs) as [|t ts].
  { exists []. cbn. rewrite app_nil_r. repeat split; try lia; try constructor.
    discriminate. }
  destruct (idxmax_cpl cluster_df) as [prime|].
  2:{ exists []. cbn. rewrite app_nil_r. repeat split; try lia; try constructor.
      discriminate. }
  destruct (generate_llm_feedback_counts (build_request cluster_df (t :: ts)) w)
    as (q & Htr & _ & [output Hout] & Hq & [_ Hc] & _ & _).
  destruct (_generate_llm_feedback _ w) as [llm_output w1].
  cbn [fst snd] in *. subst llm_output.
  destruct output as [output|].
  2:{ apply llm_events_counts in Hq as (Hs & Hl & Hw).
      exists q. cbn [fst snd]. rewrite Hs, Hl.
      repeat split; try lia; try assumption. discriminate. }
  destruct (save_habit_analysis _ _) as [new_id d].
  apply llm_events_counts in Hq as (Hs & Hl & Hw).
  eexists (q ++ [EvSave _ new_id]). cbn [fst snd trace].
  rewrite Htr, <- app_assoc.
  rewrite count_creates_app, count_saves_app, count_links_app, Hs, Hl.
  repeat split; try (cbn; lia).
  apply Forall_app. split; [exact Hw|repeat constructor].
Qed.

Lemma habit_loop_counts (labels : list Z) user_id habits_df df_clustered
      preprocessor (count : Z) (w : World) :
  exists added,
    trace (snd (habit_loop labels user_id habits_df df_clustered preprocessor
                           count w))
    = trace w ++ added
    /\ Forall is_cluster_work added
    /\ (count_creates added <= 3 * length labels)%nat
    /\ (count_saves added <= length labels)%nat
    /\ (count_links added <= count_saves added)%nat
    /\ (forall n,
           fst (habit_loop labels user_id habits_df df_clustered preprocessor
                           count w) = Ok n ->
           n = count + Z.of_nat (count_links added)).
Proof.
  revert count w. induction labels as [|label rest IH]; intros count w;
    cbn [habit_loop].
  - exists []. cbn. rewrite app_nil_r. repeat split; try lia; try constructor.
    intros n [= <-]. lia.
  - destruct (_find_triggers_for_cluster _ _ _) as [[coefs names]|].
    2:{ destruct (IH count w) as (added & Htr & Hw & Hc & Hs & Hl & Hn).
        exists added. cbn [length]. repeat split; auto; lia. }
    match goal with
    | |- context [_generate_and_save_feedback ?u ?l ?c ?cf ?nm w] =>
        destruct (generate_and_save_feedback_counts u l c cf nm w)
          as (a1 & Htr1 & Hw1 & Hc1 & Hs1 & Hl1 & Hone);
          destruct (_generate_and_save_feedback u l c cf nm w) as [r w1]
    end.
    cbn [fst snd] in *.
    destruct r as [new_serial_id|e].
    2:{ exists a1. cbn [fst snd length]. repeat split; auto; try lia.
        discriminate. }
    destruct (truthy new_serial_id) as [new_id|] eqn:Htruthy.
    + assert (Hsave : count_saves a1 = 1%nat).
      { destruct new_serial_id as [i|]; [|discriminate]. apply (Hone i).
        reflexivity. }
      match goal with
      | |- context [habit_loop rest ?u ?h ?d ?p ?c ?w2] =>
          destruct (IH c w2) as (a2 & Htr2 & Hw2 & Hc2 & Hs2 & Hl2 & Hn2);
            set (R := habit_loop rest u h d p c w2) in *;
            exists (a1 ++ [EvLink new_id (map (fun r => id (row r))
                             (List.filter (fun r => Z.eqb (habit_id r) label)
                                          habits_df))] ++ a2)
      end.
      cbn [trace] in Htr2. rewrite Htr2, Htr1, <- !app_assoc.
      rewrite !count_creates_app, !count_saves_app, !count_links_app, Hl1, Hsave.
      cbn [length]. repeat split; try (cbn; lia).
      * apply Forall_app. split; [exact Hw1|].
        apply Forall_app. split; [repeat constructor|exact Hw2].
      * intros n Hn. apply Hn2 in Hn. cbn. cbn in Hn. lia.
    + destruct (IH count w1) as (a2 & Htr2 & Hw2 & Hc2 & Hs2 & Hl2 & Hn2).
      set (R := habit_loop rest _ _ _ _ count w1) in *.
      exists (a1 ++ a2). rewrite Htr2, Htr1, <- app_assoc.
      rewrite count_creates_app, count_saves_app, count_links_app, Hl1.
      cbn [length]. repeat split; try lia.
      * apply Forall_app. split; assumption.
      * intros n Hn. apply Hn2 in Hn. lia.
Qed.

(** X19. The result of a run and what the run did agree: [new_habits_found]
    is the number of times mistakes were linked to a habit, which is at
    most the number of saves, and [total_mistakes] is the number of
    mistakes fetched.  A run clears and fetches first and clusters at
    most once; per non-noise label it calls the text generator at most
    three times and saves at most once. *)
Theorem run_result_counts_what_was_done :
  forall (user_id : Z) (w : World),
    let cleared := clear_old_habits_and_feedback (db w) user_id in
    let all_mistakes := get_all_mistakes_for_user_v6 cleared user_id in
    let labels :=
      unique (map habit_id
                  (List.filter (fun r => negb (Z.eqb (habit_id r) (-1)))
                               (_run_hdbscan_clustering all_mistakes))) in
    exists work,
      (trace (snd (main_analysis_pipeline user_id w))
       = trace w ++ [EvClear user_id; EvFetch user_id]
         \/ trace (snd (main_analysis_pipeline user_id w))
            = trace w ++ [EvClear user_id; EvFetch user_id;
                          EvCluster (length all_mistakes)] ++ work)
      /\ Forall is_cluster_work work
      /\ (count_creates work <= 3 * length labels)%nat
      /\ (count_saves work <= length labels)%nat
      /\ (count_links work <= count_saves work)%nat
      /\ (forall result,
             fst (main_analysis_pipeline user_id w) = Ok result ->
             new_habits_found result = Z.of_nat (count_links work)
             /\ total_mistakes result = Z.of_nat (length all_mistakes)).
Proof.
  intros user_id w cleared all_mistakes labels.
  unfold main_analysis_pipeline, log. cbn [db llm trace].
  fold cleared. fold all_mistakes.
  assert (Hnone : forall tr,
             (tr = trace w ++ [EvClear user_id; EvFetch user_id]
              \/ tr = trace w ++ [EvClear user_id; EvFetch user_id;
                                  EvCluster (length all_mistakes)] ++ []) ->
             forall r,
               r = Ok (mkResult 0 (Z.of_nat (length all_mistakes))) ->
               exists work,
                 (tr = trace w ++ [EvClear user_id; EvFetch user_id]
                  \/ tr = trace w ++ [EvClear user_id; EvFetch user_id;
                                      EvCluster (length all_mistakes)] ++ work)
                 /\ Forall is_cluster_work work
                 /\ (count_creates work <= 3 * length labels)%nat
                 /\ (count_saves work <= length labels)%nat
                 /\ (count_links work <= count_saves work)%nat
                 /\ (forall result, r = Ok result ->
                       new_habits_found result = Z.of_nat (count_links work)
                       /\ total_mistakes result = Z.of_nat (length all_mistakes))).
  { intros tr Htr r ->. exists []. split; [exact Htr|].
    repeat split; try (cbn; lia); try constructor;
      injection H as <-; reflexivity. }
  destruct (Z.of_nat (length all_mistakes) <? 20).
  { apply Hnone; [|reflexivity]. left. cbn [snd trace].
    rewrite <- app_assoc. reflexivity. }
  fold labels.
  destruct (List.filter _ (_run_hdbscan_clustering all_mistakes)) as [|h hs] eqn:Hh.
  { apply Hnone; [|reflexivity]. right. cbn [snd trace].
    rewrite <- !app_assoc. reflexivity. }
  destruct (_create_feature_preprocessor all_mistakes) as [pre|].
  2:{ apply Hnone; [|reflexivity]. right. cbn [snd trace].
      rewrite <- !app_assoc. reflexivity. }
  match goal with
  | |- context [habit_loop ?ls ?u ?hd ?dc ?p ?c ?w3] =>
      destruct (habit_loop_counts ls u hd dc p c w3)
        as (work & Htr & Hw & Hc & Hs & Hl & Hn);
        destruct (habit_loop ls u hd dc p c w3) as [r w4]
  end.
  cbn [fst snd trace] in *. exists work.
  split.
  { right. destruct r; cbn [snd]; rewrite Htr, <- !app_assoc; reflexivity. }
  repeat split; try assumption;
    destruct r as [n|e]; cbn [fst] in H; try discriminate;
    injection H as <-; cbn; specialize (Hn n eq_refl); lia.
Qed.

End Counting.

(** The example run with a working database: one habit, one link. *)
Lemma run_result_counts_what_was_done_witness :
  let w := example_world 25 1 [example_completion] in
  exists work,
    trace (snd (main_analysis_pipeline 7 w))
    = trace w ++ [EvClear 7; EvFetch 7; EvCluster 25] ++ work
    /\ count_links work = 1%nat
    /\ fst (main_analysis_pipeline 7 w) = Ok (mkResult 1 25)
    /\ new_habits_found (mkResult 1 25) = Z.of_nat (count_links work).
Proof.
  intros w.
  destruct (run_result_counts_what_was_done
              (P := example_persistence) (L := example_learning)
              (T := scripted_llm) 7 w)
    as (work & Htr & _ & _ & _ & _ & Hres).
  assert (Hrun : fst (main_analysis_pipeline 7 w) = Ok (mkResult 1 25))
    by reflexivity.
  destruct (Hres _ Hrun) as [Hfound _].
  destruct Htr as [Htr|Htr].
  { exfalso. revert Htr. clear. intros Htr.
    apply (f_equal (@length Event)) in Htr. revert Htr.
    match goal with |- ?a = ?b -> _ => change (6%nat = 2%nat -> False) end.
    discriminate. }
  exists work. split; [exact Htr|].
  cbn in Hfound. split; [lia|]. split; [exact Hrun|exact Hfound].
Defined.

(** ** Text generation *)

Section Generation.
Context {P : Persistence} {L : Learning} {T : TextGeneration}.

(** X21. [_generate_llm_feedback] always returns and never touches the
    database.  What it returns is the fixed placeholder dict or the
    arguments that a call of the text generator gave, as [json.loads]
    parsed them: a dict or any other JSON value, which is not checked.
    It calls the text generator at least once and at most three times,
    sleeps three seconds at most in total, and the last thing it does is
    a call (it never sleeps after the last attempt, nor after a success).
    When the first call answers with arguments that parse, they are
    returned after this single call. *)
Theorem text_generation_is_bounded :
  forall (request : Request) (w : World),
    (exists q,
        trace (snd (_generate_llm_feedback request w)) = trace w ++ q
        /\ db (snd (_generate_llm_feedback request w)) = db w
        /\ (exists answer,
               fst (_generate_llm_feedback request w) = Some answer
               /\ (answer = JsonDict fallback_feedback
                   \/ exists st,
                        tool_arguments (fst (chat_completions_create st request))
                        = Some answer))
        /\ Forall is_llm_event q
        /\ (1 <= count_creates q <= 3)%nat
        /\ 0 ≤ total_sleep q ≤ 3
        /\ (exists q' attempt, q = q' ++ [EvCreate attempt]))
    /\ (forall arguments,
           tool_arguments (fst (chat_completions_create (llm w) request))
           = Some arguments ->
           _generate_llm_feedback request w
           = (Some arguments,
              mkWorld (db w) (snd (chat_completions_create (llm w) request))
                      (trace w ++ [EvCreate 0]))).
Proof.
  intros request w. split.
  { destruct (generate_llm_feedback_counts request w)
      as (q & Htr & Hdb & _ & Hq & Hc & Hs & Hlast).
    exists q. split; [exact Htr|]. split; [exact Hdb|].
    split; [apply generate_llm_feedback_answer|]. auto. }
  intros arguments Hargs.
  unfold _generate_llm_feedback. cbn [llm_attempts].
  destruct (chat_completions_create (llm w) request) as [c s].
  cbn [fst snd] in *. rewrite Hargs. reflexivity.
Qed.

End Generation.

Lemma text_generation_is_bounded_witness :
  let w := example_world 25 1 [example_completion] in
  fst (_generate_llm_feedback (build_request example_cluster []) w)
  = tool_arguments example_completion
  /\ trace (snd (_generate_llm_feedback (build_request example_cluster []) w))
     = [EvCreate 0].
Proof.
  intros w.
  rewrite (proj2 (text_generation_is_bounded
                    (P := example_persistence) (L := example_learning)
                    (T := scripted_llm)
                    (build_request example_cluster []) w) _ eq_refl).
  split; reflexivity.
Defined.

(** ** What is saved for a cluster *)

Lemma fold_max_ge (a : Z) (l : list Z) :
  a ≤ fold_right Z.max a l /\ forall x, In x l -> x ≤ fold_right Z.max a l.
Proof.
  induction l as [|y l [IHa IHl]]; simpl.
  - split; [lia|tauto].
  - split; [lia|]. intros x [->|Hx]; [lia|]. specialize (IHl x Hx). lia.
Qed.

Lemma fold_max_le (a b : Z) (l : list Z) :
  (forall x, In x l -> x ≤ b) -> fold_right Z.max a l ≤ Z.max a b.
Proof.
  induction l as [|y l IH]; intros H; simpl; [lia|].
  assert (y ≤ b) by (apply H; left; reflexivity).
  assert (fold_right Z.max a l ≤ Z.max a b)
    by (apply IH; intros; apply H; right; assumption).
  lia.
Qed.

(** [idxmax] names a row of largest cpl. *)
Lemma idxmax_cpl_is_max (cluster_df : list Clustered) (i : Z) :
  idxmax_cpl cluster_df = Some i ->
  exists r, r ∈ cluster_df /\ id (row r) = i
            /\ forall r', r' ∈ cluster_df -> cpl (row r') ≤ cpl (row r).
Proof.
  revert i. induction cluster_df as [|r rest IH]; intros i; cbn [idxmax_cpl].
  - discriminate.
  - pose proof (fold_max_ge (cpl (row r)) (map (fun x => cpl (row x)) rest))
      as [Hge Hall].
    set (M := fold_right Z.max (cpl (row r)) (map (fun x => cpl (row x)) rest)) in *.
    assert (Hhead : ~ (cpl (row r) < M) ->
                    forall r', r' ∈ r :: rest -> cpl (row r') ≤ cpl (row r)).
    { intros Hnot r' Hr'. apply elem_of_cons in Hr' as [->|Hr']; [lia|].
      assert (cpl (row r') ≤ M); [|lia].
      apply Hall, in_map_iff. exists r'. split; [reflexivity|].
      apply list_elem_of_In, Hr'. }
    destruct (idxmax_cpl rest) as [j|] eqn:Hrest.
    + destruct (IH j eq_refl) as (r0 & Hr0 & Hid & Hmax).
      destruct (Z.ltb_spec (cpl (row r)) M) as [Hlt|Hnlt]; intros [= <-].
      * exists r0. split; [by apply list_elem_of_further|]. split; [exact Hid|].
        assert (HM : M ≤ Z.max (cpl (row r)) (cpl (row r0))).
        { apply fold_max_le. intros x Hx.
          apply in_map_iff in Hx as (r1 & <- & Hr1).
          apply Hmax, list_elem_of_In, Hr1. }
        intros r' Hr'. apply elem_of_cons in Hr' as [->|Hr']; [lia|].
        apply Hmax, Hr'.
      * exists r. split; [apply list_elem_of_here|]. split; [reflexivity|].
        apply Hhead. lia.
    + intros [= <-]. exists r. split; [apply list_elem_of_here|].
      split; [reflexivity|].
      destruct rest as [|r1 rest]; [|cbn [idxmax_cpl] in Hrest;
        destruct (idxmax_cpl rest); [destruct (_ <? _)|]; discriminate].
      intros r' Hr'. apply list_elem_of_singleton in Hr' as ->. lia.
Qed.

Lemma Qsum_between (l : list Q) :
  Forall (fun q => (0 <= q <= 1)%Q) l ->
  (0 <= fold_right Qplus 0 l <= inject_Z (Z.of_nat (length l)))%Q.
Proof.
  induction 1 as [|q l [Hq0 Hq1] _ [IH0 IH1]].
  - simpl. split; apply Qle_refl.
  - cbn [fold_right length]. rewrite Nat2Z.inj_succ. unfold Z.succ.
    rewrite inject_Z_plus. split.
    + apply (Qle_trans _ (0 + 0)); [discriminate|].
      apply Qplus_le_compat; assumption.
    + apply (Qle_trans _ (1 + inject_Z (Z.of_nat (length l)))).
      * apply Qplus_le_compat; assumption.
      * rewrite Qplus_comm. apply Qle_refl.
Qed.

(** The mean of numbers between 0 and 1 is between 0 and 1. *)
Lemma Qmean_between (l : list Q) :
  Forall (fun q => (0 <= q <= 1)%Q) l -> (0 <= Qmean l <= 1)%Q.
Proof.
  intros Hl. pose proof (Qsum_between l Hl) as [H0 H1]. unfold Qmean.
  destruct l as [|q l].
  - simpl. split; [apply Qle_refl|discriminate].
  - assert (Hpos : (0 < inject_Z (Z.of_nat (length (q :: l))))%Q).
    { rewrite <- (Zlt_Qlt 0). cbn [length]. lia. }
    split.
    + apply Qle_shift_div_l; [exact Hpos|]. rewrite Qmult_0_l. exact H0.
    + apply Qle_shift_div_r; [exact Hpos|]. rewrite Qmult_1_l. exact H1.
Qed.

Section Saved.
Context {P : Persistence} {L : Learning} {T : TextGeneration}.

(** X22. When a cluster has triggers and [_generate_and_save_feedback]
    returns, exactly one habit was handed to [save_habit_analysis], after
    the calls of the text generator, and the id returned is the one the
    save gave.  The habit carries the user, the cluster label and the
    trigger dict; its example is a mistake of the cluster with the
    largest cpl; its confidence is the mean of the members' confidences
    (between 0 and 1 when they are); its name ends with the cluster tag
    "(H<label>)". *)
Theorem saved_habit_describes_cluster :
  forall (user_id hdbscan_label : Z) (cluster_df : list Clustered)
         (coefficients : list Q) (feature_names : list string)
         (w w1 : World) (new_id : option Z),
    extract_triggers feature_names coefficients <> [] ->
    _generate_and_save_feedback user_id hdbscan_label cluster_df
                                coefficients feature_names w
    = (Ok new_id, w1) ->
    exists habit q,
      trace w1 = trace w ++ q ++ [EvSave habit new_id]
      /\ Forall is_llm_event q
      /\ save_habit_analysis (db w) habit = (new_id, db w1)
      /\ hr_user_id habit = user_id
      /\ hr_label habit = hdbscan_label
      /\ hr_triggers habit = extract_triggers feature_names coefficients
      /\ (exists r, r ∈ cluster_df /\ id (row r) = hr_prime_example_id habit
                    /\ forall r', r' ∈ cluster_df -> cpl (row r') ≤ cpl (row r))
      /\ hr_confidence habit = Qmean (map habit_confidence cluster_df)
      /\ (Forall (fun r => (0 <= habit_confidence r <= 1)%Q) cluster_df ->
          (0 <= hr_confidence habit <= 1)%Q)
      /\ exists suggested_name,
           hr_habit_name habit
           = (suggested_name ++ " (H" ++ str hdbscan_label ++ ")")%string.
Proof.
  intros user_id label cluster_df coefs names w w1 new_id Hne.
  unfold _generate_and_save_feedback.
  destruct (extract_triggers names coefs) as [|t ts] eqn:Htrig; [contradiction|].
  destruct (idxmax_cpl cluster_df) as [prime|] eqn:Hprime; [|discriminate].
  destruct (generate_llm_feedback_counts (build_request cluster_df (t :: ts)) w)
    as (q & Htr & Hdb & [output Hout] & Hq & _).
  destruct (_generate_llm_feedback _ w) as [llm_output w0].
  cbn [fst snd] in *. subst llm_output.
  destruct output as [output|]; [|discriminate].
  destruct (save_habit_analysis (db w0) _) as [nid d] eqn:Hsave.
  intros [= <- <-].
  eexists _, q. cbn [trace db].
  split; [rewrite Htr, <- app_assoc; reflexivity|].
  split; [exact Hq|].
  split; [rewrite <- Hdb; exact Hsave|].
  cbn [build_habit hr_user_id hr_label hr_triggers hr_prime_example_id
         hr_confidence hr_habit_name].
  do 3 (split; [reflexivity|]).
  split; [apply idxmax_cpl_is_max, Hprime|].
  split; [reflexivity|].
  split; [|eauto].
  intros Hconf. apply Qmean_between.
  apply Forall_forall. intros x Hx.
  apply list_elem_of_In, in_map_iff in Hx as (r & <- & Hr).
  rewrite Forall_forall in Hconf. apply Hconf, list_elem_of_In, Hr.
Qed.

End Saved.

Lemma saved_habit_describes_cluster_witness :
  let w := example_world 25 1 [example_completion] in
  exists habit,
    extract_triggers example_feature_names example_coefficients <> []
    /\ fst (_generate_and_save_feedback 7 0 example_cluster example_coefficients
                                        example_feature_names w) = Ok (Some 1)
    /\ trace (snd (_generate_and_save_feedback
                     7 0 example_cluster example_coefficients
                     example_feature_names w))
       = trace w ++ [EvCreate 0] ++ [EvSave habit (Some 1)]
    /\ hr_prime_example_id habit = 5
    /\ hr_habit_name habit = "Late queen raids (H0)".
Proof.
  intros w.
  assert (Hne : extract_triggers example_feature_names example_coefficients <> [])
    by discriminate.
  destruct (saved_habit_describes_cluster
              (P := example_persistence) (L := example_learning)
              (T := scripted_llm)
              7 0 example_cluster example_coefficients example_feature_names
              w _ (Some 1) Hne eq_refl)
    as (habit & q & Htr & _).
  eexists. split; [exact Hne|]. split; [reflexivity|].
  split; [reflexivity|]. split; reflexivity.
Defined.

(** ** Which triggers reach the prompt *)

Lemma prefix_app (t r : string) : String.prefix t (t ++ r) = true.
Proof.
  induction t as [|c t IH]; simpl; [destruct r; reflexivity|].
  destruct (ascii_dec c c); [exact IH|congruence].
Qed.

Lemma contains_app (t r : string) : contains t (t ++ r) = true.
Proof.
  destruct (t ++ r)%string eqn:E; cbn [contains]; rewrite <- E, prefix_app;
    reflexivity.
Qed.

(** Every column of [CATEGORICAL_COLS] has its prefix in one of the two
    trigger lists. *)
Lemma one_hot_name_bucket (col value : string) :
  col ∈ CATEGORICAL_COLS ->
  is_context (one_hot_name col value) || is_action (one_hot_name col value) = true.
Proof.
  intros Hcol. apply orb_true_iff.
  assert (Hfind : forall (l : list string) (t rest : string),
             In t l -> one_hot_name col value = (t ++ rest)%string ->
             existsb (fun t => contains t (one_hot_name col value)) l = true).
  { intros l t rest Hin ->. apply existsb_exists. exists t.
    split; [exact Hin|apply contains_app]. }
  unfold is_context, is_action, CATEGORICAL_COLS in *.
  repeat (apply elem_of_cons in Hcol as [->|Hcol]);
    [ right; apply (Hfind _ "mistake_type_" value)
    | right; apply (Hfind _ "mistake_category_" value)
    | left; apply (Hfind _ "game_phase_" value)
    | left; apply (Hfind _ "material_balance_" value)
    | left; apply (Hfind _ "board_complexity_" value)
    | right; apply (Hfind _ "king_self_safety_" value)
    | right; apply (Hfind _ "king_opponent_status_" value)
    | left; apply (Hfind _ "castling_status_" ("self_" ++ value)%string)
    | right; apply (Hfind _ "piece_moved_" value)
    | right; apply (Hfind _ "move_type_" value)
    | right; apply (Hfind _ "piece_was_attacked_" value)
    | right; apply (Hfind _ "piece_was_defended_" value)
    | right; apply (Hfind _ "piece_was_defending_" value)
    | right; apply (Hfind _ "piece_was_pinned_" value)
    | apply elem_of_nil in Hcol; contradiction ];
    try reflexivity; simpl; tauto.
Qed.

Lemma max_key_None (d : list (string * Q)) : max_key d = None -> d = [].
Proof.
  destruct d as [|[k v] rest]; [reflexivity|]. cbn [max_key].
  destruct (max_key rest); [destruct (Qlt_le_dec _ _)|]; discriminate.
Qed.

Lemma dict_get_In {V : Type} (d : list (string * V)) (k : string) (v : V) :
  NoDup (map fst d) -> In (k, v) d -> dict_get d k = Some v.
Proof.
  induction d as [|[k' v'] rest IH]; intros Hnd Hin; [destruct Hin|].
  inversion Hnd as [|? ? Hnot Hrest]; subst. cbn [dict_get].
  destruct Hin as [[= -> ->]|Hin].
  - rewrite bool_decide_eq_true_2; reflexivity.
  - rewrite bool_decide_eq_false_2; [apply IH; assumption|].
    intros ->. apply Hnot, list_elem_of_In, in_map_iff.
    exists (k, v). split; [reflexivity|exact Hin].
Qed.

(** [max] over the keys by value returns a key of largest value. *)
Lemma max_key_spec (d : list (string * Q)) (k : string) :
  NoDup (map fst d) -> max_key d = Some k ->
  exists v, In (k, v) d /\ forall k' v', In (k', v') d -> (v' <= v)%Q.
Proof.
  revert k. induction d as [|[k0 v0] rest IH]; intros k Hnd; [discriminate|].
  inversion Hnd as [|? ? Hnot Hrest]; subst. cbn [max_key].
  destruct (max_key rest) as [k1|] eqn:Hmax.
  - destruct (IH k1 Hrest eq_refl) as (v1 & Hin1 & Hmax1).
    unfold dict_get_default. rewrite (dict_get_In rest k1 v1 Hrest Hin1).
    change (default v0 (Some v1)) with v1.
    destruct (Qlt_le_dec v0 v1) as [Hlt|Hle]; intros [= <-].
    + exists v1. split; [right; exact Hin1|].
      intros k' v' [[= <- <-]|Hin]; [apply Qlt_le_weak, Hlt|eapply Hmax1, Hin].
    + exists v0. split; [left; reflexivity|].
      intros k' v' [[= <- <-]|Hin]; [apply Qle_refl|].
      eapply Qle_trans; [eapply Hmax1, Hin|exact Hle].
  - intros [= <-]. apply max_key_None in Hmax as ->.
    exists v0. split; [left; reflexivity|].
    intros k' v' [[= <- <-]|[]]. apply Qle_refl.
Qed.

Lemma dict_set_keys {V : Type} (d : list (string * V)) (k x : string) (v : V) :
  In x (map fst (dict_set d k v)) -> x = k \/ In x (map fst d).
Proof.
  induction d as [|[k' v'] rest IH]; cbn [dict_set map fst In].
  - intros [<-|[]]. left; reflexivity.
  - case_bool_decide as Hk; cbn [map fst In].
    + intros [<-|Hin]; [left; reflexivity|right; right; exact Hin].
    + intros [<-|Hin]; [right; left; reflexivity|].
      destruct (IH Hin) as [->|Hin']; [left; reflexivity|right; right; exact Hin'].
Qed.

Lemma dict_set_NoDup {V : Type} (d : list (string * V)) (k : string) (v : V) :
  NoDup (map fst d) -> NoDup (map fst (dict_set d k v)).
Proof.
  induction d as [|[k' v'] rest IH]; intros Hnd; cbn [dict_set].
  - cbn. constructor; [apply not_elem_of_nil|constructor].
  - inversion Hnd as [|? ? Hnot Hrest]; subst.
    case_bool_decide as Hk; cbn [map fst].
    + subst k'. constructor; assumption.
    + constructor; [|apply IH, Hrest].
      intros Hin. apply list_elem_of_In, dict_set_keys in Hin as [->|Hin];
        [congruence|]. apply Hnot, list_elem_of_In, Hin.
Qed.

(** The trigger dict has each key once. *)
Lemma extract_triggers_NoDup (feature_names : list string) (coefficients : list Q) :
  NoDup (map fst (extract_triggers feature_names coefficients)).
Proof.
  unfold extract_triggers.
  assert (H : forall l d, NoDup (map fst d) ->
                          NoDup (map fst (fold_left trigger_step l d))).
  { induction l as [|nc l IH]; intros d Hd; [exact Hd|]. cbn [fold_left].
    apply IH. unfold trigger_step.
    destruct (Qlt_le_dec _ _); [apply dict_set_NoDup, Hd|exact Hd]. }
  apply H. constructor.
Qed.

Lemma filter_keys_NoDup {V : Type} (f : string * V -> bool) (d : list (string * V)) :
  NoDup (map fst d) -> NoDup (map fst (List.filter f d)).
Proof.
  induction d as [|kv rest IH]; intros Hnd; [constructor|].
  inversion Hnd as [|? ? Hnot Hrest]; subst. cbn [List.filter].
  destruct (f kv); [|apply IH, Hrest].
  cbn [map]. constructor; [|apply IH, Hrest].
  intros Hin. apply Hnot. apply list_elem_of_In, in_map_iff in Hin as (x & Hx & Hin).
  apply filter_In in Hin as [Hin _].
  apply list_elem_of_In, in_map_iff. exists x. split; assumption.
Qed.

(** The choice of a top trigger among those that pass a test. *)
Lemma top_trigger_spec (test : string -> bool) (triggers : list (string * Q)) :
  NoDup (map fst triggers) ->
  let top := max_key (List.filter (fun fc => test (fst fc)) triggers) in
  (forall f, top = Some f ->
             test f = true
             /\ exists wgt, (f, wgt) ∈ triggers
                  /\ forall f' wgt', (f', wgt') ∈ triggers -> test f' = true ->
                                     (wgt' <= wgt)%Q)
  /\ (top = None <-> forall f wgt, (f, wgt) ∈ triggers -> test f = false).
Proof.
  intros Hnd top. split.
  - intros f Hf.
    destruct (max_key_spec _ f (filter_keys_NoDup _ _ Hnd) Hf) as (wgt & Hin & Hmax).
    apply filter_In in Hin as [Hin Htest]. cbn [fst] in Htest.
    split; [exact Htest|]. exists wgt. split; [apply list_elem_of_In, Hin|].
    intros f' wgt' Hin' Htest'. apply (Hmax f').
    apply filter_In. split; [apply list_elem_of_In, Hin'|exact Htest'].
  - split.
    + intros Hnone f wgt Hin. apply max_key_None in Hnone.
      destruct (test f) eqn:Htest; [|reflexivity].
      assert (Hf : In (f, wgt) (List.filter (fun fc => test (fst fc)) triggers))
        by (apply filter_In; split; [apply list_elem_of_In, Hin|exact Htest]).
      rewrite Hnone in Hf. destruct Hf.
    + intros Hall. subst top.
      rewrite (filter_Forall_false (fun fc => test (fst fc)) triggers);
        [reflexivity|].
      apply Forall_forall. intros [f wgt] Hin. apply (Hall f wgt Hin).
Qed.

Section Prompt.
Context {L : Learning}.

(** X23. The context and the action named in the prompt are triggers of the
    cluster: [top_context] is a trigger whose name contains one of
    [CONTEXT_TRIGGERS] and no such trigger has a larger coefficient, and
    it is [None] exactly when no trigger name contains one of them; the
    same holds for [top_action] and [ACTION_TRIGGERS]. *)
Theorem top_triggers_are_heaviest :
  forall (cluster_df : list Clustered) (feature_names : list string)
         (coefficients : list Q),
    let triggers := extract_triggers feature_names coefficients in
    let request := build_request cluster_df triggers in
    (forall f, rq_context request = Some f ->
               is_context f = true
               /\ exists wgt, (f, wgt) ∈ triggers
                    /\ forall f' wgt', (f', wgt') ∈ triggers ->
                                       is_context f' = true -> (wgt' <= wgt)%Q)
    /\ (rq_context request = None
        <-> forall f wgt, (f, wgt) ∈ triggers -> is_context f = false)
    /\ (forall f, rq_action request = Some f ->
                  is_action f = true
                  /\ exists wgt, (f, wgt) ∈ triggers
                       /\ forall f' wgt', (f', wgt') ∈ triggers ->
                                          is_action f' = true -> (wgt' <= wgt)%Q)
    /\ (rq_action request = None
        <-> forall f wgt, (f, wgt) ∈ triggers -> is_action f = false).
Proof.
  intros cluster_df feature_names coefficients triggers request.
  pose proof (extract_triggers_NoDup feature_names coefficients) as Hnd.
  destruct (top_trigger_spec is_context triggers Hnd) as [Hc1 Hc2].
  destruct (top_trigger_spec is_action triggers Hnd) as [Ha1 Ha2].
  split; [exact Hc1|]. split; [exact Hc2|]. split; [exact Ha1|exact Ha2].
Qed.

(** X24. When the feature names are those the one-hot encoder gives to the
    columns of [CATEGORICAL_COLS], every trigger is a context or an
    action trigger, so a cluster that has triggers never reaches the
    prompt with neither a context nor an action. *)
Theorem encoded_triggers_reach_the_prompt :
  forall (cluster_df : list Clustered) (triggers : list (string * Q)),
    (forall f wgt, (f, wgt) ∈ triggers ->
                   exists col value,
                     col ∈ CATEGORICAL_COLS /\ f = one_hot_name col value) ->
    (forall f wgt, (f, wgt) ∈ triggers ->
                   is_context f || is_action f = true)
    /\ (triggers <> [] ->
        rq_context (build_request cluster_df triggers) <> None
        \/ rq_action (build_request cluster_df triggers) <> None).
Proof.
  intros cluster_df triggers Hnames.
  assert (Hall : forall f wgt, (f, wgt) ∈ triggers ->
                               is_context f || is_action f = true).
  { intros f wgt Hin. destruct (Hnames f wgt Hin) as (col & value & Hcol & ->).
    apply one_hot_name_bucket, Hcol. }
  split; [exact Hall|].
  intros Hne. destruct triggers as [|[f wgt] rest]; [contradiction|].
  specialize (Hall f wgt (list_elem_of_here _ _)).
  apply orb_true_iff in Hall as [Hc|Ha]; [left|right]; intros Hnone;
    apply max_key_None in Hnone; cbn [build_request List.filter fst] in Hnone.
  - change (existsb (fun t => contains t f) CONTEXT_TRIGGERS) with (is_context f)
      in Hnone. rewrite Hc in Hnone. discriminate.
  - change (existsb (fun t => contains t f) ACTION_TRIGGERS) with (is_action f)
      in Hnone. rewrite Ha in Hnone. discriminate.
Qed.

End Prompt.

Lemma encoded_triggers_reach_the_prompt_witness :
  let triggers := extract_triggers example_feature_names example_coefficients in
  triggers = [("game_phase_Endgame", 3 # 10)%Q]
  /\ rq_context (build_request (L := example_learning) example_cluster triggers)
     = Some "game_phase_Endgame"
  /\ (rq_context (build_request (L := example_learning) example_cluster triggers)
      <> None
      \/ rq_action (build_request (L := example_learning) example_cluster triggers)
         <> None).
Proof.
  intros triggers. split; [reflexivity|]. split; [reflexivity|].
  apply (encoded_triggers_reach_the_prompt (L := example_learning)
           example_cluster triggers); [|discriminate].
  intros f wgt Hin. apply list_elem_of_singleton in Hin as [= -> _].
  exists "game_phase", "Endgame". split; [|reflexivity].
  unfold CATEGORICAL_COLS. do 2 apply list_elem_of_further. apply list_elem_of_here.
Defined.

(** ** Habit names *)

Lemma string_of_uint_no_H (d : Decimal.uint) :
  ~ In "H"%char (list_ascii_of_string (NilEmpty.string_of_uint d)).
Proof.
  induction d; cbn [NilEmpty.string_of_uint list_ascii_of_string In];
    [tauto|..]; intros [Hc|Hin]; solve [discriminate Hc | exact (IHd Hin)].
Qed.

Lemma str_no_H (n : Z) : ~ In "H"%char (list_ascii_of_string (str n)).
Proof.
  assert (Hu : forall d, ~ In "H"%char
                           (list_ascii_of_string (NilZero.string_of_uint d))).
  { intros d. unfold NilZero.string_of_uint.
    destruct d; try apply string_of_uint_no_H.
    cbn. intros [Hc|[]]. discriminate Hc. }
  unfold str, NilZero.string_of_int. destruct (Z.to_int n) as [d|d].
  - apply Hu.
  - cbn [list_ascii_of_string In]. intros [Hc|Hin]; [discriminate Hc|].
    exact (Hu d Hin).
Qed.

Lemma str_inj (n m : Z) : str n = str m -> n = m.
Proof.
  unfold str. intros Heq. apply DecimalZ.to_int_inj.
  assert (Hn : forall k, Z.to_int k <> Decimal.Pos Decimal.Nil
                         /\ Z.to_int k <> Decimal.Neg Decimal.Nil).
  { intros [|p|p]; cbn; split; try discriminate; intros [= Hp];
      exact (DecimalPos.Unsigned.to_uint_nonnil p Hp). }
  assert (Hs : Some (Z.to_int n) = Some (Z.to_int m)).
  { rewrite <- (NilZero.isi (Z.to_int n)), <- (NilZero.isi (Z.to_int m));
      try apply Hn. rewrite Heq. reflexivity. }
  congruence.
Qed.

Lemma list_ascii_app (a b : string) :
  list_ascii_of_string (a ++ b) = (list_ascii_of_string a ++ list_ascii_of_string b)%list.
Proof.
  induction a as [|c a IH]; [reflexivity|].
  change (c :: list_ascii_of_string (a ++ b)
          = c :: (list_ascii_of_string a ++ list_ascii_of_string b)%list).
  f_equal. exact IH.
Qed.

(** What follows the last "H" of a string is determined by the string. *)
Lemma after_last_H (a b d1 d2 : string) :
  ~ In "H"%char (list_ascii_of_string d1) ->
  ~ In "H"%char (list_ascii_of_string d2) ->
  (a ++ String "H" d1 = b ++ String "H" d2)%string -> d1 = d2.
Proof.
  intros H1 H2. revert b. induction a as [|c a IH]; intros [|c' b]; cbn.
  - intros [= ->]. reflexivity.
  - intros [= <- ->]. exfalso. apply H1. rewrite list_ascii_app.
    apply in_or_app. right. left. reflexivity.
  - intros [= -> <-]. exfalso. apply H2. rewrite list_ascii_app.
    apply in_or_app. right. left. reflexivity.
  - intros [= _ Heq]. apply (IH b Heq).
Qed.

Lemma append_assoc (a b c : string) : ((a ++ b) ++ c = a ++ (b ++ c))%string.
Proof.
  induction a as [|x a IH]; [reflexivity|].
  change (String x ((a ++ b) ++ c) = String x (a ++ (b ++ c)))%string.
  f_equal. exact IH.
Qed.

Lemma append_closing_inj (a b : string) :
  (a ++ ")" = b ++ ")")%string -> a = b.
Proof.
  revert b. induction a as [|c a IH]; intros [|c' b]; cbn.
  - reflexivity.
  - intros [= <- Heq]. destruct b; discriminate Heq.
  - intros [= -> Heq]. destruct a; discriminate Heq.
  - intros [= -> Heq]. f_equal. apply IH, Heq.
Qed.

(** X25. The names given to two clusters with different labels differ,
    whatever names the text generator suggests: the label can be read off
    the end of the name. *)
Theorem habit_names_differ_by_label :
  forall (user1 user2 label1 label2 prime1 prime2 : Z)
         (cluster1 cluster2 : list Clustered)
         (triggers1 triggers2 : list (string * Q))
         (llm_output1 llm_output2 : list (string * string)),
    label1 <> label2 ->
    hr_habit_name (build_habit user1 label1 prime1 cluster1 triggers1 llm_output1)
    <> hr_habit_name (build_habit user2 label2 prime2 cluster2 triggers2 llm_output2).
Proof.
  intros user1 user2 label1 label2 prime1 prime2 cluster1 cluster2
         triggers1 triggers2 llm_output1 llm_output2 Hne Heq.
  cbn [build_habit hr_habit_name] in Heq. apply Hne, str_inj.
  set (s1 := dict_get_default llm_output1 "habit_name" "Unnamed Habit") in Heq.
  set (s2 := dict_get_default llm_output2 "habit_name" "Unnamed Habit") in Heq.
  assert (Hl : forall (s : string) (l : Z),
             (s ++ " (H" ++ str l ++ ")" = (s ++ " (") ++ String "H" (str l ++ ")"))%string).
  { intros s l. rewrite append_assoc. reflexivity. }
  rewrite !Hl in Heq.
  apply after_last_H in Heq.
  - apply append_closing_inj, Heq.
  - rewrite list_ascii_app. intros Hin. apply in_app_or in Hin as [Hin|[Hc|[]]];
      [exact (str_no_H _ Hin)|discriminate Hc].
  - rewrite list_ascii_app. intros Hin. apply in_app_or in Hin as [Hin|[Hc|[]]];
      [exact (str_no_H _ Hin)|discriminate Hc].
Qed.

Lemma habit_names_differ_by_label_witness :
  hr_habit_name (build_habit 7 0 5 example_cluster [] [("habit_name", "Raids")])
  = "Raids (H0)"
  /\ hr_habit_name (build_habit 7 1 5 example_cluster [] [("habit_name", "Raids")])
     = "Raids (H1)"
  /\ hr_habit_name (build_habit 7 0 5 example_cluster [] [("habit_name", "Raids")])
     <> hr_habit_name (build_habit 7 1 5 example_cluster [] [("habit_name", "Raids")]).
Proof.
  split; [reflexivity|]. split; [reflexivity|].
  apply habit_names_differ_by_label. lia.
Defined.

(** ** A run never raises *)

Lemma idxmax_cpl_None (cluster_df : list Clustered) :
  idxmax_cpl cluster_df = None -> cluster_df = [].
Proof.
  destruct cluster_df as [|r rest]; [reflexivity|]. cbn [idxmax_cpl].
  destruct (idxmax_cpl rest); [destruct (_ <? _)|]; discriminate.
Qed.

Lemma filter_label_nonempty (label : Z) (df : list Clustered) :
  In label (map habit_id df) ->
  List.filter (fun r => Z.eqb (habit_id r) label) df <> [].
Proof.
  intros Hin Hnil. apply in_map_iff in Hin as (r & <- & Hr).
  assert (Hf : In r (List.filter (fun r' => Z.eqb (habit_id r') (habit_id r)) df))
    by (apply filter_In; split; [exact Hr|apply Z.eqb_refl]).
  rewrite Hnil in Hf. destruct Hf.
Qed.

Section Total.
Context {P : Persistence} {L : Learning} {T : TextGeneration}.

Lemma generate_and_save_feedback_returns (user_id hdbscan_label : Z)
      (cluster_df : list Clustered) (coefficients : list Q)
      (feature_names : list string) (w : World) :
  cluster_df <> [] ->
  (exists new_id,
      fst (_generate_and_save_feedback user_id hdbscan_label cluster_df
                                       coefficients feature_names w) = Ok new_id)
  \/ (fst (_generate_and_save_feedback user_id hdbscan_label cluster_df
                                       coefficients feature_names w)
      = Raise AttributeError
      /\ exists st request,
           tool_arguments (fst (chat_completions_create st request))
           = Some JsonOther).
Proof.
  intros Hne. unfold _generate_and_save_feedback.
  destruct (extract_triggers feature_names coefficients) as [|t ts];
    [left; eexists; reflexivity|].
  destruct (idxmax_cpl cluster_df) as [prime|] eqn:Hprime;
    [|apply idxmax_cpl_None in Hprime; contradiction].
  destruct (generate_llm_feedback_answer (build_request cluster_df (t :: ts)) w)
    as (answer & Hanswer & Horigin).
  destruct (_generate_llm_feedback _ w) as [llm_output w0].
  cbn [fst] in Hanswer. subst llm_output.
  destruct answer as [output|].
  - destruct (save_habit_analysis _ _) as [nid d]. left. eexists; reflexivity.
  - right. split; [reflexivity|].
    destruct Horigin as [Hfallback|[st Hst]]; [discriminate Hfallback|eauto].
Qed.

Lemma habit_loop_returns (labels : list Z) (user_id : Z)
      (habits_df df_clustered : list Clustered) (preprocessor : Preprocessor)
      (count : Z) (w : World) :
  Forall (fun label => In label (map habit_id habits_df)) labels ->
  (exists new_habit_count,
      fst (habit_loop labels user_id habits_df df_clustered preprocessor count w)
      = Ok new_habit_count)
  \/ (fst (habit_loop labels user_id habits_df df_clustered preprocessor count w)
      = Raise AttributeError
      /\ exists st request,
           tool_arguments (fst (chat_completions_create st request))
           = Some JsonOther).
Proof.
  intros Hlabels. revert count w.
  induction Hlabels as [|label labels Hlabel _ IH]; intros count w;
    cbn [habit_loop]; [left; eexists; reflexivity|].
  destruct (_find_triggers_for_cluster _ _ _) as [[coefficients feature_names]|];
    [|apply IH].
  destruct (generate_and_save_feedback_returns
              user_id label
              (List.filter (fun r => Z.eqb (habit_id r) label) habits_df)
              coefficients feature_names w (filter_label_nonempty _ _ Hlabel))
    as [[new_id Hnew]|[Hraise Hwhy]];
    destruct (_generate_and_save_feedback _ _ _ _ _ w) as [r w1];
    cbn [fst] in *; subst r.
  - destruct (truthy new_id); apply IH.
  - right. split; [reflexivity|exact Hwhy].
Qed.

(** X20. One exception can leave [main_analysis_pipeline], given that the
    database helpers and the learning libraries answer: the
    [AttributeError] of [llm_output.get] in
    [_generate_and_save_feedback], when a call of the text generator has
    given arguments that parse to something that is not a dict ([null],
    a list, a number, a string).  Otherwise the run returns its result:
    the other places where the body could raise are out of reach, since a
    cluster of the loop is never empty ([idxmax] has a row to name). *)
Theorem main_analysis_pipeline_raises_only_on_a_non_dict_answer :
  forall (user_id : Z) (w : World),
    (exists result, fst (main_analysis_pipeline user_id w) = Ok result)
    \/ (fst (main_analysis_pipeline user_id w) = Raise AttributeError
        /\ exists st request,
             tool_arguments (fst (chat_completions_create st request))
             = Some JsonOther).
Proof.
  intros user_id w. unfold main_analysis_pipeline.
  destruct (_ <? 20); [left; eexists; reflexivity|].
  set (all_mistakes := get_all_mistakes_for_user_v6 _ user_id).
  set (df_clustered := _run_hdbscan_clustering all_mistakes).
  set (habits_df := List.filter _ df_clustered).
  destruct habits_df as [|r habits_df'] eqn:Hdf; [left; eexists; reflexivity|].
  destruct (_create_feature_preprocessor all_mistakes) as [preprocessor|];
    [|left; eexists; reflexivity].
  match goal with |- context [habit_loop ?l ?u ?h ?d ?p ?c ?s] =>
    destruct (habit_loop_returns l u h d p c s) as [[n Hn]|[Hraise Hwhy]] end.
  { apply unique_Forall, Forall_forall. intros x Hx.
    apply list_elem_of_In, Hx. }
  - destruct (habit_loop _ _ _ _ _ _ _) as [res w4]. cbn [fst] in Hn. subst res.
    left. eexists; reflexivity.
  - destruct (habit_loop _ _ _ _ _ _ _) as [res w4]. cbn [fst] in Hraise.
    subst res. right. split; [reflexivity|exact Hwhy].
Qed.

End Total.

(** The text generator answers the first cluster with the arguments
    [null]: the run raises. *)
Lemma main_analysis_pipeline_raises_only_on_a_non_dict_answer_witness :
  let w := example_world 25 1
             [ToolCall "generate_habit_feedback" (Some JsonOther)] in
  fst (main_analysis_pipeline 7 w) = Raise AttributeError
  /\ ((exists result, fst (main_analysis_pipeline 7 w) = Ok result)
      \/ (fst (main_analysis_pipeline 7 w) = Raise AttributeError
          /\ exists st request,
               tool_arguments
                 (fst (chat_completions_create (TextGeneration := scripted_llm)
                                              st request))
               = Some JsonOther)).
Proof.
  intros w. split; [reflexivity|].
  apply (main_analysis_pipeline_raises_only_on_a_non_dict_answer
           (P := example_persistence) (L := example_learning)
           (T := scripted_llm)).
Defined.

End AnalysisProperties.
(* ===================================================================== *)
(** * More facts about the dissimilarity matrix                           *)
(* ===================================================================== *)

Module ClusteringProperties.
Import Gower GowerFacts.

Local Open Scope list_scope.
Local Open Scope R_scope.

Lemma Rsum_map_zero_on {A : Type} (f : A -> R) (l : list A) :
  (forall x, In x l -> f x = 0) -> Rsum (map f l) = 0.
Proof.
  induction l as [|x l IH]; intros Hf; simpl; [reflexivity|].
  rewrite (Hf x) by (left; reflexivity).
  rewrite IH by (intros y Hy; apply Hf; right; exact Hy). lra.
Qed.

Lemma sij_num_same (col : list R) (i j : nat) :
  nth i col 0 = nth j col 0 -> sij_num col i j = 0.
Proof.
  intros Heq. unfold sij_num, normalised. rewrite Heq.
  destruct (Req_dec_T (num_range col) 0); [reflexivity|].
  replace ((if Req_dec_T (col_max col) 0 then 0 else nth j col 0 / col_max col)
           - (if Req_dec_T (col_max col) 0 then 0 else nth j col 0 / col_max col))
    with 0 by lra.
  rewrite Rabs_R0. unfold Rdiv. lra.
Qed.

Lemma sij_cat_same (col : list string) (i j : nat) :
  nth i col EmptyString = nth j col EmptyString -> sij_cat col i j = 0.
Proof. intros Heq. unfold sij_cat. rewrite bool_decide_eq_true_2; auto. Qed.

(** Two rows that agree in every column are at distance zero. *)
Lemma gower_get_same (X : Frame) (i j : nat) :
  (forall col, In col (Gower.categorical X) ->
               nth i col EmptyString = nth j col EmptyString) ->
  (forall col, In col (numeric X) -> nth i col 0 = nth j col 0) ->
  gower_get X i j = 0.
Proof.
  intros Hcat Hnum. unfold gower_get.
  rewrite (Rsum_map_zero_on (fun col => sij_cat col i j))
    by (intros col Hcol; apply sij_cat_same, Hcat, Hcol).
  rewrite (Rsum_map_zero_on (fun col => sij_num col i j))
    by (intros col Hcol; apply sij_num_same, Hnum, Hcol).
  unfold Rdiv. lra.
Qed.

Lemma nth_map_lookup {A B : Type} (f : A -> B) (l : list A) (i : nat) (x : A)
      (d : B) :
  l !! i = Some x -> nth i (map f l) d = f x.
Proof.
  revert i. induction l as [|y l IH]; intros [|i] Hi; try discriminate.
  - injection Hi as ->. reflexivity.
  - cbn. apply IH, Hi.
Qed.

Lemma lookup_map {A B : Type} (f : A -> B) (l : list A) (i : nat) (x : A) :
  l !! i = Some x -> map f l !! i = Some (f x).
Proof.
  revert i. induction l as [|y l IH]; intros [|i] Hi; try discriminate.
  - injection Hi as ->. reflexivity.
  - cbn. apply IH, Hi.
Qed.

Lemma gower_matrix_entry (X : Frame) (n i j : nat) (d : R) :
  (i < n)%nat -> (j < n)%nat ->
  nth j (nth i (gower_matrix X n) []) d
  = gower_get X (Nat.min i j) (Nat.max i j).
Proof.
  intros Hi Hj. unfold gower_matrix. rewrite nth_map_seq.
  apply Nat.ltb_lt in Hi as ->.
  rewrite (nth_map_seq (fun b => gower_get X (Nat.min i b) (Nat.max i b))).
  apply Nat.ltb_lt in Hj as ->. reflexivity.
Qed.

(** Rows of the frame that come from mistakes with the same numeric and
    categorical values agree in every column. *)
Lemma gower_frame_same (df : list Analysis.Mistake) (i j : nat)
      (r1 r2 : Analysis.Mistake) :
  df !! i = Some r1 -> df !! j = Some r2 ->
  Analysis.cpl r1 = Analysis.cpl r2 ->
  Analysis.move_number r1 = Analysis.move_number r2 ->
  Analysis.categorical r1 = Analysis.categorical r2 ->
  gower_get (Analysis.gower_frame df) i j = 0.
Proof.
  intros Hi Hj Hcpl Hmove Hcat. apply gower_get_same.
  - unfold Analysis.gower_frame. cbn [Gower.categorical].
    intros col Hcol. apply in_map_iff in Hcol as (k & <- & _).
    rewrite (nth_map_lookup _ df i r1), (nth_map_lookup _ df j r2) by assumption.
    rewrite Hcat. reflexivity.
  - unfold Analysis.gower_frame, standard_scale. cbn [numeric].
    intros col [<-|[<-|[]]].
    + rewrite (nth_map_lookup _ _ i (IZR (Analysis.cpl r1)))
        by (apply (lookup_map (fun r => IZR (Analysis.cpl r))), Hi).
      rewrite (nth_map_lookup _ _ j (IZR (Analysis.cpl r2)))
        by (apply (lookup_map (fun r => IZR (Analysis.cpl r))), Hj).
      rewrite Hcpl. reflexivity.
    + rewrite (nth_map_lookup _ _ i (IZR (Analysis.move_number r1)))
        by (apply (lookup_map (fun r => IZR (Analysis.move_number r))), Hi).
      rewrite (nth_map_lookup _ _ j (IZR (Analysis.move_number r2)))
        by (apply (lookup_map (fun r => IZR (Analysis.move_number r))), Hj).
      rewrite Hmove. reflexivity.
Qed.

(** X26. Two mistakes with the same cpl, the same move number and the same
    categorical values are at distance zero in the matrix handed to the
    clusterer, wherever they stand in the frame.  (The entry is read with
    default 1, so that the statement says that it is there.) *)
Theorem duplicate_mistakes_are_at_distance_zero :
  forall (df : list Analysis.Mistake) (i j : nat) (r1 r2 : Analysis.Mistake),
    df !! i = Some r1 -> df !! j = Some r2 ->
    Analysis.cpl r1 = Analysis.cpl r2 ->
    Analysis.move_number r1 = Analysis.move_number r2 ->
    Analysis.categorical r1 = Analysis.categorical r2 ->
    nth j (nth i (gower_matrix (Analysis.gower_frame df) (length df)) []) 1 = 0.
Proof.
  intros df i j r1 r2 Hi Hj Hcpl Hmove Hcat.
  rewrite gower_matrix_entry
    by (apply lookup_lt_is_Some_1; eauto).
  destruct (Nat.le_ge_cases i j) as [Hle|Hle].
  - rewrite Nat.min_l, Nat.max_r by exact Hle.
    apply (gower_frame_same df i j r1 r2); assumption.
  - rewrite Nat.min_r, Nat.max_l by exact Hle.
    apply (gower_frame_same df j i r2 r1); auto.
Qed.

Lemma duplicate_mistakes_are_at_distance_zero_witness :
  let r := Analysis.mkMistake 1 120 14 ["Mistake"; "Hanging_Piece"] in
  let r' := Analysis.mkMistake 2 120 14 ["Mistake"; "Hanging_Piece"] in
  let other := Analysis.mkMistake 3 300 30 ["Blunder"; "Missed_Tactic"] in
  nth 2 (nth 0 (gower_matrix (Analysis.gower_frame [r; other; r']) 3) []) 1 = 0.
Proof.
  intros r r' other.
  apply (duplicate_mistakes_are_at_distance_zero [r; other; r'] 0 2 r r');
    reflexivity.
Defined.

End ClusteringProperties.

(* ===================================================================== *)
(** * Facts about storing the mistakes                                    *)
(* ===================================================================== *)

Module IngestProperties.
Import Py Chess Matches Ingest.

Local Open Scope string_scope.
Local Open Scope list_scope.
Local Open Scope Z_scope.

Ltac res_simpl := unfold mbind, res_bind, mret, res_ret in *; simpl in *.

Section Process.
Context {ops : BoardOps} {eng : Engine} {txt : Text} {src : Sources}.

(** ** The two readings of the loop of [analyze_game_fully] agree *)

Lemma analyze_moves_from_result (moves : list Move) (es : EngineState)
      (b : Board) (user_color : Color) (mistakes_list : list mistake_data) :
  analyze_moves moves es b user_color mistakes_list
  = match analyze_moves_from moves es b user_color mistakes_list with
    | Ok (l, _) => Ok l
    | Raise e => Raise e
    end.
Proof.
  revert es b mistakes_list.
  induction moves as [|move rest IH]; intros es b mistakes_list;
    cbn [analyze_moves analyze_moves_from]; [reflexivity|].
  destruct (Bool.eqb (turn b) user_color); [|apply IH].
  destruct (is_game_over b); [apply IH|].
  destruct (analyze_ply es b move user_color) as [[[m b'] es']|e];
    unfold mbind, res_bind; [apply IH|reflexivity].
Qed.

Lemma analyze_game_fully_from_result (game : Game) (username : string)
      (es : EngineState) :
  analyze_game_fully game username es
  = match analyze_game_fully_from game username es with
    | Ok (l, _) => Ok l
    | Raise e => Raise e
    end.
Proof.
  unfold analyze_game_fully, analyze_game_fully_from.
  repeat case_bool_decide; try apply analyze_moves_from_result. reflexivity.
Qed.

(** ** Rows *)

(** The tuple built for a mistake of [analyze_game_fully] once
    [process_user_games] has put the game id in: every column of
    [columns] finds its key. *)
Lemma values_tuple_with_game_id (m : mistake_data) (new_game_id : Z) :
  values_tuple (with_game_id (mistake_dict m) new_game_id)
  = [VInt new_game_id;
     VInt (move_number m); VStr (player_color m); VStr (prior_fen m);
     VStr (move_made m); VStr (best_move m);
     VInt (cpl m); VStr (mistake_type m); VStr (mistake_category m);
     VStr (game_phase m); VStr (material_balance m); VStr (board_complexity m);
     VStr (king_self_safety m); VStr (king_opponent_status m);
     VStr (castling_status_self m);
     VStr (piece_moved m); VStr (move_type m);
     VBool (piece_was_attacked m); VBool (piece_was_defended m);
     VBool (piece_was_defending m); VBool (piece_was_pinned m)].
Proof. reflexivity. Qed.

Lemma rows_of_app (q1 q2 : list Call) : rows_of (q1 ++ q2) = rows_of q1 ++ rows_of q2.
Proof. unfold rows_of. apply flat_map_app. Qed.

(** ** The loop over the games *)

Lemma games_loop_calls (games : list game_json) (username : string)
      (user_id : Z) (acc : list (list (string * Val))) (w : State) :
  exists q,
    calls (snd (games_loop games username user_id acc w)) = calls w ++ q
    /\ games_then_analyses user_id q
    /\ Forall (fun c => match c with CallExecuteValues _ => False | _ => True end) q
    /\ match fst (games_loop games username user_id acc w) with
       | Ok all_mistakes_to_insert =>
           map values_tuple all_mistakes_to_insert
           = map values_tuple acc ++ rows_of q
       | Raise _ => True
       end.
Proof.
  revert acc w. induction games as [|game_json rest IH]; intros acc w.
  { exists []. cbn. rewrite !app_nil_r. repeat split. constructor. }
  cbn [games_loop].
  destruct (pgn_parse (gj_pgn game_json)) as [game_obj|]; [|apply IH].
  destruct (strptime _) as [game_date_obj|e].
  2:{ exists []. cbn. rewrite app_nil_r. repeat split. constructor. }
  destruct (gj_url game_json) as [url|].
  2:{ exists []. cbn. rewrite app_nil_r. repeat split. constructor. }
  destruct (insert_game _ _ _ _ _ _ _) as [new_game_id c].
  destruct (Analysis.truthy new_game_id) as [new_id|] eqn:Hid.
  - cbn [engine calls].
    destruct (analyze_game_fully_from _ _ _) as [[mistakes es]|e].
    + match goal with |- context [games_loop rest username user_id ?a ?s] =>
        destruct (IH a s) as (q & Hq & Hpair & Hno & Hrows) end.
      exists (CallInsertGame user_id (split_last url "") new_game_id
              :: CallAnalyse new_id (pg_game game_obj) (Ok mistakes) :: q).
      split; [rewrite Hq; cbn [calls]; rewrite <- !app_assoc; reflexivity|].
      split; [cbn [games_then_analyses]; rewrite Hid; auto|].
      split; [repeat constructor; exact Hno|].
      destruct (fst (games_loop rest username user_id _ _)); [|exact I].
      rewrite Hrows, map_app, <- app_assoc. f_equal.
      unfold rows_of. cbn [flat_map app]. rewrite map_map. reflexivity.
    + eexists [_; _]. cbn [snd fst calls].
      split; [rewrite <- app_assoc; reflexivity|].
      split; [cbn [games_then_analyses]; rewrite Hid; auto|].
      split; [repeat constructor|exact I].
  - match goal with |- context [games_loop rest username user_id ?a ?s] =>
      destruct (IH a s) as (q & Hq & Hpair & Hno & Hrows) end.
    exists (CallInsertGame user_id (split_last url "") new_game_id :: q).
    split; [rewrite Hq; cbn [calls]; rewrite <- app_assoc; reflexivity|].
    split; [cbn [games_then_analyses]; rewrite Hid; auto|].
    split; [constructor; [exact I|exact Hno]|].
    destruct (fst (games_loop rest username user_id _ _)); [|exact I].
    rewrite Hrows. reflexivity.
Qed.

(** What follows an analysis in a sequence of calls of the loop. *)
Lemma analysed_games_were_inserted (user_id : Z) (q : list Call) :
  games_then_analyses user_id q ->
  forall new_id game outcome,
    In (CallAnalyse new_id game outcome) q ->
    new_id <> 0
    /\ exists source_game_id,
         In (CallInsertGame user_id source_game_id (Some new_id)) q.
Proof.
  remember (length q) as n eqn:Hn. revert q Hn.
  induction n as [n IH] using lt_wf_ind. intros q Hn Hq new_id game outcome Hin.
  destruct q as [|c q]; [destruct Hin|].
  destruct c as [u s nid| |]; cbn [games_then_analyses] in Hq; try contradiction.
  destruct Hq as [-> Hq].
  destruct Hin as [Hin|Hin]; [discriminate Hin|].
  destruct (Analysis.truthy nid) as [i|] eqn:Hid.
  - destruct q as [|[| i' g o |] q']; try contradiction.
    destruct Hq as [-> Hq].
    assert (Hnid : nid = Some i /\ i <> 0).
    { unfold Analysis.truthy in Hid. destruct nid as [k|]; [|discriminate].
      destruct (Z.eqb_spec k 0); [discriminate|]. injection Hid as ->. auto. }
    destruct Hnid as [-> Hi0].
    destruct Hin as [Hin|Hin].
    + injection Hin as -> -> ->. split; [exact Hi0|].
      exists s. left. reflexivity.
    + destruct o as [l|e]; [|subst q'; destruct Hin].
      destruct (IH (length q')) with (q := q') (new_id := new_id)
                                     (game := game) (outcome := outcome)
        as (H0 & s' & Hs'); [cbn in Hn; lia|reflexivity|exact Hq|exact Hin|].
      split; [exact H0|]. exists s'. right. right. exact Hs'.
  - destruct (IH (length q)) with (q := q) (new_id := new_id)
                                  (game := game) (outcome := outcome)
      as (H0 & s' & Hs'); [cbn in Hn; lia|reflexivity|exact Hq|exact Hin|].
    split; [exact H0|]. exists s'. right. exact Hs'.
Qed.

Lemma rows_of_In (q : list Call) (values : list Val) :
  In values (rows_of q) ->
  exists new_id game mistakes m,
    In (CallAnalyse new_id game (Ok mistakes)) q /\ In m mistakes
    /\ values = values_tuple (with_game_id (mistake_dict m) new_id).
Proof.
  unfold rows_of. intros Hin. apply in_flat_map in Hin as (c & Hc & Hin).
  destruct c as [| new_id game [mistakes|e] |]; try destruct Hin.
  apply in_map_iff in Hin as (m & <- & Hm). eauto 10.
Qed.

(** ** The whole run *)

Lemma process_user_games_trace :
  forall (username : string) (year month : Z) (w : State),
    let run := process_user_games username year month w in
    exists (user_id : Z) (q : list Call),
      games_then_analyses user_id q
      /\ (q <> [] ->
          Analysis.truthy (get_user_by_username (cur w) username) = Some user_id)
      /\ Forall (fun c => match c with CallExecuteValues _ => False | _ => True end) q
      /\ calls (snd run)
         = calls w ++ q
           ++ match fst run, rows_of q with
              | Ok _, values :: values_list =>
                  [CallExecuteValues (values :: values_list)]
              | _, _ => []
              end.
Proof.
  intros username year month w run. subst run. unfold process_user_games.
  destruct (Analysis.truthy (get_user_by_username (cur w) username))
    as [user_id|] eqn:Huser.
  2:{ exists 0, []. cbn. rewrite app_nil_r.
      split; [exact I|]. split; [congruence|]. split; [constructor|reflexivity]. }
  assert (Hnothing :
            exists (user_id0 : Z) (q : list Call),
              games_then_analyses user_id0 q
              /\ (q <> [] -> Some user_id = Some user_id0)
              /\ Forall (fun c => match c with
                                  | CallExecuteValues _ => False
                                  | _ => True
                                  end) q
              /\ calls (snd (Ok tt, w))
                 = calls w ++ q
                   ++ match fst (Ok tt, w), rows_of q with
                      | Ok _, values :: values_list =>
                          [CallExecuteValues (values :: values_list)]
                      | _, _ => []
                      end).
  { exists user_id, []. cbn. rewrite app_nil_r.
    split; [exact I|]. split; [congruence|]. split; [constructor|reflexivity]. }
  destruct (get_player_matches username year month) as [[[|game_json rest]|]|];
    try exact Hnothing.
  clear Hnothing.
  destruct (games_loop_calls (game_json :: rest) username user_id [] w)
    as (q & Hq & Hpair & Hno & Hrows).
  destruct (games_loop (game_json :: rest) username user_id [] w)
    as [[all_mistakes|e] w1]; cbn [fst snd] in *.
  - exists user_id, q. split; [exact Hpair|]. split; [reflexivity|].
    split; [exact Hno|]. cbn [map app] in Hrows.
    destruct all_mistakes as [|mistake all_mistakes]; cbn [fst snd].
    + rewrite <- Hrows. cbn [map]. rewrite app_nil_r. exact Hq.
    + cbn [batch_insert_mistakes calls]. rewrite Hq, <- Hrows, <- app_assoc.
      reflexivity.
  - exists user_id, q. split; [exact Hpair|]. split; [reflexivity|].
    split; [exact Hno|]. rewrite app_nil_r. exact Hq.
Qed.

(** X15. The calls of a run of [process_user_games], after those made
    before: [insert_game] calls, each for the user found by name;
    [analyze_game_fully] right after each insert that answered with an id
    (not zero) and after no other one; nothing after an analysis that
    raised.  Then the run has raised and nothing more is done, or the
    analyses have given no mistake and the run returns, or it returns
    after one [execute_values] whose rows are the mistakes of the analysed
    games in order, each with the id of its game.  When no user is found
    by the name, no call is made. *)
Theorem process_user_games_calls :
  forall (username : string) (year month : Z) (w : State),
    let run := process_user_games username year month w in
    exists (user_id : Z) (q : list Call),
      games_then_analyses user_id q
      /\ (q <> [] ->
          Analysis.truthy (get_user_by_username (cur w) username) = Some user_id)
      /\ Forall (fun c => match c with CallExecuteValues _ => False | _ => True end) q
      /\ ((raised (fst run) /\ calls (snd run) = calls w ++ q)
          \/ (fst run = Ok tt /\ rows_of q = []
              /\ calls (snd run) = calls w ++ q)
          \/ (fst run = Ok tt /\ rows_of q <> []
              /\ calls (snd run) = calls w ++ q ++ [CallExecuteValues (rows_of q)])).
Proof.
  intros username year month w run.
  destruct (process_user_games_trace username year month w)
    as (user_id & q & Hpair & Huser & Hno & Hq).
  fold run in Hq. exists user_id, q.
  split; [exact Hpair|]. split; [exact Huser|]. split; [exact Hno|].
  destruct (fst run) as [[]|e].
  - destruct (rows_of q) as [|values values_list].
    + right. left. rewrite app_nil_r in Hq. auto.
    + right. right. split; [reflexivity|]. split; [discriminate|exact Hq].
  - left. rewrite app_nil_r in Hq. split; [exact I|exact Hq].
Qed.

Lemma split_at_execute_values (q tail pre post : list Call)
      (values_list : list (list Val)) :
  Forall (fun c => match c with CallExecuteValues _ => False | _ => True end) q ->
  tail = [] \/ (exists rows, tail = [CallExecuteValues rows]) ->
  q ++ tail = pre ++ CallExecuteValues values_list :: post ->
  pre = q /\ tail = [CallExecuteValues values_list] /\ post = [].
Proof.
  intros Hno Htail. revert pre.
  induction Hno as [|c q Hc Hno IH]; intros pre Heq.
  - cbn [app] in Heq. destruct Htail as [->|[rows ->]].
    + destruct pre; discriminate Heq.
    + destruct pre as [|c pre].
      * injection Heq as -> <-. auto.
      * injection Heq as _ Heq. destruct pre; discriminate Heq.
  - destruct pre as [|c' pre].
    + injection Heq as -> _. contradiction.
    + injection Heq as <- Heq. destruct (IH pre Heq) as (-> & Ht & Hp). auto.
Qed.

(** X16. Every row handed to [execute_values] has a value for each of the 21
    columns, none of them [None], and starts with the id, not zero, that
    an [insert_game] of this run returned for a game of this user. *)
Theorem inserted_rows_are_complete :
  forall (username : string) (year month : Z) (w : State)
         (pre post : list Call) (values_list : list (list Val))
         (values : list Val),
    let run := process_user_games username year month w in
    calls (snd run) = calls w ++ pre ++ CallExecuteValues values_list :: post ->
    values ∈ values_list ->
    length values = length columns
    /\ (VNone ∉ values)
    /\ exists user_id new_game_id source_game_id,
         Analysis.truthy (get_user_by_username (cur w) username) = Some user_id
         /\ new_game_id <> 0
         /\ head values = Some (VInt new_game_id)
         /\ CallInsertGame user_id source_game_id (Some new_game_id) ∈ pre.
Proof.
  intros username year month w pre post values_list values run Hcalls Hin.
  destruct (process_user_games_trace username year month w)
    as (user_id & q & Hpair & Huser & Hno & Hq).
  fold run in Hq. rewrite Hq in Hcalls. apply app_inv_head in Hcalls.
  apply split_at_execute_values in Hcalls as (-> & Htail & _); [|exact Hno|].
  2:{ destruct (fst run); [|left; reflexivity].
      destruct (rows_of q); [left; reflexivity|right; eauto]. }
  assert (Hrows : values_list = rows_of q).
  { destruct (fst run); [|discriminate Htail].
    destruct (rows_of q); [discriminate Htail|]. congruence. }
  subst values_list. clear Htail Hq.
  apply list_elem_of_In, rows_of_In in Hin
    as (new_id & game & mistakes & m & Hcall & _ & ->).
  destruct (analysed_games_were_inserted user_id q Hpair _ _ _ Hcall)
    as (Hid & source_game_id & Hins).
  rewrite values_tuple_with_game_id.
  split; [reflexivity|]. split.
  { intros Hnone. repeat (apply elem_of_cons in Hnone as [Hnone|Hnone];
                          [discriminate Hnone|]).
    apply elem_of_nil in Hnone. exact Hnone. }
  exists user_id, new_id, source_game_id.
  split; [apply Huser; intros ->; destruct Hcall|].
  split; [exact Hid|]. split; [reflexivity|]. apply list_elem_of_In, Hins.
Qed.

(** X17. When a run raises (a date that does not parse, a game without url, an
    engine failure inside [analyze_game_fully]), it has written no
    mistake: not those of the game at hand and not those found in the
    games analysed before it, whose [insert_game] calls have been made. *)
Theorem a_run_that_raises_stores_no_mistake :
  forall (username : string) (year month : Z) (w : State),
    let run := process_user_games username year month w in
    raised (fst run) ->
    exists (user_id : Z) (q : list Call),
      calls (snd run) = calls w ++ q
      /\ games_then_analyses user_id q
      /\ Forall (fun c => match c with CallExecuteValues _ => False | _ => True end) q.
Proof.
  intros username year month w run Hraised.
  destruct (process_user_games_trace username year month w)
    as (user_id & q & Hpair & _ & Hno & Hq).
  fold run in Hq. exists user_id, q.
  destruct (fst run); [destruct Hraised|].
  rewrite app_nil_r in Hq. auto.
Qed.

End Process.

Lemma inserted_rows_are_complete_witness :
  let run := process_user_games (ops := example_ops) (eng := scripted_engine)
                                (txt := ascii_text)
                                "Alice" 2024 5 example_state in
  let values :=
    [VInt 41; VInt 30; VStr "white"; VStr ""; VStr ""; VStr "";
     VInt 400; VStr "Blunder"; VStr "Hanging_Piece";
     VStr "Endgame"; VStr "Winning"; VStr "Low";
     VStr "In_Check"; VStr "In_Check"; VStr "Cannot_Castle";
     VStr "QUEEN"; VStr "Quiet";
     VBool false; VBool true; VBool false; VBool false] in
  stored_rows (cur (snd run)) = [values]
  /\ length values = length columns
  /\ (VNone ∉ values).
Proof.
  intros run values. split; [vm_compute; reflexivity|].
  destruct (inserted_rows_are_complete
              (ops := example_ops) (eng := scripted_engine) (txt := ascii_text)
              "Alice" 2024 5 example_state
              (take 3 (calls (snd run))) [] [values] values)
    as (Hlen & Hnone & _).
  - vm_compute. reflexivity.
  - apply list_elem_of_here.
  - split; assumption.
Defined.

Lemma a_run_that_raises_stores_no_mistake_witness :
  let run := process_user_games (ops := example_ops) (eng := scripted_engine)
                                (txt := ascii_text)
                                "Alice" 2024 5 example_state_failing in
  fst run = Raise EngineError
  /\ stored_rows (cur (snd run)) = []
  /\ known_games (cur (snd run)) = ["113"; "111"]
  /\ length (rows_of (calls (snd run))) = 1%nat
  /\ exists (user_id : Z) (q : list Call),
       calls (snd run) = calls example_state_failing ++ q
       /\ games_then_analyses user_id q
       /\ Forall (fun c => match c with
                           | CallExecuteValues _ => False
                           | _ => True
                           end) q.
Proof.
  intros run. split; [vm_compute; reflexivity|].
  split; [vm_compute; reflexivity|]. split; [vm_compute; reflexivity|].
  split; [vm_compute; reflexivity|].
  apply (a_run_that_raises_stores_no_mistake
           (ops := example_ops) (eng := scripted_engine) (txt := ascii_text)
           "Alice" 2024 5 example_state_failing).
  vm_compute. exact I.
Defined.

End IngestProperties.

